(** * The study-assistant chat agent: knowledge store, quiz ledger and
      plan scheduler

    A shallow embedding of the [Chat] durable object of [server.ts]
    (the class that owns the SQLite tables and drives the plan-then-execute
    flow), together with the properties its specification states.

    Conventions of the embedding.
    - JavaScript strings are byte strings ([string]); the regular
      expressions and [trim] are modelled on the ASCII range.
    - Integral JavaScript numbers are [Z]; the one computation whose
      binary64 rounding matters, [mastery * 0.7 + score * 0.3], is carried
      out in binary64 with [SpecFloat].
    - The numbers of the tables (scores, mastery and confidence levels,
      counts) are whole numbers, as their [INTEGER] columns say, and the
      properties of the tables are stated for whole numbers.  The schemas
      of the tools ([z.number()]) and the type affinity of SQLite would
      let a fractional number through; such a number is outside the
      tables of the model, and the one place where it changes a result,
      the rounding of the mastery, is shown on the expression itself
      ([smoothed]).
    - SQLite tables are lists of rows in rowid order; a single-row table
      ([id = 1]) is an [option].
    - An operation of the class is a function on the agent state that
      returns the new state, the console/inference trace and either a value
      or the exception thrown.  Instance fields written before a [throw]
      stay written, exactly as in the class. *)

From Stdlib Require Import ZArith List String Ascii Bool Lia.
From Stdlib Require Import QArith Qround SpecFloat.
From Stdlib Require Import Permutation Sorted.
From Stdlib Require Import DecimalString DecimalNat.
Import ListNotations.

Local Open Scope string_scope.
Local Open Scope list_scope.
Local Open Scope Z_scope.

(* ================================================================== *)
(** ** JavaScript strings *)
(* ================================================================== *)

Module Js.

(** Characters built from their code, so that no literal needs an
    escape. *)
Definition chr (n : nat) : ascii := ascii_of_nat n.
Definition LF : string := String (chr 10) EmptyString.
Definition DQUOTE : string := String (chr 34) EmptyString.

(** [\s] of a regular expression, [String.prototype.trim] and the
    leading blanks [parseInt] skips, restricted to ASCII. *)
Definition is_space (c : ascii) : bool :=
  let n := nat_of_ascii c in
  ((9 <=? n) && (n <=? 13))%nat || (n =? 32)%nat.

Definition is_digit (c : ascii) : bool :=
  let n := nat_of_ascii c in ((48 <=? n) && (n <=? 57))%nat.

Definition digit_value (c : ascii) : Z := Z.of_nat (nat_of_ascii c) - 48.

(** The line terminators that [.] refuses to match. *)
Definition is_line_terminator (c : ascii) : bool :=
  let n := nat_of_ascii c in (n =? 10)%nat || (n =? 13)%nat.

(** ASCII case folding, as the [i] flag applies it. *)
Definition lower (c : ascii) : ascii :=
  let n := nat_of_ascii c in
  if ((65 <=? n) && (n <=? 90))%nat then ascii_of_nat (n + 32) else c.

Fixpoint skip_spaces (s : string) : string :=
  match s with
  | String c s' => if is_space c then skip_spaces s' else s
  | EmptyString => EmptyString
  end.

Fixpoint rev_string_onto (s acc : string) : string :=
  match s with
  | EmptyString => acc
  | String c s' => rev_string_onto s' (String c acc)
  end.

Definition rev_string (s : string) : string := rev_string_onto s EmptyString.

(** [s.trim()] *)
Definition trim (s : string) : string :=
  rev_string (skip_spaces (rev_string (skip_spaces s))).

(** [s.startsWith(p)] *)
Definition startsWith (p s : string) : bool := String.prefix p s.

(** Case-insensitive match of the literal [p] at the head of [s];
    returns what follows the match. *)
Fixpoint strip_prefix_ci (p s : string) : option string :=
  match p, s with
  | EmptyString, _ => Some s
  | String a p', String b s' =>
      if Ascii.eqb (lower a) (lower b) then strip_prefix_ci p' s' else None
  | String _ _, EmptyString => None
  end.

(** The first alternative of [alts] (in the order written) that matches
    at the head of [s], case-insensitively. *)
Fixpoint strip_first_alt_ci (alts : list string) (s : string) : option string :=
  match alts with
  | [] => None
  | p :: alts' =>
      match strip_prefix_ci p s with
      | Some rest => Some rest
      | None => strip_first_alt_ci alts' s
      end
  end.

(** [s.substring(0, n)] *)
Definition take (n : nat) (s : string) : string := String.substring 0 n s.

(** [s.split(sep)] for a one-character separator. *)
Fixpoint split_on (sep : ascii) (s : string) : list string :=
  match s with
  | EmptyString => [EmptyString]
  | String c s' =>
      if Ascii.eqb c sep then EmptyString :: split_on sep s'
      else match split_on sep s' with
           | seg :: segs => String c seg :: segs
           | [] => [String c EmptyString]
           end
  end.

(** Decimal rendering of a non-negative integer, as a template literal
    prints it. *)
Definition show_nat (n : nat) : string :=
  NilEmpty.string_of_uint (Nat.to_uint n).

(** Value of the longest run of decimal digits at the head of [s],
    continuing from [acc]; [seen] records whether a digit was read. *)
Fixpoint read_digits (s : string) (acc : Z) (seen : bool) : option Z :=
  match s with
  | String c s' =>
      if is_digit c then read_digits s' (10 * acc + digit_value c) true
      else if seen then Some acc else None
  | EmptyString => if seen then Some acc else None
  end.

(** [parseInt(s, 10)]; [None] is [NaN]. *)
Definition parseInt (s : string) : option Z :=
  match skip_spaces s with
  | String c s' =>
      if Ascii.eqb c (chr 45) then option_map Z.opp (read_digits s' 0 false)
      else if Ascii.eqb c (chr 43) then read_digits s' 0 false
      else read_digits (String c s') 0 false
  | EmptyString => None
  end.

(** [s.match(/<o>[\s\S]*?<c>/)]: the first [o] and everything up to the
    first [c] that follows it.  When no [c] follows the first [o] none
    follows a later one either, so there is no match. *)
Fixpoint upto_closing (c : ascii) (s : string) : option string :=
  match s with
  | EmptyString => None
  | String x s' =>
      if Ascii.eqb x c then Some (String x EmptyString)
      else option_map (String x) (upto_closing c s')
  end.

Fixpoint match_delimited (o c : ascii) (s : string) : option string :=
  match s with
  | EmptyString => None
  | String x s' =>
      if Ascii.eqb x o then option_map (String x) (upto_closing c s')
      else match_delimited o c s'
  end.

(** [array.includes(x)] on strings. *)
Definition includes (l : list string) (x : string) : bool :=
  existsb (String.eqb x) l.

(** [array.join(sep)] *)
Fixpoint join (sep : string) (l : list string) : string :=
  match l with
  | [] => EmptyString
  | [x] => x
  | x :: l' => x ++ sep ++ join sep l'
  end.

(** [[...new Set(l)]]: first occurrences, in order. *)
Fixpoint dedup_onto (seen : list string) (l : list string) : list string :=
  match l with
  | [] => []
  | x :: l' =>
      if includes seen x then dedup_onto seen l'
      else x :: dedup_onto (x :: seen) l'
  end.

Definition dedup (l : list string) : list string := dedup_onto [] l.

(** [a[i] = v] on an array: in range it overwrites, past the end the
    array grows and the skipped slots are holes ([None]). *)
Fixpoint array_set {A : Type} (i : nat) (v : A) (a : list (option A))
  : list (option A) :=
  match i, a with
  | O, [] => [Some v]
  | O, _ :: a' => Some v :: a'
  | S i', [] => None :: array_set i' v []
  | S i', x :: a' => x :: array_set i' v a'
  end.

(** [a[i]] for a numeric index that may be [NaN], negative or past the
    end: [None] is [undefined]. *)
Definition array_get {A : Type} (a : list A) (i : option Z) : option A :=
  match i with
  | Some z => if (z <? 0)%Z then None else nth_error a (Z.to_nat z)
  | None => None
  end.

End Js.

(* ================================================================== *)
(** ** JavaScript numbers *)
(* ================================================================== *)

Module Num.

(** binary64 *)
Definition prec : Z := 53.
Definition emax : Z := 1024.

Definition double : Type := spec_float.

(** An integer as a number value (exact below 2^53). *)
Definition of_Z (z : Z) : double := binary_normalize prec emax z 0 false.

(** The literals [0.7] and [0.3]: the doubles nearest to 7/10 and 3/10,
    [0x1.6666666666666p-1] and [0x1.3333333333333p-2]. *)
Definition lit_0_7 : double := S754_finite false 6305039478318694 (-53).
Definition lit_0_3 : double := S754_finite false 5404319552844595 (-54).

(** The literal [66.7], a percentage that is no whole number: the double
    nearest to 667/10, [0x1.0accccccccccdp+6]. *)
Definition lit_66_7 : double := S754_finite false 4693595236650189 (-46).

(** [x < y] on number values. *)
Definition lt (x y : double) : bool := SFltb x y.

Definition mul (x y : double) : double := SFmul prec emax x y.
Definition add (x y : double) : double := SFadd prec emax x y.

(** [Math.round]: the nearest integer, a tie going up.  It is exact on
    the double it receives: [floor (x + 1/2)] taken in the integers.
    [NaN] and the infinities have no integer; they stand as [0] here and
    do not arise from the bounded integers the tables hold. *)
Definition Math_round (x : double) : Z :=
  match x with
  | S754_finite s m e =>
      let n := if s then Z.neg m else Z.pos m in
      if 0 <=? e then n * 2 ^ e
      else (2 * n + 2 ^ (- e)) / 2 ^ (- e + 1)
  | _ => 0
  end.

(** [Math.round] of an exact quotient (the mean SQLite's [AVG] returns;
    the binary64 quotient of two integers rounds to the same integer,
    every [k + 1/2] being a double and rounding being monotone). *)
Definition Math_round_Q (q : Q) : Z := Qfloor (q + (1 # 2))%Q.

End Num.

(* ================================================================== *)
(** ** Enumerations ([types.ts]) *)
(* ================================================================== *)

(** [Object.values(Goal)] and its siblings, and the two literal lists of
    [startSession] and [resetProgress]. *)
Definition Goal_values : list string := ["learn"; "exam"; "quiz"].
Definition ExamDepth_values : list string := ["overview"; "moderate"; "deep"].
Definition QuizType_values : list string :=
  ["multiple_choice"; "free_response"; "mixed"].
Definition SessionType_values : list string :=
  ["learn"; "review"; "quiz"; "exam_prep"].
Definition ResetType_values : list string :=
  ["all"; "knowledge"; "quizzes"; "sessions"].

(* ================================================================== *)
(** ** The tables ([initTables]) *)
(* ================================================================== *)

(** Timestamps ([CURRENT_TIMESTAMP], [new Date()]) are seconds. *)
Definition timestamp : Type := Z.

Record UserProfile := {
  up_name : option string;
  up_major : option string;
  up_year : option string;
  up_preferred_learning_methods : option (list string);
  up_created_at : timestamp;
  up_last_active : timestamp
}.

Record SessionPreferences := {
  sp_goal : option string;
  sp_learn_topic : option string;
  sp_learn_concept : option string;
  sp_exam_name : option string;
  sp_exam_depth : option string;
  sp_exam_time_left : option string;
  sp_quiz_topic : option string;
  sp_quiz_num_questions : option Z;
  sp_quiz_type : option string;
  sp_quiz_hints_allowed : option bool;
  sp_onboarding_complete : option bool;
  sp_created_at : timestamp
}.

(** [weak_areas] holds the text [JSON.stringify] made of a string array
    and is only ever read back through [JSON.parse]; the column is kept
    as the array itself. *)
Record Knowledge := {
  k_id : Z;
  k_subject : string;
  k_topic : string;
  k_mastery_level : Z;
  k_confidence : Z;
  k_times_studied : Z;
  k_times_quizzed : Z;
  k_last_studied : option timestamp;
  k_last_quizzed : option timestamp;
  k_weak_areas : option (list string);
  k_notes : option string;
  k_created_at : timestamp
}.

(** [missed_concepts] likewise: [None] is SQL [NULL]. *)
Record QuizHistory := {
  q_id : Z;
  q_subject : string;
  q_topic : option string;
  q_quiz_type : option string;
  q_score : Z;
  q_total_questions : Z;
  q_correct_answers : Z;
  q_missed_concepts : option (list string);
  q_time_spent_seconds : option Z;
  q_hints_used : Z;
  q_quiz_date : timestamp
}.

Record StudySession := {
  ss_id : Z;
  ss_session_type : string;
  ss_subject : option string;
  ss_topic : option string;
  ss_duration_minutes : option Z;
  ss_summary : option string;
  ss_started_at : timestamp;
  ss_ended_at : option timestamp
}.

(** The database of one durable object.  The three [seq_] counters are
    the [sqlite_sequence] entries of the [AUTOINCREMENT] tables (a
    [DELETE] does not reset them); [last_insert_rowid] is the
    connection's. *)
Record Database := {
  user_profile : option UserProfile;
  session_preferences : option SessionPreferences;
  knowledge : list Knowledge;
  quiz_history : list QuizHistory;
  study_sessions : list StudySession;
  seq_knowledge : Z;
  seq_quiz_history : Z;
  seq_study_sessions : Z;
  last_insert_rowid : Z
}.

Definition empty_database : Database :=
  {| user_profile := None; session_preferences := None;
     knowledge := []; quiz_history := []; study_sessions := [];
     seq_knowledge := 0; seq_quiz_history := 0; seq_study_sessions := 0;
     last_insert_rowid := 0 |}.

(* ================================================================== *)
(** ** Values the inference service and [JSON.parse] hand back *)
(* ================================================================== *)

#[warnings="-register-all"]
Inductive jsval : Type :=
| JUndefined
| JNull
| JBool (b : bool)
| JNum (n : Z)
| JStr (s : string)
| JArr (items : list jsval)
| JObj (fields : list (string * jsval)).

(** [v.key] for a string key that is not an array index. *)
Fixpoint lookup_field (key : string) (fields : list (string * jsval)) : jsval :=
  match fields with
  | [] => JUndefined
  | (k, v) :: fields' => if String.eqb k key then v else lookup_field key fields'
  end.

Definition prop (v : jsval) (key : string) : jsval :=
  match v with
  | JObj fields => lookup_field key fields
  | _ => JUndefined
  end.

(** The requests the agent sends to the model, by the template that
    builds the message list ([prompts.ts]). *)
Inductive ai_request : Type :=
| PlanRequest (prompt : string)
| StepRequest (stepIndex totalSteps : nat) (originalPrompt previousStepsList step : string)
| InferRequest (prompt : string).

(* ================================================================== *)
(** ** The agent *)
(* ================================================================== *)

Inductive Role := user | assistant.

(** A chat message: its role and the text of its single text part (the
    generated id and the creation date are left out). *)
Record UIMessage := { role : Role; text : string }.

(** An entry of the durable schedule: [this.schedule(delay, callback,
    payload)]. *)
Record Schedule := { delay : Z; callback : string; payload : string }.

(** The [Chat] object.  The first four fields are the instance fields of
    the class; they live in the memory of the running object.  The last
    four are what the platform keeps in durable storage: the SQLite
    tables, the saved messages and the schedule; [clock] is the wall
    clock the object reads. *)
Record Chat := {
  planSteps : list string;
  stepResults : list (option string);
  originalPrompt : string;
  isProcessingPlan : bool;
  db : Database;
  messages : list UIMessage;
  schedules : list Schedule;
  clock : timestamp
}.

(** The field initialisers of the class. *)
Definition fresh_instance (d : Database) (ms : list UIMessage)
  (q : list Schedule) (now : timestamp) : Chat :=
  {| planSteps := []; stepResults := []; originalPrompt := EmptyString;
     isProcessingPlan := false;
     db := d; messages := ms; schedules := q; clock := now |}.

(** A restart of the process (eviction, deployment, crash): the object
    is constructed again, so the instance fields are back at their
    initialisers, and the durable storage is what it was. *)
Definition restart (c : Chat) : Chat :=
  fresh_instance (db c) (messages c) (schedules c) (clock c).

(** What an operation throws. *)
Inductive exn : Type :=
| ValidationError (field value : string)
| ConstraintError (table : string)
| InferenceError
| StorageError.

(** What an operation leaves on the console or asks of the model. *)
Inductive event : Type :=
| InvalidStepIndex (stepIndex : option Z)
| Inference (req : ai_request)
| AutoTracked (subject topic : string).

Record outcome (A : Type) := Outcome {
  final : Chat;
  trace : list event;
  result : exn + A
}.
Arguments Outcome {A}.
Arguments final {A}.
Arguments trace {A}.
Arguments result {A}.

Definition M (A : Type) : Type := Chat -> outcome A.

Definition ret {A} (a : A) : M A := fun c => Outcome c [] (inr a).

Definition bind {A B} (m : M A) (k : A -> M B) : M B :=
  fun c =>
    let r := m c in
    match result r with
    | inl e => Outcome (final r) (trace r) (inl e)
    | inr a =>
        let r' := k a (final r) in
        Outcome (final r') (trace r ++ trace r') (result r')
    end.

Definition throw {A} (e : exn) : M A := fun c => Outcome c [] (inl e).
Definition emit (ev : event) : M unit := fun c => Outcome c [ev] (inr tt).
Definition get : M Chat := fun c => Outcome c [] (inr c).
Definition put (c : Chat) : M unit := fun _ => Outcome c [] (inr tt).

(** [try { m } catch { h }] *)
Definition try_catch {A} (m : M A) (h : M A) : M A :=
  fun c =>
    let r := m c in
    match result r with
    | inl _ => let r' := h (final r) in
               Outcome (final r') (trace r ++ trace r') (result r')
    | inr _ => r
    end.

Declare Scope agent_scope.
Delimit Scope agent_scope with agent.
Notation "x <- m ;; k" := (bind m (fun x => k))
  (at level 100, m at next level, right associativity) : agent_scope.
Notation "m ;;; k" := (bind m (fun _ => k))
  (at level 100, right associativity) : agent_scope.
Local Open Scope agent_scope.

Definition when (b : bool) (m : M unit) : M unit := if b then m else ret tt.

(* ================================================================== *)
(** ** SQL statements *)
(* ================================================================== *)

Module Sql.

(** A [CHECK (col IN (...))] constraint; [NULL] passes. *)
Definition check_in (allowed : list string) (v : option string) : bool :=
  match v with
  | None => true
  | Some x => Js.includes allowed x
  end.

(** [CHECK (col >= 0 AND col <= 100)] *)
Definition check_percent (v : Z) : bool := (0 <=? v) && (v <=? 100).

(** [ORDER BY]: a stable sort of the rows, [le a b] saying that [a] may
    come before [b].  (SQLite leaves the order of equal keys open; the
    model keeps them in table order.) *)
Fixpoint insert_sorted {A} (le : A -> A -> bool) (x : A) (l : list A) : list A :=
  match l with
  | [] => [x]
  | y :: l' => if le x y then x :: l else y :: insert_sorted le x l'
  end.

Definition order_by {A} (le : A -> A -> bool) (l : list A) : list A :=
  fold_right (insert_sorted le) [] l.

(** [LIMIT n]: a negative [n] is no limit. *)
Definition limit {A} (n : Z) (l : list A) : list A :=
  if n <? 0 then l else firstn (Z.to_nat n) l.

(** *** knowledge *)

Definition same_key (subject topic : string) (k : Knowledge) : bool :=
  String.eqb (k_subject k) subject && String.eqb (k_topic k) topic.

(** [SELECT * FROM knowledge WHERE subject = ? AND topic = ?] *)
Definition select_topic (d : Database) (subject topic : string) : list Knowledge :=
  filter (same_key subject topic) (knowledge d).

Definition check_knowledge (k : Knowledge) : bool :=
  check_percent (k_mastery_level k) && check_percent (k_confidence k).

Definition with_knowledge (d : Database) (rows : list Knowledge) : Database :=
  {| user_profile := user_profile d;
     session_preferences := session_preferences d;
     knowledge := rows;
     quiz_history := quiz_history d;
     study_sessions := study_sessions d;
     seq_knowledge := seq_knowledge d;
     seq_quiz_history := seq_quiz_history d;
     seq_study_sessions := seq_study_sessions d;
     last_insert_rowid := last_insert_rowid d |}.

(** [INSERT INTO knowledge (...) VALUES (...)]: the row gets the next
    id; the [CHECK]s and [UNIQUE(subject, topic)] may refuse it. *)
Definition insert_knowledge (d : Database) (now : timestamp)
  (subject topic : string) (mastery confidence studied quizzed : Z)
  (last_studied last_quizzed : option timestamp)
  (weak_areas : option (list string)) (notes : option string)
  : exn + Database :=
  let id := seq_knowledge d + 1 in
  let row := {| k_id := id; k_subject := subject; k_topic := topic;
                k_mastery_level := mastery; k_confidence := confidence;
                k_times_studied := studied; k_times_quizzed := quizzed;
                k_last_studied := last_studied; k_last_quizzed := last_quizzed;
                k_weak_areas := weak_areas; k_notes := notes;
                k_created_at := now |} in
  if negb (check_knowledge row) then inl (ConstraintError "knowledge")
  else if existsb (same_key subject topic) (knowledge d)
       then inl (ConstraintError "knowledge")
  else inr {| user_profile := user_profile d;
              session_preferences := session_preferences d;
              knowledge := knowledge d ++ [row];
              quiz_history := quiz_history d;
              study_sessions := study_sessions d;
              seq_knowledge := id;
              seq_quiz_history := seq_quiz_history d;
              seq_study_sessions := seq_study_sessions d;
              last_insert_rowid := id |}.

(** [UPDATE knowledge SET col = ? WHERE subject = ? AND topic = ?]; the
    statement fails as a whole when a changed row breaks a [CHECK]. *)
Definition update_knowledge (d : Database) (subject topic : string)
  (set : Knowledge -> Knowledge) : exn + Database :=
  let hit := same_key subject topic in
  if forallb (fun k => negb (hit k) || check_knowledge (set k)) (knowledge d)
  then inr (with_knowledge d
              (map (fun k => if hit k then set k else k) (knowledge d)))
  else inl (ConstraintError "knowledge").

Definition set_mastery_level (v : Z) (k : Knowledge) : Knowledge :=
  {| k_id := k_id k; k_subject := k_subject k; k_topic := k_topic k;
     k_mastery_level := v; k_confidence := k_confidence k;
     k_times_studied := k_times_studied k; k_times_quizzed := k_times_quizzed k;
     k_last_studied := k_last_studied k; k_last_quizzed := k_last_quizzed k;
     k_weak_areas := k_weak_areas k; k_notes := k_notes k;
     k_created_at := k_created_at k |}.

Definition set_confidence (v : Z) (k : Knowledge) : Knowledge :=
  {| k_id := k_id k; k_subject := k_subject k; k_topic := k_topic k;
     k_mastery_level := k_mastery_level k; k_confidence := v;
     k_times_studied := k_times_studied k; k_times_quizzed := k_times_quizzed k;
     k_last_studied := k_last_studied k; k_last_quizzed := k_last_quizzed k;
     k_weak_areas := k_weak_areas k; k_notes := k_notes k;
     k_created_at := k_created_at k |}.

Definition set_times_studied (v : Z) (k : Knowledge) : Knowledge :=
  {| k_id := k_id k; k_subject := k_subject k; k_topic := k_topic k;
     k_mastery_level := k_mastery_level k; k_confidence := k_confidence k;
     k_times_studied := v; k_times_quizzed := k_times_quizzed k;
     k_last_studied := k_last_studied k; k_last_quizzed := k_last_quizzed k;
     k_weak_areas := k_weak_areas k; k_notes := k_notes k;
     k_created_at := k_created_at k |}.

Definition set_times_quizzed (v : Z) (k : Knowledge) : Knowledge :=
  {| k_id := k_id k; k_subject := k_subject k; k_topic := k_topic k;
     k_mastery_level := k_mastery_level k; k_confidence := k_confidence k;
     k_times_studied := k_times_studied k; k_times_quizzed := v;
     k_last_studied := k_last_studied k; k_last_quizzed := k_last_quizzed k;
     k_weak_areas := k_weak_areas k; k_notes := k_notes k;
     k_created_at := k_created_at k |}.

Definition set_last_studied (v : option timestamp) (k : Knowledge) : Knowledge :=
  {| k_id := k_id k; k_subject := k_subject k; k_topic := k_topic k;
     k_mastery_level := k_mastery_level k; k_confidence := k_confidence k;
     k_times_studied := k_times_studied k; k_times_quizzed := k_times_quizzed k;
     k_last_studied := v; k_last_quizzed := k_last_quizzed k;
     k_weak_areas := k_weak_areas k; k_notes := k_notes k;
     k_created_at := k_created_at k |}.

Definition set_last_quizzed (v : option timestamp) (k : Knowledge) : Knowledge :=
  {| k_id := k_id k; k_subject := k_subject k; k_topic := k_topic k;
     k_mastery_level := k_mastery_level k; k_confidence := k_confidence k;
     k_times_studied := k_times_studied k; k_times_quizzed := k_times_quizzed k;
     k_last_studied := k_last_studied k; k_last_quizzed := v;
     k_weak_areas := k_weak_areas k; k_notes := k_notes k;
     k_created_at := k_created_at k |}.

Definition set_weak_areas (v : option (list string)) (k : Knowledge) : Knowledge :=
  {| k_id := k_id k; k_subject := k_subject k; k_topic := k_topic k;
     k_mastery_level := k_mastery_level k; k_confidence := k_confidence k;
     k_times_studied := k_times_studied k; k_times_quizzed := k_times_quizzed k;
     k_last_studied := k_last_studied k; k_last_quizzed := k_last_quizzed k;
     k_weak_areas := v; k_notes := k_notes k;
     k_created_at := k_created_at k |}.

Definition set_notes (v : option string) (k : Knowledge) : Knowledge :=
  {| k_id := k_id k; k_subject := k_subject k; k_topic := k_topic k;
     k_mastery_level := k_mastery_level k; k_confidence := k_confidence k;
     k_times_studied := k_times_studied k; k_times_quizzed := k_times_quizzed k;
     k_last_studied := k_last_studied k; k_last_quizzed := k_last_quizzed k;
     k_weak_areas := k_weak_areas k; k_notes := v;
     k_created_at := k_created_at k |}.

(** [WHERE mastery_level < 60 OR confidence < 50] *)
Definition is_weak (k : Knowledge) : bool :=
  (k_mastery_level k <? 60) || (k_confidence k <? 50).

(** [ORDER BY mastery_level ASC, confidence ASC] *)
Definition weakest_first (a b : Knowledge) : bool :=
  (k_mastery_level a <? k_mastery_level b)
  || ((k_mastery_level a =? k_mastery_level b)
      && (k_confidence a <=? k_confidence b)).

Definition select_weak (d : Database) (n : Z) : list Knowledge :=
  limit n (order_by weakest_first (filter is_weak (knowledge d))).

(** *** quiz_history *)

(** [INSERT INTO quiz_history (...) VALUES (...)]; [quiz_date] takes its
    default, [CURRENT_TIMESTAMP]. *)
Definition insert_quiz (d : Database) (now : timestamp)
  (subject : string) (topic : option string) (quiz_type : option string)
  (score total correct : Z) (missed : option (list string))
  (time_spent : option Z) (hints : Z) : exn + Database :=
  let id := seq_quiz_history d + 1 in
  let row := {| q_id := id; q_subject := subject; q_topic := topic;
                q_quiz_type := quiz_type; q_score := score;
                q_total_questions := total; q_correct_answers := correct;
                q_missed_concepts := missed;
                q_time_spent_seconds := time_spent; q_hints_used := hints;
                q_quiz_date := now |} in
  if negb (check_in QuizType_values quiz_type && check_percent score)
  then inl (ConstraintError "quiz_history")
  else inr {| user_profile := user_profile d;
              session_preferences := session_preferences d;
              knowledge := knowledge d;
              quiz_history := quiz_history d ++ [row];
              study_sessions := study_sessions d;
              seq_knowledge := seq_knowledge d;
              seq_quiz_history := id;
              seq_study_sessions := seq_study_sessions d;
              last_insert_rowid := id |}.

(** [WHERE subject = ?], present only when the caller's [subject] is
    truthy. *)
Definition subject_filter (subject : option string) (q : QuizHistory) : bool :=
  match subject with
  | Some s => if String.eqb s EmptyString then true else String.eqb (q_subject q) s
  | None => true
  end.

(** [ORDER BY quiz_date DESC] *)
Definition newest_first (a b : QuizHistory) : bool :=
  q_quiz_date b <=? q_quiz_date a.

Definition sum_Z (l : list Z) : Z := fold_left Z.add l 0.

(** [MAX(col)] and [MIN(col)]: [None] is the [NULL] of an empty table. *)
Definition max_Z (l : list Z) : option Z :=
  match l with
  | [] => None
  | x :: l' => Some (fold_left Z.max l' x)
  end.

Definition min_Z (l : list Z) : option Z :=
  match l with
  | [] => None
  | x :: l' => Some (fold_left Z.min l' x)
  end.

(** [AVG(col)] *)
Definition avg_Z (l : list Z) : option Q :=
  match l with
  | [] => None
  | _ :: _ => Some (inject_Z (sum_Z l) / inject_Z (Z.of_nat (List.length l)))%Q
  end.

(** [COALESCE(x, 0)] *)
Definition coalesce0 (x : option Z) : Z :=
  match x with Some v => v | None => 0 end.

Definition coalesce0_Q (x : option Q) : Q :=
  match x with Some v => v | None => 0%Q end.

(** The row of the aggregate query of [getQuizStats]. *)
Record AggregateRow := {
  total_quizzes : Z;
  avg_score : Q;
  total_questions : Z;
  total_correct : Z;
  best_score : Z;
  worst_score : Z
}.

Definition select_aggregates (d : Database) (subject : option string)
  : list AggregateRow :=
  let rows := filter (subject_filter subject) (quiz_history d) in
  [ {| total_quizzes := Z.of_nat (List.length rows);
       avg_score := coalesce0_Q (avg_Z (map q_score rows));
       total_questions := sum_Z (map q_total_questions rows);
       total_correct := sum_Z (map q_correct_answers rows);
       best_score := coalesce0 (max_Z (map q_score rows));
       worst_score := coalesce0 (min_Z (map q_score rows)) |} ].

(** [SELECT score ... ORDER BY quiz_date DESC LIMIT 5] *)
Definition select_recent_scores (d : Database) (subject : option string)
  : list Z :=
  map q_score
    (limit 5 (order_by newest_first
                (filter (subject_filter subject) (quiz_history d)))).

(** [SELECT missed_concepts ... WHERE ... missed_concepts IS NOT NULL
    ORDER BY quiz_date DESC LIMIT 10] *)
Definition has_missed_concepts (q : QuizHistory) : bool :=
  match q_missed_concepts q with Some _ => true | None => false end.

Definition select_missed_concepts (d : Database) (subject : option string)
  : list (option (list string)) :=
  map q_missed_concepts
    (limit 10 (order_by newest_first
                 (filter (fun q => subject_filter subject q
                                   && has_missed_concepts q)
                         (quiz_history d)))).

(** *** study_sessions *)

Definition insert_session (d : Database) (now : timestamp)
  (session_type : string) (subject topic : option string) : exn + Database :=
  let id := seq_study_sessions d + 1 in
  let row := {| ss_id := id; ss_session_type := session_type;
                ss_subject := subject; ss_topic := topic;
                ss_duration_minutes := None; ss_summary := None;
                ss_started_at := now; ss_ended_at := None |} in
  if negb (Js.includes SessionType_values session_type)
  then inl (ConstraintError "study_sessions")
  else inr {| user_profile := user_profile d;
              session_preferences := session_preferences d;
              knowledge := knowledge d;
              quiz_history := quiz_history d;
              study_sessions := study_sessions d ++ [row];
              seq_knowledge := seq_knowledge d;
              seq_quiz_history := seq_quiz_history d;
              seq_study_sessions := id;
              last_insert_rowid := id |}.

(** *** session_preferences *)

Definition check_preferences (p : SessionPreferences) : bool :=
  check_in Goal_values (sp_goal p)
  && check_in ExamDepth_values (sp_exam_depth p)
  && check_in QuizType_values (sp_quiz_type p).

Definition with_preferences (d : Database) (p : option SessionPreferences)
  : Database :=
  {| user_profile := user_profile d;
     session_preferences := p;
     knowledge := knowledge d;
     quiz_history := quiz_history d;
     study_sessions := study_sessions d;
     seq_knowledge := seq_knowledge d;
     seq_quiz_history := seq_quiz_history d;
     seq_study_sessions := seq_study_sessions d;
     last_insert_rowid := last_insert_rowid d |}.

(** [INSERT INTO session_preferences (id, ...) VALUES (1, ...)] *)
Definition insert_preferences (d : Database) (p : SessionPreferences)
  : exn + Database :=
  match session_preferences d with
  | Some _ => inl (ConstraintError "session_preferences")
  | None =>
      if check_preferences p
      then inr {| user_profile := user_profile d;
                  session_preferences := Some p;
                  knowledge := knowledge d;
                  quiz_history := quiz_history d;
                  study_sessions := study_sessions d;
                  seq_knowledge := seq_knowledge d;
                  seq_quiz_history := seq_quiz_history d;
                  seq_study_sessions := seq_study_sessions d;
                  last_insert_rowid := 1 |}
      else inl (ConstraintError "session_preferences")
  end.

(** [UPDATE session_preferences SET col = ? WHERE id = 1] *)
Definition update_preferences (d : Database)
  (set : SessionPreferences -> SessionPreferences) : exn + Database :=
  match session_preferences d with
  | None => inr d
  | Some p =>
      if check_preferences (set p)
      then inr (with_preferences d (Some (set p)))
      else inl (ConstraintError "session_preferences")
  end.

(** *** DELETE FROM ... *)

Definition delete_knowledge (d : Database) : Database := with_knowledge d [].

Definition delete_quiz_history (d : Database) : Database :=
  {| user_profile := user_profile d;
     session_preferences := session_preferences d;
     knowledge := knowledge d;
     quiz_history := [];
     study_sessions := study_sessions d;
     seq_knowledge := seq_knowledge d;
     seq_quiz_history := seq_quiz_history d;
     seq_study_sessions := seq_study_sessions d;
     last_insert_rowid := last_insert_rowid d |}.

Definition delete_study_sessions (d : Database) : Database :=
  {| user_profile := user_profile d;
     session_preferences := session_preferences d;
     knowledge := knowledge d;
     quiz_history := quiz_history d;
     study_sessions := [];
     seq_knowledge := seq_knowledge d;
     seq_quiz_history := seq_quiz_history d;
     seq_study_sessions := seq_study_sessions d;
     last_insert_rowid := last_insert_rowid d |}.

Definition delete_user_profile (d : Database) : Database :=
  {| user_profile := None;
     session_preferences := session_preferences d;
     knowledge := knowledge d;
     quiz_history := quiz_history d;
     study_sessions := study_sessions d;
     seq_knowledge := seq_knowledge d;
     seq_quiz_history := seq_quiz_history d;
     seq_study_sessions := seq_study_sessions d;
     last_insert_rowid := last_insert_rowid d |}.

Definition delete_session_preferences (d : Database) : Database :=
  with_preferences d None.

End Sql.

(* ================================================================== *)
(** ** Plain objects used as counters *)
(* ================================================================== *)

Module JsObject.

(** An object literal [{}] that receives numeric properties, as the list
    of its own properties in creation order. *)
Definition t : Type := list (string * Z).

(** The canonical array indices: ["0"], or digits without a leading
    zero, below [2^32 - 1]. *)
Fixpoint all_digits (s : string) : bool :=
  match s with
  | EmptyString => true
  | String c s' => Js.is_digit c && all_digits s'
  end.

Definition array_index (k : string) : option Z :=
  match k with
  | EmptyString => None
  | String c rest =>
      if all_digits k
         && (negb (Ascii.eqb c (Js.chr 48)) || String.eqb rest EmptyString)
      then match Js.read_digits k 0 false with
           | Some v => if v <? 2 ^ 32 - 1 then Some v else None
           | None => None
           end
      else None
  end.

Definition is_array_index (k : string) : bool :=
  match array_index k with Some _ => true | None => false end.

(** Names every object inherits from [Object.prototype]: reading one of
    them on [{}] yields the inherited member, not [undefined].  The
    counter below is faithful for every other key. *)
Definition Object_prototype_keys : list string :=
  ["constructor"; "__proto__"; "hasOwnProperty"; "isPrototypeOf";
   "propertyIsEnumerable"; "toLocaleString"; "toString"; "valueOf";
   "__defineGetter__"; "__defineSetter__"; "__lookupGetter__";
   "__lookupSetter__"].

(** A label that is neither an array index nor an inherited name. *)
Definition plain_key (k : string) : bool :=
  negb (is_array_index k) && negb (Js.includes Object_prototype_keys k).

(** [o[k]] *)
Fixpoint get (o : t) (k : string) : option Z :=
  match o with
  | [] => None
  | (k', v) :: o' => if String.eqb k' k then Some v else get o' k
  end.

(** [o[k] = v] *)
Fixpoint set (o : t) (k : string) (v : Z) : t :=
  match o with
  | [] => [(k, v)]
  | (k', v') :: o' =>
      if String.eqb k' k then (k', v) :: o' else (k', v') :: set o' k v
  end.

(** [x || 0] on what [o[k]] returned. *)
Definition or_zero (x : option Z) : Z :=
  match x with
  | Some v => if v =? 0 then 0 else v
  | None => 0
  end.

Definition index_le (a b : string * Z) : bool :=
  match array_index (fst a), array_index (fst b) with
  | Some i, Some j => i <=? j
  | _, _ => true
  end.

(** [Object.entries(o)]: the array-index keys in ascending numeric
    order, then the other keys in creation order. *)
Definition entries (o : t) : list (string * Z) :=
  Sql.order_by index_le (filter (fun e => is_array_index (fst e)) o)
  ++ filter (fun e => negb (is_array_index (fst e))) o.

End JsObject.

(* ================================================================== *)
(** ** Store operations of the class *)
(* ================================================================== *)

(** A property that may be left out, be [null], or hold a value. *)
Inductive js_opt (A : Type) : Type :=
| Undefined
| Null
| Val (a : A).
Arguments Undefined {A}.
Arguments Null {A}.
Arguments Val {A}.

(** [x ?? null], and what a bound parameter stores. *)
Definition or_null {A} (x : js_opt A) : option A :=
  match x with Val a => Some a | _ => None end.

(** [x !== undefined] *)
Definition is_defined {A} (x : js_opt A) : bool :=
  match x with Undefined => false | _ => true end.

(** Run one SQL statement of the template tag [this.sql]. *)
Definition with_db (c : Chat) (d : Database) : Chat :=
  {| planSteps := planSteps c; stepResults := stepResults c;
     originalPrompt := originalPrompt c;
     isProcessingPlan := isProcessingPlan c;
     db := d; messages := messages c;
     schedules := schedules c; clock := clock c |}.

Definition sql (stmt : Database -> exn + Database) : M unit :=
  fun c =>
    match stmt (db c) with
    | inl e => Outcome c [] (inl e)
    | inr d' => Outcome (with_db c d') [] (inr tt)
    end.

(** A query: it reads the tables. *)
Definition query {A} (q : Database -> A) : M A :=
  fun c => Outcome c [] (inr (q (db c))).

Definition now : M timestamp := fun c => Outcome c [] (inr (clock c)).

(** *** Session preferences *)

Record SessionPreferencesData := {
  goal : js_opt string;
  learnTopic : js_opt string;
  learnConcept : js_opt string;
  examName : js_opt string;
  examDepth : js_opt string;
  examTimeLeft : js_opt string;
  quizTopic : js_opt string;
  quizNumQuestions : js_opt Z;
  quizType : js_opt string;
  quizHintsAllowed : js_opt bool;
  onboardingComplete : js_opt bool
}.

Definition getSessionPreferences : M (option SessionPreferences) :=
  query session_preferences.

(** The guard of one enumerated field:
    [if (x !== undefined && x !== null) { if (!valid.includes(x)) throw }] *)
Definition validate_enum (field : string) (valid : list string)
  (x : js_opt string) : M unit :=
  match x with
  | Val v => if Js.includes valid v then ret tt
             else throw (ValidationError field v)
  | _ => ret tt
  end.

Definition sp_with (p : SessionPreferences)
  (g lt lc en ed etl qt : option string) (qn : option Z) (qty : option string)
  (qh oc : option bool) : SessionPreferences :=
  {| sp_goal := g; sp_learn_topic := lt; sp_learn_concept := lc;
     sp_exam_name := en; sp_exam_depth := ed; sp_exam_time_left := etl;
     sp_quiz_topic := qt; sp_quiz_num_questions := qn; sp_quiz_type := qty;
     sp_quiz_hints_allowed := qh; sp_onboarding_complete := oc;
     sp_created_at := sp_created_at p |}.

Definition set_goal v p := sp_with p v (sp_learn_topic p) (sp_learn_concept p)
  (sp_exam_name p) (sp_exam_depth p) (sp_exam_time_left p) (sp_quiz_topic p)
  (sp_quiz_num_questions p) (sp_quiz_type p) (sp_quiz_hints_allowed p)
  (sp_onboarding_complete p).
Definition set_learn_topic v p := sp_with p (sp_goal p) v (sp_learn_concept p)
  (sp_exam_name p) (sp_exam_depth p) (sp_exam_time_left p) (sp_quiz_topic p)
  (sp_quiz_num_questions p) (sp_quiz_type p) (sp_quiz_hints_allowed p)
  (sp_onboarding_complete p).
Definition set_learn_concept v p := sp_with p (sp_goal p) (sp_learn_topic p) v
  (sp_exam_name p) (sp_exam_depth p) (sp_exam_time_left p) (sp_quiz_topic p)
  (sp_quiz_num_questions p) (sp_quiz_type p) (sp_quiz_hints_allowed p)
  (sp_onboarding_complete p).
Definition set_exam_name v p := sp_with p (sp_goal p) (sp_learn_topic p)
  (sp_learn_concept p) v (sp_exam_depth p) (sp_exam_time_left p) (sp_quiz_topic p)
  (sp_quiz_num_questions p) (sp_quiz_type p) (sp_quiz_hints_allowed p)
  (sp_onboarding_complete p).
Definition set_exam_depth v p := sp_with p (sp_goal p) (sp_learn_topic p)
  (sp_learn_concept p) (sp_exam_name p) v (sp_exam_time_left p) (sp_quiz_topic p)
  (sp_quiz_num_questions p) (sp_quiz_type p) (sp_quiz_hints_allowed p)
  (sp_onboarding_complete p).
Definition set_exam_time_left v p := sp_with p (sp_goal p) (sp_learn_topic p)
  (sp_learn_concept p) (sp_exam_name p) (sp_exam_depth p) v (sp_quiz_topic p)
  (sp_quiz_num_questions p) (sp_quiz_type p) (sp_quiz_hints_allowed p)
  (sp_onboarding_complete p).
Definition set_quiz_topic v p := sp_with p (sp_goal p) (sp_learn_topic p)
  (sp_learn_concept p) (sp_exam_name p) (sp_exam_depth p) (sp_exam_time_left p) v
  (sp_quiz_num_questions p) (sp_quiz_type p) (sp_quiz_hints_allowed p)
  (sp_onboarding_complete p).
Definition set_quiz_num_questions v p := sp_with p (sp_goal p) (sp_learn_topic p)
  (sp_learn_concept p) (sp_exam_name p) (sp_exam_depth p) (sp_exam_time_left p)
  (sp_quiz_topic p) v (sp_quiz_type p) (sp_quiz_hints_allowed p)
  (sp_onboarding_complete p).
Definition set_quiz_type v p := sp_with p (sp_goal p) (sp_learn_topic p)
  (sp_learn_concept p) (sp_exam_name p) (sp_exam_depth p) (sp_exam_time_left p)
  (sp_quiz_topic p) (sp_quiz_num_questions p) v (sp_quiz_hints_allowed p)
  (sp_onboarding_complete p).
Definition set_quiz_hints_allowed v p := sp_with p (sp_goal p) (sp_learn_topic p)
  (sp_learn_concept p) (sp_exam_name p) (sp_exam_depth p) (sp_exam_time_left p)
  (sp_quiz_topic p) (sp_quiz_num_questions p) (sp_quiz_type p) v
  (sp_onboarding_complete p).
Definition set_onboarding_complete v p := sp_with p (sp_goal p) (sp_learn_topic p)
  (sp_learn_concept p) (sp_exam_name p) (sp_exam_depth p) (sp_exam_time_left p)
  (sp_quiz_topic p) (sp_quiz_num_questions p) (sp_quiz_type p)
  (sp_quiz_hints_allowed p) v.

(** [if (x !== undefined) this.sql`UPDATE session_preferences SET col = ${x}
    WHERE id = 1`] *)
Definition update_if_defined {A} (x : js_opt A)
  (set : option A -> SessionPreferences -> SessionPreferences) : M unit :=
  when (is_defined x) (sql (fun d => Sql.update_preferences d (set (or_null x)))).

Definition updateSessionPreferences (data : SessionPreferencesData) : M unit :=
  validate_enum "goal" Goal_values (goal data) ;;;
  validate_enum "examDepth" ExamDepth_values (examDepth data) ;;;
  validate_enum "quizType" QuizType_values (quizType data) ;;;
  existing <- getSessionPreferences ;;
  match existing with
  | None =>
      t <- now ;;
      sql (fun d => Sql.insert_preferences d
        {| sp_goal := or_null (goal data);
           sp_learn_topic := or_null (learnTopic data);
           sp_learn_concept := or_null (learnConcept data);
           sp_exam_name := or_null (examName data);
           sp_exam_depth := or_null (examDepth data);
           sp_exam_time_left := or_null (examTimeLeft data);
           sp_quiz_topic := or_null (quizTopic data);
           sp_quiz_num_questions := or_null (quizNumQuestions data);
           sp_quiz_type := or_null (quizType data);
           sp_quiz_hints_allowed := or_null (quizHintsAllowed data);
           sp_onboarding_complete :=
             match onboardingComplete data with
             | Val b => Some b
             | _ => Some false
             end;
           sp_created_at := t |})
  | Some _ =>
      update_if_defined (goal data) set_goal ;;;
      update_if_defined (learnTopic data) set_learn_topic ;;;
      update_if_defined (learnConcept data) set_learn_concept ;;;
      update_if_defined (examName data) set_exam_name ;;;
      update_if_defined (examDepth data) set_exam_depth ;;;
      update_if_defined (examTimeLeft data) set_exam_time_left ;;;
      update_if_defined (quizTopic data) set_quiz_topic ;;;
      update_if_defined (quizNumQuestions data) set_quiz_num_questions ;;;
      update_if_defined (quizType data) set_quiz_type ;;;
      update_if_defined (quizHintsAllowed data) set_quiz_hints_allowed ;;;
      update_if_defined (onboardingComplete data) set_onboarding_complete
  end.

(** *** Knowledge *)

(** [getTopicMastery]: [result[0] || null] *)
Definition getTopicMastery (subject topic : string) : M (option Knowledge) :=
  query (fun d => hd_error (Sql.select_topic d subject topic)).

(** The argument of [updateKnowledge]. *)
Record KnowledgeData := {
  kd_subject : string;
  kd_topic : string;
  kd_masteryLevel : option Z;
  kd_confidence : option Z;
  kd_timesStudied : option Z;
  kd_timesQuizzed : option Z;
  kd_lastStudied : option bool;
  kd_lastQuizzed : option bool;
  kd_weakAreas : option (list string);
  kd_notes : option string
}.

(** [x ?? 0] *)
Definition or_0 (x : option Z) : Z :=
  match x with Some v => v | None => 0 end.

(** Truthiness of an optional boolean. *)
Definition truthy (x : option bool) : bool :=
  match x with Some true => true | _ => false end.

(** [if (x !== undefined) this.sql`UPDATE knowledge SET col = ${x} WHERE
    subject = ... AND topic = ...`] *)
Definition update_column {A} (subject topic : string) (x : option A)
  (set : A -> Knowledge -> Knowledge) : M unit :=
  match x with
  | Some v => sql (fun d => Sql.update_knowledge d subject topic (set v))
  | None => ret tt
  end.

Definition updateKnowledge (data : KnowledgeData) : M unit :=
  existing <- getTopicMastery (kd_subject data) (kd_topic data) ;;
  t <- now ;;
  match existing with
  | None =>
      sql (fun d => Sql.insert_knowledge d t
        (kd_subject data) (kd_topic data)
        (or_0 (kd_masteryLevel data)) (or_0 (kd_confidence data))
        (or_0 (kd_timesStudied data)) (or_0 (kd_timesQuizzed data))
        (if truthy (kd_lastStudied data) then Some t else None)
        (if truthy (kd_lastQuizzed data) then Some t else None)
        (kd_weakAreas data) (kd_notes data))
  | Some _ =>
      let upd {A} := @update_column A (kd_subject data) (kd_topic data) in
      upd (kd_masteryLevel data) Sql.set_mastery_level ;;;
      upd (kd_confidence data) Sql.set_confidence ;;;
      upd (kd_timesStudied data) Sql.set_times_studied ;;;
      upd (kd_timesQuizzed data) Sql.set_times_quizzed ;;;
      upd (if truthy (kd_lastStudied data) then Some t else None)
          (fun v => Sql.set_last_studied (Some v)) ;;;
      upd (if truthy (kd_lastQuizzed data) then Some t else None)
          (fun v => Sql.set_last_quizzed (Some v)) ;;;
      upd (kd_weakAreas data) (fun v => Sql.set_weak_areas (Some v)) ;;;
      upd (kd_notes data) (fun v => Sql.set_notes (Some v))
  end.

(** [getWeakAreas(limit = 10)] *)
Definition getWeakAreas (limit : option Z) : M (list Knowledge) :=
  let n := match limit with Some n => n | None => 10 end in
  query (fun d => Sql.select_weak d n).

(** *** Quizzes *)

(** [QuizResult] of [types.ts]. *)
Record QuizResult := {
  qr_subject : string;
  qr_topic : option string;
  qr_quizType : string;
  qr_score : Z;
  qr_totalQuestions : Z;
  qr_correctAnswers : Z;
  qr_missedConcepts : list string;
  qr_timeSpentSeconds : option Z;
  qr_hintsUsed : option Z
}.

(** [Math.round((mastery * 0.7) + (score * 0.3))], in binary64, on any
    two number values. *)
Definition smoothed (mastery score : Num.double) : Z :=
  Num.Math_round
    (Num.add (Num.mul mastery Num.lit_0_7) (Num.mul score Num.lit_0_3)).

(** The same on the whole numbers the tables hold. *)
Definition weighted_mastery (mastery score : Z) : Z :=
  smoothed (Num.of_Z mastery) (Num.of_Z score).

(** [Math.min(100, Math.max(0, x))] *)
Definition clamp_percent (x : Z) : Z := Z.min 100 (Z.max 0 x).

(** Truthiness of an optional string: [undefined] and the empty string
    are falsy. *)
Definition truthy_string (x : option string) : option string :=
  match x with
  | Some s => if String.eqb s EmptyString then None else Some s
  | None => None
  end.

Definition recordQuiz (data : QuizResult) : M Z :=
  (if Js.includes QuizType_values (qr_quizType data) then ret tt
   else throw (ValidationError "quizType" (qr_quizType data))) ;;;
  t <- now ;;
  sql (fun d => Sql.insert_quiz d t
    (qr_subject data) (qr_topic data) (Some (qr_quizType data))
    (qr_score data) (qr_totalQuestions data) (qr_correctAnswers data)
    (match qr_missedConcepts data with
     | [] => None
     | _ :: _ => Some (qr_missedConcepts data)
     end)
    (qr_timeSpentSeconds data) (or_0 (qr_hintsUsed data))) ;;;
  insertedId <- query last_insert_rowid ;;
  match truthy_string (qr_topic data) with
  | Some topic =>
      existing <- getTopicMastery (qr_subject data) topic ;;
      match existing with
      | Some e =>
          let newTimesQuizzed := k_times_quizzed e + 1 in
          let newMastery := weighted_mastery (k_mastery_level e) (qr_score data) in
          let existingWeakAreas :=
            match k_weak_areas e with Some l => l | None => [] end in
          let mergedWeakAreas :=
            Js.dedup (existingWeakAreas ++ qr_missedConcepts data) in
          updateKnowledge
            {| kd_subject := qr_subject data; kd_topic := topic;
               kd_masteryLevel := Some (clamp_percent newMastery);
               kd_confidence := None; kd_timesStudied := None;
               kd_timesQuizzed := Some newTimesQuizzed;
               kd_lastStudied := None; kd_lastQuizzed := Some true;
               kd_weakAreas := Some mergedWeakAreas; kd_notes := None |}
      | None =>
          updateKnowledge
            {| kd_subject := qr_subject data; kd_topic := topic;
               kd_masteryLevel := Some (qr_score data);
               kd_confidence := None; kd_timesStudied := None;
               kd_timesQuizzed := Some 1;
               kd_lastStudied := None; kd_lastQuizzed := Some true;
               kd_weakAreas := Some (qr_missedConcepts data); kd_notes := None |}
      end ;;;
      ret insertedId
  | None => ret insertedId
  end.

(** [QuizStats] of [types.ts]. *)
Record QuizStats := {
  totalQuizzes : Z;
  averageScore : Z;
  totalQuestions : Z;
  totalCorrect : Z;
  bestScore : Z;
  worstScore : Z;
  recentScores : list Z;
  mostMissedConcepts : list string
}.

(** The two nested loops that fill [conceptCounts]. *)
Definition count_concept (counts : JsObject.t) (concept : string) : JsObject.t :=
  JsObject.set counts concept
    (JsObject.or_zero (JsObject.get counts concept) + 1).

Definition count_row (counts : JsObject.t) (row : option (list string))
  : JsObject.t :=
  match row with
  | Some concepts => fold_left count_concept concepts counts
  | None => counts
  end.

(** [(a, b) => b[1] - a[1]] as the order of a stable sort. *)
Definition more_frequent (a b : string * Z) : bool := snd b <=? snd a.

Definition getQuizStats (subject : option string) : M QuizStats :=
  aggregates <- query (fun d => Sql.select_aggregates d subject) ;;
  let stats :=
    match aggregates with
    | row :: _ => row
    | [] => {| Sql.total_quizzes := 0; Sql.avg_score := 0%Q;
               Sql.total_questions := 0; Sql.total_correct := 0;
               Sql.best_score := 0; Sql.worst_score := 0 |}
    end in
  scores <- query (fun d => Sql.select_recent_scores d subject) ;;
  missedConceptsRows <- query (fun d => Sql.select_missed_concepts d subject) ;;
  let conceptCounts := fold_left count_row missedConceptsRows [] in
  let sortedConcepts :=
    map fst (firstn 5 (Sql.order_by more_frequent
                         (JsObject.entries conceptCounts))) in
  ret {| totalQuizzes := Sql.total_quizzes stats;
         averageScore := Num.Math_round_Q (Sql.avg_score stats);
         totalQuestions := Sql.total_questions stats;
         totalCorrect := Sql.total_correct stats;
         bestScore := Sql.best_score stats;
         worstScore := Sql.worst_score stats;
         recentScores := scores;
         mostMissedConcepts := sortedConcepts |}.

(** *** Study sessions *)

Definition startSession (sessionType : string) (subject topic : option string)
  : M Z :=
  (if Js.includes SessionType_values sessionType then ret tt
   else throw (ValidationError "sessionType" sessionType)) ;;;
  t <- now ;;
  sql (fun d => Sql.insert_session d t sessionType subject topic) ;;;
  query last_insert_rowid.

(** *** Reset *)

Definition resetProgress (resetType : string) : M unit :=
  (if Js.includes ResetType_values resetType then ret tt
   else throw (ValidationError "resetType" resetType)) ;;;
  let eq v := String.eqb resetType v in
  when (eq "all" || eq "knowledge") (sql (fun d => inr (Sql.delete_knowledge d))) ;;;
  when (eq "all" || eq "quizzes") (sql (fun d => inr (Sql.delete_quiz_history d))) ;;;
  when (eq "all" || eq "sessions") (sql (fun d => inr (Sql.delete_study_sessions d))) ;;;
  when (eq "all")
    (sql (fun d => inr (Sql.delete_user_profile d)) ;;;
     sql (fun d => inr (Sql.delete_session_preferences d))).

(* ================================================================== *)
(** ** The plan-then-execute flow *)
(* ================================================================== *)

(** *** Text helpers of the combiner *)

(** [step.replace(/^Step \d+:\s*/i, '')] *)
Fixpoint skip_digits (s : string) : string :=
  match s with
  | String c s' => if Js.is_digit c then skip_digits s' else s
  | EmptyString => EmptyString
  end.

Definition strip_step_prefix (step : string) : string :=
  match Js.strip_prefix_ci "Step " step with
  | Some (String d rest) =>
      if Js.is_digit d then
        match skip_digits rest with
        | String c rest' =>
            if Ascii.eqb c (Js.chr 58) then Js.skip_spaces rest' else step
        | EmptyString => step
        end
      else step
  | _ => step
  end.

Fixpoint no_line_terminator (s : string) : bool :=
  match s with
  | EmptyString => true
  | String c s' => negb (Js.is_line_terminator c) && no_line_terminator s'
  end.

(** [s.replace(/\s*(alt1|alt2|...).*$/i, "")]: the text is cut at the
    leftmost place from which blanks, then one of the alternatives, then
    no line break up to the end follow. *)
Definition tail_matches (alts : list string) (s : string) : bool :=
  existsb (fun p => match Js.strip_prefix_ci p (Js.skip_spaces s) with
                    | Some rest => no_line_terminator rest
                    | None => false
                    end) alts.

Fixpoint cut_from_phrase (alts : list string) (s : string) : string :=
  if tail_matches alts s then EmptyString
  else match s with
       | EmptyString => EmptyString
       | String c s' => String c (cut_from_phrase alts s')
       end.

(** [s.replace(/\s*\?+$/, "")] *)
Fixpoint all_question_marks (s : string) : bool :=
  match s with
  | EmptyString => true
  | String c s' => Ascii.eqb c (Js.chr 63) && all_question_marks s'
  end.

Definition question_tail (s : string) : bool :=
  match Js.skip_spaces s with
  | EmptyString => false
  | String c s' => Ascii.eqb c (Js.chr 63) && all_question_marks s'
  end.

Fixpoint cut_question_marks (s : string) : string :=
  if question_tail s then EmptyString
  else match s with
       | EmptyString => EmptyString
       | String c s' => String c (cut_question_marks s')
       end.

Definition question_prefixes : list string :=
  ["explain"; "what is"; "what are"; "how does"; "how do"; "tell me about";
   "teach me"; "describe"; "define"; "help me understand"].

Definition filler_phrases : list string :=
  ["work"; "works"; "in detail"; "fully"; "please"; "for me"; "to me";
   "step by step"].

(** [extractTopicFromPrompt] *)
Definition extractTopicFromPrompt (prompt : string) : option (string * string) :=
  let s1 := match Js.strip_first_alt_ci question_prefixes prompt with
            | Some rest => Js.skip_spaces rest
            | None => prompt
            end in
  let topic := Js.trim (cut_question_marks (cut_from_phrase filler_phrases s1)) in
  if (String.length topic <? 2)%nat then None else Some ("General", topic).

(** [prompts.ts] *)
Definition TRACKING_MESSAGE_ADDED (subject topic : string) : string :=
  Js.LF ++ Js.LF ++ "---" ++ Js.LF ++ "I've added " ++ Js.DQUOTE
  ++ subject ++ " > " ++ topic ++ Js.DQUOTE
  ++ " to your knowledge graph (50% mastery)." ++ Js.LF ++ Js.LF.

Definition TRACKING_MESSAGE_WHAT_NEXT : string :=
  "**What's next?**" ++ Js.LF ++ "1. Take a quiz to improve mastery" ++ Js.LF
  ++ "2. Learn another topic" ++ Js.LF ++ "3. See your weak areas".

Definition TRACKING_MESSAGE_EXPLAIN_MORE : string :=
  Js.LF ++ Js.LF ++ "---" ++ Js.LF
  ++ "Want me to explain any part in more detail?".

Definition ACKNOWLEDGMENT_TEMPLATE (planLength : nat) (planSummary : string)
  : string :=
  "I'll answer this in " ++ Js.show_nat planLength ++ " parts:" ++ Js.LF ++ Js.LF
  ++ planSummary ++ Js.LF ++ Js.LF ++ "Processing...".

(** [array.map((x, i) => f(x, i))] *)
Fixpoint mapi_from {A B} (i : nat) (f : A -> nat -> B) (l : list A) : list B :=
  match l with
  | [] => []
  | x :: l' => f x i :: mapi_from (S i) f l'
  end.

Definition mapi {A B} (f : A -> nat -> B) (l : list A) : list B :=
  mapi_from 0 f l.

(** How a template literal prints [this.stepResults[i]]. *)
Definition show_result (results : list (option string)) (i : nat) : string :=
  match nth_error results i with
  | Some (Some r) => r
  | _ => "undefined"
  end.

Definition combine_results (steps : list string)
  (results : list (option string)) : string :=
  Js.join (Js.LF ++ Js.LF)
    (mapi (fun step i =>
             ("### " ++ strip_step_prefix step ++ Js.LF
              ++ show_result results i)%string)
          steps).

(** What [onChatMessage] hands back to the transport. *)
Inductive flow := SimpleFlow | PlanFlow.

Section PlanFlow.

(** The services of the platform: the inference binding (a rejected call
    is [None]), [JSON.parse] ([None] when it throws), [JSON.stringify],
    and whether the storage accepts a [saveMessages]. *)
Variable AI_run : ai_request -> option jsval.
Variable JSON_parse : string -> option jsval.
Variable JSON_stringify : jsval -> string.
Variable storage_accepts : list UIMessage -> bool.

(** [await this.env.AI.run(model, { messages, max_tokens })] *)
Definition infer (req : ai_request) : M jsval :=
  emit (Inference req) ;;;
  match AI_run req with
  | Some v => ret v
  | None => throw InferenceError
  end.

(** [await this.saveMessages(ms)] (the re-entrant [onChatMessage] it may
    trigger sees an assistant message last and does nothing). *)
Definition saveMessages (ms : list UIMessage) : M unit :=
  fun c =>
    if storage_accepts ms then
      Outcome {| planSteps := planSteps c; stepResults := stepResults c;
                 originalPrompt := originalPrompt c;
                 isProcessingPlan := isProcessingPlan c;
                 db := db c; messages := ms;
                 schedules := schedules c; clock := clock c |}
              [] (inr tt)
    else Outcome c [] (inl StorageError).

(** [this.schedule(delay, callback, payload)] *)
Definition schedule (d : Z) (cb : string) (p : string) : M unit :=
  fun c =>
    Outcome {| planSteps := planSteps c; stepResults := stepResults c;
               originalPrompt := originalPrompt c;
               isProcessingPlan := isProcessingPlan c;
               db := db c; messages := messages c;
               schedules := schedules c
                            ++ [{| delay := d; callback := cb; payload := p |}];
               clock := clock c |}
            [] (inr tt).

(** Assignment to the four instance fields. *)
Definition set_plan (steps : list string) (results : list (option string))
  (prompt : string) (processing : bool) : M unit :=
  fun c =>
    Outcome {| planSteps := steps; stepResults := results;
               originalPrompt := prompt; isProcessingPlan := processing;
               db := db c; messages := messages c;
               schedules := schedules c; clock := clock c |}
            [] (inr tt).

(** *** Plan generator *)

(** [parseStepsFromString] *)
Definition parseStepsFromString (text fallbackPrompt : string) : list jsval :=
  match JSON_parse text with
  | Some (JArr parsed) => firstn 10 parsed
  | Some _ => [JStr fallbackPrompt]
  | None =>
      match Js.match_delimited (Js.chr 91) (Js.chr 93) text with
      | Some jsonMatch =>
          match JSON_parse jsonMatch with
          | Some (JArr parsed) => firstn 10 parsed
          | _ => [JStr fallbackPrompt]
          end
      | None => [JStr fallbackPrompt]
      end
  end.

(** The body of [generatePlan] below the inference call. *)
Definition steps_of_response (result : jsval) (prompt : string) : list jsval :=
  match result with
  | JObj _ | JArr _ =>
      match prop result "response" with
      | JArr steps => firstn 10 steps
      | JStr s => parseStepsFromString s prompt
      | _ =>
          match prop result "result" with
          | JArr steps => firstn 10 steps
          | JStr s => parseStepsFromString s prompt
          | _ => [JStr prompt]
          end
      end
  | JStr s => parseStepsFromString s prompt
  | _ => [JStr prompt]
  end.

Definition generatePlan (prompt : string) : M (list jsval) :=
  result <- infer (PlanRequest prompt) ;;
  ret (steps_of_response result prompt).

(** *** Step processor *)

Definition response_text (result : jsval) : string :=
  match result with
  | JStr s => s
  | JObj _ | JArr _ =>
      match prop result "response" with
      | JStr s => s
      | _ => match prop result "result" with
             | JStr s => s
             | _ => match prop result "text" with
                    | JStr s => s
                    | _ => JSON_stringify result
                    end
             end
      end
  | _ => EmptyString
  end.

Definition processStep (step : string) (stepIndex : nat) : M string :=
  c <- get ;;
  result <- infer (StepRequest (stepIndex + 1) (List.length (planSteps c))
                     (originalPrompt c)
                     (if (0 <? stepIndex)%nat
                      then Js.join ", " (firstn stepIndex (planSteps c))
                      else EmptyString)
                     step) ;;
  ret (response_text result).

(** *** Topic inference *)

(** [r?.response ?? r?.result ?? (typeof r === "string" ? r : "")] *)
Definition raw_response (result : jsval) : jsval :=
  match prop result "response" with
  | JUndefined | JNull =>
      match prop result "result" with
      | JUndefined | JNull =>
          match result with JStr s => JStr s | _ => JStr EmptyString end
      | v => v
      end
  | v => v
  end.

(** [inferSubjectTopicFromAI]: every failure inside the [try] ends in
    [null]. *)
Definition inferSubjectTopicFromAI (prompt : string)
  : M (option (string * string)) :=
  try_catch
    (result <- infer (InferRequest (Js.take 300 prompt)) ;;
     match raw_response result with
     | JStr raw =>
         match Js.match_delimited (Js.chr 123) (Js.chr 125) raw with
         | None => ret None
         | Some jsonMatch =>
             match JSON_parse jsonMatch with
             | None => ret None
             | Some parsed =>
                 match prop parsed "subject", prop parsed "topic" with
                 | JStr subject, JStr topic =>
                     ret (Some (Js.trim subject, Js.trim topic))
                 | _, _ => ret None
                 end
             end
         end
     | _ => ret None
     end)
    (ret None).

(** *** Result combiner *)

Definition outputCombinedResult : M unit :=
  c <- get ;;
  let combined := combine_results (planSteps c) (stepResults c) in
  inferred <- inferSubjectTopicFromAI (originalPrompt c) ;;
  let topicInfo :=
    match inferred with
    | Some info => Some info
    | None => extractTopicFromPrompt (originalPrompt c)
    end in
  trackingMessage <-
    match topicInfo with
    | Some (subject, topic) =>
        updateKnowledge
          {| kd_subject := subject; kd_topic := topic;
             kd_masteryLevel := Some 50;
             kd_confidence := None; kd_timesStudied := None;
             kd_timesQuizzed := None;
             kd_lastStudied := Some true; kd_lastQuizzed := None;
             kd_weakAreas := None;
             kd_notes := Some ("Learned via "
                               ++ Js.show_nat (List.length (planSteps c))
                               ++ "-step explanation")%string |} ;;;
        emit (AutoTracked subject topic) ;;;
        ret (TRACKING_MESSAGE_ADDED subject topic
             ++ TRACKING_MESSAGE_WHAT_NEXT)%string
    | None => ret TRACKING_MESSAGE_EXPLAIN_MORE
    end ;;
  c' <- get ;;
  saveMessages (messages c'
                ++ [{| role := assistant;
                       text := (combined ++ trackingMessage)%string |}]) ;;;
  set_plan [] [] EmptyString false.

(** *** Scheduler *)

Definition PLAN_STEP (i : nat) : string := "PLAN_STEP:" ++ Js.show_nat i.

Definition executeTask (description : string) : M unit :=
  if Js.startsWith "PLAN_STEP:" description then
    let stepIndex :=
      match nth_error (Js.split_on (Js.chr 58) description) 1 with
      | Some digits => Js.parseInt digits
      | None => None
      end in
    c <- get ;;
    match truthy_string (Js.array_get (planSteps c) stepIndex) with
    | None => emit (InvalidStepIndex stepIndex)
    | Some step =>
        let i := Z.to_nat (or_0 stepIndex) in
        stepResult <- processStep step i ;;
        c1 <- get ;;
        set_plan (planSteps c1) (Js.array_set i stepResult (stepResults c1))
                 (originalPrompt c1) (isProcessingPlan c1) ;;;
        let nextIndex := (i + 1)%nat in
        if (nextIndex <? List.length (planSteps c1))%nat
        then schedule 0 "executeTask" (PLAN_STEP nextIndex)
        else outputCombinedResult
    end
  else
    c <- get ;;
    saveMessages (messages c
                  ++ [{| role := user;
                         text := ("Running scheduled task: "
                                  ++ description)%string |}]).

(** The part of [onChatMessage] that follows [generatePlan]: a plan of at
    most one step goes to the streaming reply, a longer one is stored,
    acknowledged and its first step scheduled. *)
Definition onChatMessage_plan (prompt : string) (plan : list string) : M flow :=
  if (List.length plan <=? 1)%nat then ret SimpleFlow
  else
    c <- get ;;
    set_plan plan (repeat (Some EmptyString) (List.length plan)) prompt true ;;;
    let planSummary :=
      Js.join Js.LF
        (mapi (fun s i => (Js.show_nat (i + 1) ++ ". " ++ s)%string) plan) in
    let acknowledgmentText :=
      ACKNOWLEDGMENT_TEMPLATE (List.length plan) planSummary in
    saveMessages (messages c
                  ++ [{| role := assistant; text := acknowledgmentText |}]) ;;;
    schedule 0 "executeTask" (PLAN_STEP 0) ;;;
    ret PlanFlow.

(** The durable scheduler of the platform: it takes the oldest due entry
    off the schedule and calls its callback with the payload.  Every
    entry this agent creates names [executeTask] and has delay 0. *)
Definition run_next_schedule : M unit :=
  fun c =>
    match schedules c with
    | [] => Outcome c [] (inr tt)
    | s :: rest =>
        executeTask (payload s)
          {| planSteps := planSteps c; stepResults := stepResults c;
             originalPrompt := originalPrompt c;
             isProcessingPlan := isProcessingPlan c;
             db := db c; messages := messages c;
             schedules := rest; clock := clock c |}
    end.

End PlanFlow.

(* ================================================================== *)
(** ** What the specification says, in its own words *)
(* ================================================================== *)

Module Spec.

(** The ledger entries a subject filter selects; an absent or empty
    filter selects them all. *)
Definition selected (subject : option string) (ledger : list QuizHistory)
  : list QuizHistory :=
  match subject with
  | Some s =>
      if String.eqb s EmptyString then ledger
      else filter (fun q => String.eqb (q_subject q) s) ledger
  | None => ledger
  end.

(** [ranked] lists the entries [rows] from the most recent to the
    oldest: the same entries, none dated after one that precedes it.
    Entries of one date may stand in any order. *)
Definition by_recency (ranked rows : list QuizHistory) : Prop :=
  Permutation ranked rows
  /\ StronglySorted (fun a b => q_quiz_date b <= q_quiz_date a) ranked.

Definition total (l : list Z) : Z := fold_right Z.add 0 l.

(** The mean of the scores rounded to the nearest integer (a half goes
    up); 0 for no score. *)
Definition rounded_mean (scores : list Z) : Z :=
  match scores with
  | [] => 0
  | _ :: _ =>
      let n := Z.of_nat (List.length scores) in
      (2 * total scores + n) / (2 * n)
  end.

(** [m] is the greatest (least) element of [l], or 0 when [l] is
    empty. *)
Definition greatest (m : Z) (l : list Z) : Prop :=
  match l with
  | [] => m = 0
  | _ :: _ => In m l /\ Forall (fun x => x <= m) l
  end.

Definition least (m : Z) (l : list Z) : Prop :=
  match l with
  | [] => m = 0
  | _ :: _ => In m l /\ Forall (fun x => m <= x) l
  end.

(** The labels the entries recorded as missed, in order. *)
Definition missed_labels (rows : list QuizHistory) : list string :=
  flat_map (fun q => match q_missed_concepts q with
                     | Some l => l
                     | None => []
                     end) rows.

(** How often a label occurs. *)
Definition frequency (labels : list string) (x : string) : Z :=
  Z.of_nat (count_occ string_dec labels x).

(** The distinct labels, each at its first occurrence. *)
Fixpoint first_occurrences (labels : list string) : list string :=
  match labels with
  | [] => []
  | x :: rest =>
      x :: filter (fun y => negb (String.eqb y x)) (first_occurrences rest)
  end.

(** The [n] most frequent labels: the distinct labels sorted by
    descending frequency, equally frequent ones staying in the order in
    which they were first met. *)
Definition most_frequent (n : nat) (labels : list string) : list string :=
  firstn n
    (Sql.order_by (fun a b => frequency labels b <=? frequency labels a)
                  (first_occurrences labels)).

(** [top] holds the [n] most frequent labels: it is the head of a list
    of the distinct labels in which no label is more frequent than one
    that precedes it, and in which the labels of one frequency stand in
    the order in which they were first met. *)
Definition ranks (n : nat) (labels top : list string) : Prop :=
  exists ranking,
    top = firstn n ranking
    /\ Permutation ranking (first_occurrences labels)
    /\ StronglySorted
         (fun a b => frequency labels b <= frequency labels a) ranking
    /\ forall k,
         filter (fun x => frequency labels x =? k) ranking
         = filter (fun x => frequency labels x =? k)
                  (first_occurrences labels).

(** The figures of the entries [rows]: their number, mean, sums, best
    and worst score, and the scores of the 5 most recent of them, most
    recent first. *)
Definition describes (stats : QuizStats) (rows : list QuizHistory) : Prop :=
  totalQuizzes stats = Z.of_nat (List.length rows)
  /\ averageScore stats = rounded_mean (map q_score rows)
  /\ totalQuestions stats = total (map q_total_questions rows)
  /\ totalCorrect stats = total (map q_correct_answers rows)
  /\ greatest (bestScore stats) (map q_score rows)
  /\ least (worstScore stats) (map q_score rows)
  /\ exists ranked,
       by_recency ranked rows
       /\ recentScores stats = map q_score (firstn 5 ranked).

(** The missed concepts of [stats] are the 5 most frequent ones of the
    10 most recent of the entries [candidates].  The ranking is stated
    for labels that are neither array indices nor names inherited from
    [Object.prototype]. *)
Definition ranks_missed_concepts (stats : QuizStats)
  (candidates : list QuizHistory) : Prop :=
  exists ranked,
    by_recency ranked candidates
    /\ let labels := missed_labels (firstn 10 ranked) in
       (Forall (fun x => JsObject.plain_key x = true) labels ->
        mostMissedConcepts stats = most_frequent 5 labels
        /\ ranks 5 labels (mostMissedConcepts stats)).

Definition zero_stats : QuizStats :=
  {| totalQuizzes := 0; averageScore := 0; totalQuestions := 0;
     totalCorrect := 0; bestScore := 0; worstScore := 0;
     recentScores := []; mostMissedConcepts := [] |}.

(** The weighted mean of a prior mastery and a score, rounded to the
    nearest integer in exact arithmetic (a half goes up). *)
Definition exact_weighted_mastery (mastery score : Z) : Z :=
  (7 * mastery + 3 * score + 5) / 10.

(** [s] is the union of [a] and [b] without duplicates. *)
Definition duplicate_free_union (s a b : list string) : Prop :=
  NoDup s /\ forall x, In x s <-> In x a \/ In x b.

(** The order of the weak-area listing: by mastery, then confidence. *)
Definition weaker_or_equal (a b : Knowledge) : Prop :=
  k_mastery_level a < k_mastery_level b
  \/ (k_mastery_level a = k_mastery_level b
      /\ k_confidence a <= k_confidence b).

End Spec.

(** The [CHECK] constraints of the knowledge table hold of every row
    (SQLite has refused any row that broke them). *)
Definition knowledge_checked (d : Database) : Prop :=
  Forall (fun k => Sql.check_knowledge k = true) (knowledge d).

(** The write operations that carry an enumerated field. *)
Inductive write_op : Type :=
| UpdateSessionPreferences (data : SessionPreferencesData)
| RecordQuiz (data : QuizResult)
| StartSession (sessionType : string) (subject topic : option string)
| ResetProgress (resetType : string).

Definition outside (valid : list string) (x : js_opt string) : bool :=
  match x with
  | Val v => negb (Js.includes valid v)
  | _ => false
  end.

(** The operation carries a value outside the enumeration of one of its
    enumerated fields. *)
Definition invalid_enum (op : write_op) : bool :=
  match op with
  | UpdateSessionPreferences data =>
      outside Goal_values (goal data)
      || outside ExamDepth_values (examDepth data)
      || outside QuizType_values (quizType data)
  | RecordQuiz data => negb (Js.includes QuizType_values (qr_quizType data))
  | StartSession sessionType _ _ =>
      negb (Js.includes SessionType_values sessionType)
  | ResetProgress resetType => negb (Js.includes ResetType_values resetType)
  end.

(** The outcome of an operation that was refused with a validation
    error and touched nothing. *)
Definition rejected_untouched {A} (r : outcome A) (c : Chat) : Prop :=
  final r = c /\ exists field value, result r = inl (ValidationError field value).

Definition run_write (op : write_op) (c : Chat) : outcome unit :=
  match op with
  | UpdateSessionPreferences data => updateSessionPreferences data c
  | RecordQuiz data => (recordQuiz data ;;; ret tt) c
  | StartSession sessionType subject topic =>
      (startSession sessionType subject topic ;;; ret tt) c
  | ResetProgress resetType => resetProgress resetType c
  end.

(** An event that is a call of the step processor. *)
Definition is_step_request (ev : event) : bool :=
  match ev with
  | Inference (StepRequest _ _ _ _ _) => true
  | _ => false
  end.

(* ================================================================== *)
(** ** Vocabulary of the statements *)
(* ================================================================== *)

(** *** States *)

Definition with_rows (c : Chat) (rows : list Knowledge) : Chat :=
  with_db c (Sql.with_knowledge (db c) rows).

Definition with_plan (c : Chat) (steps : list string)
  (results : list (option string)) (prompt : string) (processing : bool) : Chat :=
  {| planSteps := steps; stepResults := results; originalPrompt := prompt;
     isProcessingPlan := processing;
     db := db c; messages := messages c; schedules := schedules c;
     clock := clock c |}.

Definition with_results (c : Chat) (results : list (option string)) : Chat :=
  with_plan c (planSteps c) results (originalPrompt c) (isProcessingPlan c).

Definition with_messages (c : Chat) (ms : list UIMessage) : Chat :=
  {| planSteps := planSteps c; stepResults := stepResults c;
     originalPrompt := originalPrompt c;
     isProcessingPlan := isProcessingPlan c;
     db := db c; messages := ms; schedules := schedules c; clock := clock c |}.

Definition with_schedules (c : Chat) (q : list Schedule) : Chat :=
  {| planSteps := planSteps c; stepResults := stepResults c;
     originalPrompt := originalPrompt c;
     isProcessingPlan := isProcessingPlan c;
     db := db c; messages := messages c; schedules := q; clock := clock c |}.

(** The plan fields of [c'] are those of [c]. *)
Definition same_plan (c c' : Chat) : Prop :=
  planSteps c' = planSteps c /\ stepResults c' = stepResults c
  /\ originalPrompt c' = originalPrompt c
  /\ isProcessingPlan c' = isProcessingPlan c.

(** The plan fields are back at their initial values. *)
Definition plan_cleared (c : Chat) : Prop :=
  planSteps c = [] /\ stepResults c = [] /\ originalPrompt c = EmptyString
  /\ isProcessingPlan c = false.

(** *** Knowledge updates *)

(** A column update of the rows of one topic. *)
Definition on_topic (subject topic : string) (set : Knowledge -> Knowledge)
  (k : Knowledge) : Knowledge :=
  if Sql.same_key subject topic k then set k else k.

Definition opt_apply {A} (x : option A) (set : A -> Knowledge -> Knowledge)
  (k : Knowledge) : Knowledge :=
  match x with Some v => set v k | None => k end.

(** What the eight guarded [UPDATE]s of [updateKnowledge] make of an
    existing row, in the order in which they run. *)
Definition knowledge_setter (data : KnowledgeData) (t : timestamp)
  (k : Knowledge) : Knowledge :=
  opt_apply (kd_notes data) (fun v => Sql.set_notes (Some v))
  (opt_apply (kd_weakAreas data) (fun v => Sql.set_weak_areas (Some v))
  (opt_apply (if truthy (kd_lastQuizzed data) then Some t else None)
             (fun v => Sql.set_last_quizzed (Some v))
  (opt_apply (if truthy (kd_lastStudied data) then Some t else None)
             (fun v => Sql.set_last_studied (Some v))
  (opt_apply (kd_timesQuizzed data) Sql.set_times_quizzed
  (opt_apply (kd_timesStudied data) Sql.set_times_studied
  (opt_apply (kd_confidence data) Sql.set_confidence
  (opt_apply (kd_masteryLevel data) Sql.set_mastery_level k))))))).

(** A setter that leaves the key alone and never breaks a [CHECK]. *)
Definition harmless (set : Knowledge -> Knowledge) : Prop :=
  forall k, k_subject (set k) = k_subject k
            /\ k_topic (set k) = k_topic k
            /\ (Sql.check_knowledge k = true ->
                Sql.check_knowledge (set k) = true).

Definition percent_or_absent (x : option Z) : Prop :=
  match x with Some v => Sql.check_percent v = true | None => True end.

(** *** Quiz submissions *)

(** The ledger row of a submission. *)
Definition quiz_row (d : Database) (t : timestamp) (data : QuizResult)
  : QuizHistory :=
  {| q_id := seq_quiz_history d + 1;
     q_subject := qr_subject data;
     q_topic := qr_topic data;
     q_quiz_type := Some (qr_quizType data);
     q_score := qr_score data;
     q_total_questions := qr_totalQuestions data;
     q_correct_answers := qr_correctAnswers data;
     q_missed_concepts :=
       match qr_missedConcepts data with
       | [] => None
       | _ :: _ => Some (qr_missedConcepts data)
       end;
     q_time_spent_seconds := qr_timeSpentSeconds data;
     q_hints_used := match qr_hintsUsed data with Some h => h | None => 0 end;
     q_quiz_date := t |}.

Definition ledger_appended (d : Database) (row : QuizHistory) : Database :=
  {| user_profile := user_profile d;
     session_preferences := session_preferences d;
     knowledge := knowledge d;
     quiz_history := quiz_history d ++ [row];
     study_sessions := study_sessions d;
     seq_knowledge := seq_knowledge d;
     seq_quiz_history := q_id row;
     seq_study_sessions := seq_study_sessions d;
     last_insert_rowid := q_id row |}.

(** The percentages, and what the table of [weighted_mastery] over them
    is checked for: the result is a nearest integer of the exact weighted
    mean and a percentage, it is the exactly rounded mean away from the
    half-points, and equal inputs are a fixed point. *)
Definition percent_range : list Z := map Z.of_nat (seq 0 101).

Definition weighted_mastery_ok (m s : Z) : bool :=
  let w := weighted_mastery m s in
  (10 * w - 5 <=? 7 * m + 3 * s) && (7 * m + 3 * s <=? 10 * w + 5)
  && (0 <=? w) && (w <=? 100)
  && (((7 * m + 3 * s) mod 10 =? 5) || (w =? Spec.exact_weighted_mastery m s))
  && (negb (m =? s) || (w =? s)).

(** *** Quiz statistics *)

(** The counting object after the labels [labels] went through it: one
    property per distinct label, created at its first occurrence. *)
Definition tally (labels : list string) : JsObject.t :=
  map (fun x => (x, Spec.frequency labels x)) (Spec.first_occurrences labels).

(** *** Plan flow *)

Definition continuation (i : nat) : Schedule :=
  {| delay := 0; callback := "executeTask"; payload := PLAN_STEP i |}.

(** The request [processStep] sends for step [i] of the stored plan. *)
Definition step_request (c : Chat) (i : nat) (step : string) : ai_request :=
  StepRequest (i + 1) (List.length (planSteps c)) (originalPrompt c)
    (if (0 <? i)%nat then Js.join ", " (firstn i (planSteps c))
     else EmptyString)
    step.

Definition no_step (ev : event) : Prop := is_step_request ev = false.

(** An operation that never calls the step processor. *)
Definition quiet {A} (m : M A) : Prop :=
  forall c, Forall no_step (trace (m c)).

(** The acknowledgment [onChatMessage] saves for a plan. *)
Definition acknowledgment (plan : list string) : UIMessage :=
  {| role := assistant;
     text := ACKNOWLEDGMENT_TEMPLATE (List.length plan)
               (Js.join Js.LF
                  (mapi (fun s i => (Js.show_nat (i + 1) ++ ". " ++ s)%string)
                        plan)) |}.

(** The state in which [onChatMessage] leaves the agent when it starts a
    plan. *)
Definition plan_started (c : Chat) (prompt : string) (plan : list string)
  : Chat :=
  with_schedules
    (with_messages
       (with_plan c plan (repeat (Some EmptyString) (List.length plan))
                  prompt true)
       (messages c ++ [acknowledgment plan]))
    (schedules c ++ [continuation 0]).

(* ================================================================== *)
(** ** Concrete runs *)
(* ================================================================== *)

Module Example.

(** A new object: empty tables, no message, nothing scheduled. *)
Definition idle : Chat := fresh_instance empty_database [] [] 1000.

Definition quiz (topic : option string) (score : Z) (missed : list string)
  : QuizResult :=
  {| qr_subject := "Math"; qr_topic := topic; qr_quizType := "mixed";
     qr_score := score; qr_totalQuestions := 10;
     qr_correctAnswers := score / 10; qr_missedConcepts := missed;
     qr_timeSpentSeconds := None; qr_hintsUsed := None |}.

(** The agent after a first quiz on Math > Algebra with the given
    score. *)
Definition quizzed (score : Z) : Chat :=
  final (recordQuiz (quiz (Some "Algebra") score []) idle).

(** The entry of Math > Algebra. *)
Definition algebra (c : Chat) : option Knowledge :=
  hd_error (Sql.select_topic (db c) "Math" "Algebra").

(** A ledger of eleven quizzes: the oldest missed a concept, the ten
    that followed missed none. *)
Definition ledger_row (n : Z) (missed : option (list string)) : QuizHistory :=
  {| q_id := n; q_subject := "Math"; q_topic := None;
     q_quiz_type := Some "mixed"; q_score := 80; q_total_questions := 10;
     q_correct_answers := 8; q_missed_concepts := missed;
     q_time_spent_seconds := None; q_hints_used := 0; q_quiz_date := n |}.

Definition eleven_quizzes : list QuizHistory :=
  ledger_row 1 (Some ["fractions"])
  :: map (fun n => ledger_row (Z.of_nat n) None) (seq 2 10).

Definition with_ledger (ledger : list QuizHistory) : Chat :=
  with_db idle
    {| user_profile := None; session_preferences := None;
       knowledge := []; quiz_history := ledger; study_sessions := [];
       seq_knowledge := 0;
       seq_quiz_history := Z.of_nat (List.length ledger);
       seq_study_sessions := 0;
       last_insert_rowid := Z.of_nat (List.length ledger) |}.

(** Three knowledge rows at the boundary of the weak-area test. *)
Definition entry (n mastery confidence : Z) : Knowledge :=
  {| k_id := n; k_subject := "Math"; k_topic := "T";
     k_mastery_level := mastery; k_confidence := confidence;
     k_times_studied := 0; k_times_quizzed := 0;
     k_last_studied := None; k_last_quizzed := None;
     k_weak_areas := None; k_notes := None; k_created_at := 0 |}.

Definition boundary : Chat :=
  with_rows idle [entry 1 60 50; entry 2 60 49; entry 3 59 90].

(** A two-step plan, a model that
    answers every request with the same text, [JSON.parse] failing on
    it, and a storage that accepts or refuses every save. *)
Definition prompt : string := "Explain recursion".
Definition two_steps : list string :=
  ["Step 1: define recursion"; "Step 2: give example of recursion"].
Definition answering (req : ai_request) : option jsval := Some (JStr "An answer.").
Definition unparsable (s : string) : option jsval := None.
Definition printing (v : jsval) : string := EmptyString.
Definition accepting (ms : list UIMessage) : bool := true.
Definition refusing (ms : list UIMessage) : bool := false.

(** The plan started, and step 0 run by the scheduler. *)
Definition started : Chat :=
  final (onChatMessage_plan accepting prompt two_steps idle).

Definition after_step_0 : Chat :=
  final (run_next_schedule answering unparsable printing accepting started).

(** Both steps answered, the combiner about to run. *)
Definition combining : Chat :=
  with_plan idle two_steps [Some "An answer."; Some "An answer."] prompt true.

(** A stored plan whose second step is the empty string. *)
Definition with_empty_step : Chat :=
  with_plan idle ["Define recursion"; EmptyString]
            [Some "An answer."; Some EmptyString] prompt true.

End Example.

(* ================================================================== *)
(** ** Text predicates, and the plan flow run to its end *)
(* ================================================================== *)

(** *** Text *)

(** A string that does not begin with a blank. *)
Definition no_leading_blank (s : string) : Prop :=
  match s with
  | String c _ => Js.is_space c = false
  | EmptyString => True
  end.

(** A string of blanks only. *)
Fixpoint all_blank (s : string) : bool :=
  match s with
  | EmptyString => true
  | String c s' => Js.is_space c && all_blank s'
  end.

(** [t] is a contiguous piece of [s]. *)
Definition piece_of (t s : string) : Prop :=
  exists pre post, s = (pre ++ t ++ post)%string.

(** *** The plan flow, run to its end *)

Section PlanRun.

Variable AI_run : ai_request -> option jsval.
Variable JSON_parse : string -> option jsval.
Variable JSON_stringify : jsval -> string.
Variable storage_accepts : list UIMessage -> bool.

(** The scheduler of the platform delivering [n] due entries, one after
    the other; an error ends the run. *)
Fixpoint run_schedule (n : nat) : M unit :=
  match n with
  | O => ret tt
  | S n' =>
      run_next_schedule AI_run JSON_parse JSON_stringify storage_accepts ;;;
      run_schedule n'
  end.

(** The subject and topic read off the model's answer to the inference
    request, and the node the combiner files the prompt under. *)
Definition topic_of_answer (v : jsval) : option (string * string) :=
  match raw_response v with
  | JStr raw =>
      match Js.match_delimited (Js.chr 123) (Js.chr 125) raw with
      | Some jsonMatch =>
          match JSON_parse jsonMatch with
          | Some parsed =>
              match prop parsed "subject", prop parsed "topic" with
              | JStr subject, JStr topic => Some (Js.trim subject, Js.trim topic)
              | _, _ => None
              end
          | None => None
          end
      | None => None
      end
  | _ => None
  end.

Definition inferred_topic (prompt : string) : option (string * string) :=
  match AI_run (InferRequest (Js.take 300 prompt)) with
  | Some v => topic_of_answer v
  | None => None
  end.

Definition tracked_topic (prompt : string) : option (string * string) :=
  match inferred_topic prompt with
  | Some info => Some info
  | None => extractTopicFromPrompt prompt
  end.

(** What the combiner passes to [updateKnowledge]. *)
Definition tracking_update (steps : nat) (subject topic : string)
  : KnowledgeData :=
  {| kd_subject := subject; kd_topic := topic;
     kd_masteryLevel := Some 50;
     kd_confidence := None; kd_timesStudied := None;
     kd_timesQuizzed := None;
     kd_lastStudied := Some true; kd_lastQuizzed := None;
     kd_weakAreas := None;
     kd_notes := Some ("Learned via " ++ Js.show_nat steps
                       ++ "-step explanation")%string |}.

(** The closing lines of the combined reply. *)
Definition tracking_message (info : option (string * string)) : string :=
  match info with
  | Some (subject, topic) =>
      (TRACKING_MESSAGE_ADDED subject topic ++ TRACKING_MESSAGE_WHAT_NEXT)%string
  | None => TRACKING_MESSAGE_EXPLAIN_MORE
  end.

Definition tracking_trace (prompt : string) : list event :=
  Inference (InferRequest (Js.take 300 prompt))
  :: match tracked_topic prompt with
     | Some (subject, topic) => [AutoTracked subject topic]
     | None => []
     end.

(** The answer of the model to step [i] of a plan, as the step
    processor reads it. *)
Definition step_reply (plan : list string) (prompt : string) (i : nat)
  : option string :=
  match nth_error plan i with
  | Some step =>
      option_map (response_text JSON_stringify)
        (AI_run (StepRequest (i + 1) (List.length plan) prompt
                   (if (0 <? i)%nat then Js.join ", " (firstn i plan)
                    else EmptyString)
                   step))
  | None => None
  end.

Definition step_replies (plan : list string) (prompt : string)
  : list (option string) :=
  map (step_reply plan prompt) (seq 0 (List.length plan)).

(** The requests the step processor sends for a whole plan, in order. *)
Definition step_requests (plan : list string) (prompt : string) : list event :=
  mapi (fun step i =>
          Inference (StepRequest (i + 1) (List.length plan) prompt
                       (if (0 <? i)%nat then Js.join ", " (firstn i plan)
                        else EmptyString)
                       step))
       plan.

End PlanRun.

(* ================================================================== *)
(** ** The other store operations of the class *)
(* ================================================================== *)

(** The statements of the operations below, on the tables of
    [initTables]. *)
Module Queries.

(** *** user_profile *)

Definition with_profile (d : Database) (p : option UserProfile) : Database :=
  {| user_profile := p;
     session_preferences := session_preferences d;
     knowledge := knowledge d;
     quiz_history := quiz_history d;
     study_sessions := study_sessions d;
     seq_knowledge := seq_knowledge d;
     seq_quiz_history := seq_quiz_history d;
     seq_study_sessions := seq_study_sessions d;
     last_insert_rowid := last_insert_rowid d |}.

(** [INSERT INTO user_profile (id, name, major, year,
    preferred_learning_methods) VALUES (1, ...)]; both dates take their
    default, [CURRENT_TIMESTAMP]. *)
Definition insert_profile (d : Database) (now : timestamp)
  (name major year : option string) (methods : option (list string))
  : exn + Database :=
  match user_profile d with
  | Some _ => inl (ConstraintError "user_profile")
  | None =>
      inr {| user_profile :=
               Some {| up_name := name; up_major := major; up_year := year;
                       up_preferred_learning_methods := methods;
                       up_created_at := now; up_last_active := now |};
             session_preferences := session_preferences d;
             knowledge := knowledge d;
             quiz_history := quiz_history d;
             study_sessions := study_sessions d;
             seq_knowledge := seq_knowledge d;
             seq_quiz_history := seq_quiz_history d;
             seq_study_sessions := seq_study_sessions d;
             last_insert_rowid := 1 |}
  end.

(** [UPDATE user_profile SET col = ? WHERE id = 1] *)
Definition update_profile (d : Database) (set : UserProfile -> UserProfile)
  : Database :=
  with_profile d (option_map set (user_profile d)).

Definition set_name (v : option string) (p : UserProfile) : UserProfile :=
  {| up_name := v; up_major := up_major p; up_year := up_year p;
     up_preferred_learning_methods := up_preferred_learning_methods p;
     up_created_at := up_created_at p; up_last_active := up_last_active p |}.

Definition set_major (v : option string) (p : UserProfile) : UserProfile :=
  {| up_name := up_name p; up_major := v; up_year := up_year p;
     up_preferred_learning_methods := up_preferred_learning_methods p;
     up_created_at := up_created_at p; up_last_active := up_last_active p |}.

Definition set_year (v : option string) (p : UserProfile) : UserProfile :=
  {| up_name := up_name p; up_major := up_major p; up_year := v;
     up_preferred_learning_methods := up_preferred_learning_methods p;
     up_created_at := up_created_at p; up_last_active := up_last_active p |}.

Definition set_preferred_learning_methods (v : option (list string))
  (p : UserProfile) : UserProfile :=
  {| up_name := up_name p; up_major := up_major p; up_year := up_year p;
     up_preferred_learning_methods := v;
     up_created_at := up_created_at p; up_last_active := up_last_active p |}.

Definition set_last_active (v : timestamp) (p : UserProfile) : UserProfile :=
  {| up_name := up_name p; up_major := up_major p; up_year := up_year p;
     up_preferred_learning_methods := up_preferred_learning_methods p;
     up_created_at := up_created_at p; up_last_active := v |}.

(** *** knowledge *)

(** [ORDER BY topic ASC], the comparison of the [BINARY] collation. *)
Definition topic_ascending (a b : Knowledge) : bool :=
  String.leb (k_topic a) (k_topic b).

(** [SELECT * FROM knowledge WHERE subject = ? ORDER BY topic ASC] *)
Definition select_by_subject (d : Database) (subject : string)
  : list Knowledge :=
  Sql.order_by topic_ascending
    (filter (fun k => String.eqb (k_subject k) subject) (knowledge d)).

(** *** quiz_history *)

(** [SELECT * FROM quiz_history [WHERE subject = ?] ORDER BY quiz_date
    DESC LIMIT ?] *)
Definition select_history (d : Database) (subject : option string) (n : Z)
  : list QuizHistory :=
  Sql.limit n (Sql.order_by Sql.newest_first
                 (filter (Sql.subject_filter subject) (quiz_history d))).

(** *** study_sessions *)

Definition with_sessions (d : Database) (rows : list StudySession)
  : Database :=
  {| user_profile := user_profile d;
     session_preferences := session_preferences d;
     knowledge := knowledge d;
     quiz_history := quiz_history d;
     study_sessions := rows;
     seq_knowledge := seq_knowledge d;
     seq_quiz_history := seq_quiz_history d;
     seq_study_sessions := seq_study_sessions d;
     last_insert_rowid := last_insert_rowid d |}.

(** [UPDATE study_sessions SET ended_at = CURRENT_TIMESTAMP, summary = ?,
    duration_minutes = CAST((JULIANDAY(CURRENT_TIMESTAMP) -
    JULIANDAY(started_at)) * 1440 AS INTEGER) WHERE id = ?].  The value
    of the duration expression is the engine's: [minutes_between now
    started]. *)
Definition end_session (minutes_between : timestamp -> timestamp -> Z)
  (d : Database) (now : timestamp) (id : Z) (summary : string) : Database :=
  with_sessions d
    (map (fun s =>
            if ss_id s =? id
            then {| ss_id := ss_id s;
                    ss_session_type := ss_session_type s;
                    ss_subject := ss_subject s;
                    ss_topic := ss_topic s;
                    ss_duration_minutes :=
                      Some (minutes_between now (ss_started_at s));
                    ss_summary := Some summary;
                    ss_started_at := ss_started_at s;
                    ss_ended_at := Some now |}
            else s)
         (study_sessions d)).

(** [WHERE ended_at IS NOT NULL] *)
Definition is_ended (s : StudySession) : bool :=
  match ss_ended_at s with Some _ => true | None => false end.

(** [COALESCE(SUM(duration_minutes), 0)]: [SUM] skips the [NULL]s. *)
Definition sum_minutes (rows : list StudySession) : Z :=
  Sql.sum_Z (map (fun s => Sql.coalesce0 (ss_duration_minutes s)) rows).

(** [SELECT COALESCE(SUM(duration_minutes), 0) AS total_minutes FROM
    study_sessions WHERE ended_at IS NOT NULL] *)
Definition select_total_minutes (d : Database) : list Z :=
  [sum_minutes (filter is_ended (study_sessions d))].

Record TypeRow := {
  tr_session_type : string;
  tr_count : Z;
  tr_total_minutes : Z
}.

(** [SELECT session_type, COUNT( * ), COALESCE(SUM(duration_minutes), 0)
    FROM study_sessions WHERE ended_at IS NOT NULL GROUP BY
    session_type]: one row per session type that occurs, the groups in
    the order of their key. *)
Definition select_by_type (d : Database) : list TypeRow :=
  let ended := filter is_ended (study_sessions d) in
  map (fun ty =>
         let group := filter (fun s => String.eqb (ss_session_type s) ty)
                             ended in
         {| tr_session_type := ty;
            tr_count := Z.of_nat (List.length group);
            tr_total_minutes := sum_minutes group |})
      (Sql.order_by String.leb (Js.dedup (map ss_session_type ended))).

Record RecentRow := {
  rr_session_type : string;
  rr_subject : option string;
  rr_duration_minutes : option Z;
  rr_started_at : timestamp
}.

(** [ORDER BY started_at DESC] *)
Definition latest_started_first (a b : StudySession) : bool :=
  ss_started_at b <=? ss_started_at a.

(** [SELECT session_type, subject, duration_minutes, started_at FROM
    study_sessions ORDER BY started_at DESC LIMIT 5] *)
Definition select_recent_sessions (d : Database) : list RecentRow :=
  map (fun s => {| rr_session_type := ss_session_type s;
                   rr_subject := ss_subject s;
                   rr_duration_minutes := ss_duration_minutes s;
                   rr_started_at := ss_started_at s |})
      (Sql.limit 5 (Sql.order_by latest_started_first (study_sessions d))).

End Queries.

(** *** User profile *)

(** The argument of [updateUserProfile]; a field left out is [None]. *)
Record UserProfileData := {
  pd_name : option string;
  pd_major : option string;
  pd_year : option string;
  pd_preferredLearningMethods : option (list string)
}.

(** [getUserProfile]: [result[0] || null] *)
Definition getUserProfile : M (option UserProfile) := query user_profile.

(** [if (x !== undefined) this.sql`UPDATE user_profile SET col = ${x}
    WHERE id = 1`] *)
Definition update_profile_column {A} (x : option A)
  (set : option A -> UserProfile -> UserProfile) : M unit :=
  match x with
  | Some v => sql (fun d => inr (Queries.update_profile d (set (Some v))))
  | None => ret tt
  end.

Definition updateUserProfile (data : UserProfileData) : M unit :=
  existing <- getUserProfile ;;
  t <- now ;;
  match existing with
  | None =>
      sql (fun d => Queries.insert_profile d t
                      (pd_name data) (pd_major data) (pd_year data)
                      (pd_preferredLearningMethods data))
  | Some _ =>
      update_profile_column (pd_name data) Queries.set_name ;;;
      update_profile_column (pd_major data) Queries.set_major ;;;
      update_profile_column (pd_year data) Queries.set_year ;;;
      update_profile_column (pd_preferredLearningMethods data)
        Queries.set_preferred_learning_methods
  end ;;;
  sql (fun d => inr (Queries.update_profile d (Queries.set_last_active t))).

(** *** Knowledge by subject *)

Definition getKnowledgeBySubject (subject : string) : M (list Knowledge) :=
  query (fun d => Queries.select_by_subject d subject).

(** *** Quiz history *)

(** [getQuizHistory(subject?, limit = 20)] *)
Definition getQuizHistory (subject : option string) (limit : option Z)
  : M (list QuizHistory) :=
  let n := match limit with Some n => n | None => 20 end in
  query (fun d => Queries.select_history d subject n).

(** *** Study sessions *)

(** A plain object with string keys: its own properties in creation
    order.  (The keys written below are session types, which the
    [CHECK] of the table keeps among four ordinary names.) *)
Fixpoint object_set {V : Type} (o : list (string * V)) (k : string) (v : V)
  : list (string * V) :=
  match o with
  | [] => [(k, v)]
  | (k', v') :: o' =>
      if String.eqb k' k then (k', v) :: o'
      else (k', v') :: object_set o' k v
  end.

Fixpoint object_get {V : Type} (o : list (string * V)) (k : string)
  : option V :=
  match o with
  | [] => None
  | (k', v) :: o' => if String.eqb k' k then Some v else object_get o' k
  end.

Record TypeStats := { ts_count : Z; ts_totalMinutes : Z }.

Record StudyStats := {
  totalMinutes : Z;
  sessionsByType : list (string * TypeStats);
  recentSessions : list Queries.RecentRow
}.

Section StudySessions.

(** What SQLite makes of [CAST((JULIANDAY(a) - JULIANDAY(b)) * 1440 AS
    INTEGER)] for two timestamps. *)
Variable minutes_between : timestamp -> timestamp -> Z.

Definition endSession (sessionId : Z) (summary : string) : M unit :=
  t <- now ;;
  sql (fun d => inr (Queries.end_session minutes_between d t sessionId summary)).

End StudySessions.

Definition getStudyStats : M StudyStats :=
  totalResult <- query Queries.select_total_minutes ;;
  let total := match totalResult with
               | total_minutes :: _ => total_minutes
               | [] => 0
               end in
  typeResults <- query Queries.select_by_type ;;
  let byType :=
    fold_left (fun o row =>
                 object_set o (Queries.tr_session_type row)
                   {| ts_count := Queries.tr_count row;
                      ts_totalMinutes := Queries.tr_total_minutes row |})
              typeResults [] in
  recent <- query Queries.select_recent_sessions ;;
  ret {| totalMinutes := total;
         sessionsByType := byType;
         recentSessions := recent |}.

(* ================================================================== *)
(** ** The tools of the assistant ([tools.ts]) *)
(* ================================================================== *)

(** How a template literal prints an integral number. *)
Definition show_Z (z : Z) : string :=
  if z <? 0 then ("-" ++ Js.show_nat (Z.to_nat (- z)))%string
  else Js.show_nat (Z.to_nat z).

(** A text between double quotes. *)
Definition quoted (s : string) : string := Js.DQUOTE ++ s ++ Js.DQUOTE.

(** *** The instructions a tool hands back ([prompts.ts]) *)

Definition NEXT_ASK_MAJOR (name : string) : string :=
  "NEXT: Ask " ++ quoted (name ++ ", what's your major or field of study?").

Definition NEXT_ASK_YEAR : string :=
  "NEXT: Ask "
  ++ quoted "What year are you in? (Freshman, Sophomore, Junior, Senior, Graduate)".

Definition NEXT_ASK_LEARNING_METHODS : string :=
  "NEXT: Ask "
  ++ quoted "How do you prefer to learn? Pick 2-3: Examples, Theory, Practice, Flashcards, Summaries, or Socratic".

Definition NEXT_ASK_GOAL : string :=
  "NEXT: Ask "
  ++ quoted "What would you like to do today? 1) Learn something new, 2) Prepare for an exam, 3) Take a quiz".

Definition NEXT_ASK_LEARN_TOPIC : string :=
  "NEXT: Ask " ++ quoted "What topic would you like to learn about?".

Definition NEXT_ASK_LEARN_CONCEPT : string :=
  "NEXT: Ask " ++ quoted "What specific concept within that topic?".

Definition NEXT_START_TEACHING : string :=
  "NEXT: Start teaching the topic using user's preferred learning methods!".

Definition NEXT_ASK_EXAM_NAME : string :=
  "NEXT: Ask " ++ quoted "What exam are you preparing for?".

Definition NEXT_ASK_EXAM_DEPTH : string :=
  "NEXT: Ask "
  ++ quoted "How in-depth do you want to go? (Overview, Moderate, Deep dive)".

Definition NEXT_ASK_EXAM_TIME : string :=
  "NEXT: Ask " ++ quoted "How much time do you have until the exam?".

Definition NEXT_CREATE_STUDY_PLAN : string :=
  "NEXT: Create a study plan based on their exam and time available!".

Definition NEXT_ASK_QUIZ_TOPIC : string :=
  "NEXT: Ask " ++ quoted "What topic should the quiz cover?".

Definition NEXT_ASK_QUIZ_NUM_QUESTIONS : string :=
  "NEXT: Ask " ++ quoted "How many questions would you like? (5, 10, 15, or 20)".

Definition NEXT_ASK_QUIZ_TYPE : string :=
  "NEXT: Ask "
  ++ quoted "What type of questions? Multiple choice, free response, or mixed?".

Definition NEXT_ASK_QUIZ_HINTS : string :=
  "NEXT: Ask " ++ quoted "Should hints be allowed during the quiz? (Yes/No)".

Definition NEXT_START_QUIZ : string :=
  "NEXT: Start the quiz with the first question!".

Definition RESET_CANCELLED_MESSAGE : string :=
  "Reset cancelled - user confirmation required. Please confirm you want to reset your progress.".

Definition QUIZ_RECORDED_TEMPLATE (score : Z) (subject : string)
  (topic : option string) (missedConcepts : list string) : string :=
  "Quiz recorded: " ++ show_Z score ++ "% on " ++ subject
  ++ match truthy_string topic with
     | Some t => " > " ++ t
     | None => EmptyString
     end
  ++ ". "
  ++ match missedConcepts with
     | _ :: _ => "Areas to review: " ++ Js.join ", " missedConcepts
     | [] => "Perfect score!"
     end.

(** *** The inputs, as the schemas of the tools accept them *)

Record SessionPreferencesInput := {
  si_goal : option string;
  si_learnTopic : option string;
  si_learnConcept : option string;
  si_examName : option string;
  si_examDepth : option string;
  si_examTimeLeft : option string;
  si_quizTopic : option string;
  si_quizNumQuestions : option Z;
  si_quizType : option string;
  si_quizHintsAllowed : option bool;
  si_onboardingComplete : option bool
}.

Record KnowledgeInput := {
  ki_subject : string;
  ki_topic : string;
  ki_masteryLevel : option Z;
  ki_confidence : option Z;
  ki_incrementStudyCount : option bool;
  ki_weakAreas : option (list string);
  ki_notes : option string
}.

(** A property of a parsed input: present with its value, or left
    out. *)
Definition of_option {A} (x : option A) : js_opt A :=
  match x with Some a => Val a | None => Undefined end.

(** Truthiness of an optional number: [undefined], [null] and [0] are
    falsy. *)
Definition truthy_number (x : option Z) : bool :=
  match x with Some n => negb (n =? 0) | None => false end.

Definition is_truthy_string (x : option string) : bool :=
  match truthy_string x with Some _ => true | None => false end.

(** [x === "literal"] on an optional string. *)
Definition is_string (x : option string) (literal : string) : bool :=
  match x with Some s => String.eqb s literal | None => false end.

Module Tools.

Local Abbreviation agent_updateUserProfile := updateUserProfile.
Local Abbreviation agent_updateSessionPreferences := updateSessionPreferences.
Local Abbreviation agent_updateKnowledge := updateKnowledge.
Local Abbreviation agent_getWeakAreas := getWeakAreas.
Local Abbreviation agent_getQuizHistory := getQuizHistory.
Local Abbreviation agent_resetProgress := resetProgress.

(** *** updateUserProfile *)

(** The question that follows a profile update. *)
Definition profile_next_action (name : option string)
  (profile : option UserProfile) : string :=
  if negb (is_truthy_string (match profile with
                             | Some p => up_major p
                             | None => None
                             end))
  then NEXT_ASK_MAJOR (match name with Some n => n | None => "there" end)
  else if negb (is_truthy_string (match profile with
                                  | Some p => up_year p
                                  | None => None
                                  end))
  then NEXT_ASK_YEAR
  else match profile with
       | Some {| up_preferred_learning_methods := Some _ |} => NEXT_ASK_GOAL
       | _ => NEXT_ASK_LEARNING_METHODS
       end.

(** [Object.entries(data).filter(([, v]) => v !== undefined).map(...)]:
    the fields that were given, in the order of the schema. *)
Definition saved_fields (data : UserProfileData) : list string :=
  let field (k : string) (x : option string) : list string :=
    match x with Some v => [(k ++ "=" ++ v)%string] | None => [] end in
  field "name" (pd_name data)
  ++ field "major" (pd_major data)
  ++ field "year" (pd_year data)
  ++ match pd_preferredLearningMethods data with
     | Some l => [("preferredLearningMethods=[" ++ Js.join ", " l ++ "]")%string]
     | None => []
     end.

Definition updateUserProfile (data : UserProfileData) : M string :=
  agent_updateUserProfile data ;;;
  profile <- getUserProfile ;;
  let nextAction := profile_next_action (pd_name data) profile in
  let saved := Js.join ", " (saved_fields data) in
  ret ("Saved: " ++ saved ++ ". " ++ nextAction)%string.

(** *** updateSessionPreferences *)

Definition preferences_of_input (data : SessionPreferencesInput)
  : SessionPreferencesData :=
  {| goal := of_option (si_goal data);
     learnTopic := of_option (si_learnTopic data);
     learnConcept := of_option (si_learnConcept data);
     examName := of_option (si_examName data);
     examDepth := of_option (si_examDepth data);
     examTimeLeft := of_option (si_examTimeLeft data);
     quizTopic := of_option (si_quizTopic data);
     quizNumQuestions := of_option (si_quizNumQuestions data);
     quizType := of_option (si_quizType data);
     quizHintsAllowed := of_option (si_quizHintsAllowed data);
     onboardingComplete := of_option (si_onboardingComplete data) |}.

(** [session?.column] *)
Definition column {A} (session : option SessionPreferences)
  (col : SessionPreferences -> option A) : option A :=
  match session with Some s => col s | None => None end.

(** The question that follows a change of the session preferences. *)
Definition session_next_action (data : SessionPreferencesInput)
  (session : option SessionPreferences) : string :=
  let missing (col : SessionPreferences -> option string)
              (given : option string) : bool :=
    negb (is_truthy_string (column session col))
    && negb (is_truthy_string given) in
  if is_string (si_goal data) "learn" || is_string (column session sp_goal) "learn"
  then
    if missing sp_learn_topic (si_learnTopic data) then NEXT_ASK_LEARN_TOPIC
    else if missing sp_learn_concept (si_learnConcept data)
    then NEXT_ASK_LEARN_CONCEPT
    else NEXT_START_TEACHING
  else if is_string (si_goal data) "exam" || is_string (column session sp_goal) "exam"
  then
    if missing sp_exam_name (si_examName data) then NEXT_ASK_EXAM_NAME
    else if missing sp_exam_depth (si_examDepth data) then NEXT_ASK_EXAM_DEPTH
    else if missing sp_exam_time_left (si_examTimeLeft data)
    then NEXT_ASK_EXAM_TIME
    else NEXT_CREATE_STUDY_PLAN
  else if is_string (si_goal data) "quiz" || is_string (column session sp_goal) "quiz"
  then
    if missing sp_quiz_topic (si_quizTopic data) then NEXT_ASK_QUIZ_TOPIC
    else if negb (truthy_number (column session sp_quiz_num_questions))
            && negb (truthy_number (si_quizNumQuestions data))
    then NEXT_ASK_QUIZ_NUM_QUESTIONS
    else if missing sp_quiz_type (si_quizType data) then NEXT_ASK_QUIZ_TYPE
    else if match session with
            | Some s => match sp_quiz_hints_allowed s with
                        | None => true
                        | Some _ => false
                        end
            | None => false
            end
            && match si_quizHintsAllowed data with
               | None => true
               | Some _ => false
               end
    then NEXT_ASK_QUIZ_HINTS
    else NEXT_START_QUIZ
  else if negb (is_truthy_string (column session sp_goal))
          && negb (is_truthy_string (si_goal data))
  then NEXT_ASK_GOAL
  else EmptyString.

Definition updateSessionPreferences (data : SessionPreferencesInput)
  : M string :=
  agent_updateSessionPreferences (preferences_of_input data) ;;;
  session <- getSessionPreferences ;;
  ret ("Session saved. " ++ session_next_action data session)%string.

(** *** updateKnowledge *)

Definition updateKnowledge (data : KnowledgeInput) : M string :=
  agent_updateKnowledge
    {| kd_subject := ki_subject data;
       kd_topic := ki_topic data;
       kd_masteryLevel := ki_masteryLevel data;
       kd_confidence := ki_confidence data;
       kd_timesStudied :=
         if truthy (ki_incrementStudyCount data) then Some 1 else None;
       kd_timesQuizzed := None;
       kd_lastStudied := ki_incrementStudyCount data;
       kd_lastQuizzed := None;
       kd_weakAreas := ki_weakAreas data;
       kd_notes := ki_notes data |} ;;;
  ret ("Knowledge updated: " ++ ki_subject data ++ " > " ++ ki_topic data
       ++ match ki_masteryLevel data with
          | Some m => " (" ++ show_Z m ++ "% mastery)"
          | None => EmptyString
          end)%string.

(** *** getWeakAreas *)

Definition getWeakAreas (limit : option Z) : M (string + list Knowledge) :=
  let limit := match limit with Some n => n | None => 10 end in
  weakAreas <- agent_getWeakAreas (Some limit) ;;
  ret match weakAreas with
      | [] => inl "No weak areas found - great job!"
      | _ :: _ => inr weakAreas
      end.

(** *** recordQuizResult *)

Definition recordQuizResult (result : QuizResult) : M string :=
  recordQuiz result ;;;
  ret (QUIZ_RECORDED_TEMPLATE (qr_score result) (qr_subject result)
         (qr_topic result) (qr_missedConcepts result)).

(** *** getQuizHistory *)

Definition getQuizHistory (subject : option string) (limit : option Z)
  : M (string + list QuizHistory) :=
  let limit := match limit with Some n => n | None => 20 end in
  history <- agent_getQuizHistory subject (Some limit) ;;
  ret match history with
      | [] => inl "No quiz history yet."
      | _ :: _ => inr history
      end.

(** *** startStudySession, endStudySession *)

Definition startStudySession (sessionType : string)
  (subject topic : option string) : M (Z * string) :=
  sessionId <- startSession sessionType subject topic ;;
  ret (sessionId,
       ("Study session started (ID: " ++ show_Z sessionId ++ ")")%string).

Definition endStudySession (minutes_between : timestamp -> timestamp -> Z)
  (sessionId : Z) (summary : string) : M string :=
  endSession minutes_between sessionId summary ;;;
  ret ("Study session " ++ show_Z sessionId ++ " ended and saved.")%string.

(** *** resetProgress *)

Definition resetProgress (resetType : string) (userConfirmed : bool)
  : M string :=
  if negb userConfirmed then ret RESET_CANCELLED_MESSAGE
  else
    agent_resetProgress resetType ;;;
    ret ("Progress reset: " ++ resetType ++ ". "
         ++ (if String.eqb resetType "all" then "All data has been cleared."
             else resetType ++ " data has been cleared."))%string.

End Tools.

(** *** Rows after an update *)

(** [x ?? old]: the value given, or else the one there was. *)
Definition given_or {A} (x old : option A) : option A :=
  match x with Some v => Some v | None => old end.

(** The profile row an update leaves, from the row there was. *)
Definition profile_after (data : UserProfileData) (t : timestamp)
  (old : option UserProfile) : UserProfile :=
  match old with
  | None =>
      {| up_name := pd_name data; up_major := pd_major data;
         up_year := pd_year data;
         up_preferred_learning_methods := pd_preferredLearningMethods data;
         up_created_at := t; up_last_active := t |}
  | Some p =>
      {| up_name := given_or (pd_name data) (up_name p);
         up_major := given_or (pd_major data) (up_major p);
         up_year := given_or (pd_year data) (up_year p);
         up_preferred_learning_methods :=
           given_or (pd_preferredLearningMethods data)
                    (up_preferred_learning_methods p);
         up_created_at := up_created_at p; up_last_active := t |}
  end.

(** A column after a guarded [UPDATE]: untouched when the property was
    left out, [NULL] for [null], the value otherwise. *)
Definition column_after {A} (x : js_opt A) (old : option A) : option A :=
  match x with
  | Undefined => old
  | Null => None
  | Val v => Some v
  end.

(** The preferences row an update leaves, from the row there was. *)
Definition preferences_after (data : SessionPreferencesData) (t : timestamp)
  (old : option SessionPreferences) : SessionPreferences :=
  match old with
  | None =>
      {| sp_goal := or_null (goal data);
         sp_learn_topic := or_null (learnTopic data);
         sp_learn_concept := or_null (learnConcept data);
         sp_exam_name := or_null (examName data);
         sp_exam_depth := or_null (examDepth data);
         sp_exam_time_left := or_null (examTimeLeft data);
         sp_quiz_topic := or_null (quizTopic data);
         sp_quiz_num_questions := or_null (quizNumQuestions data);
         sp_quiz_type := or_null (quizType data);
         sp_quiz_hints_allowed := or_null (quizHintsAllowed data);
         sp_onboarding_complete :=
           match onboardingComplete data with
           | Val b => Some b
           | _ => Some false
           end;
         sp_created_at := t |}
  | Some p =>
      {| sp_goal := column_after (goal data) (sp_goal p);
         sp_learn_topic := column_after (learnTopic data) (sp_learn_topic p);
         sp_learn_concept :=
           column_after (learnConcept data) (sp_learn_concept p);
         sp_exam_name := column_after (examName data) (sp_exam_name p);
         sp_exam_depth := column_after (examDepth data) (sp_exam_depth p);
         sp_exam_time_left :=
           column_after (examTimeLeft data) (sp_exam_time_left p);
         sp_quiz_topic := column_after (quizTopic data) (sp_quiz_topic p);
         sp_quiz_num_questions :=
           column_after (quizNumQuestions data) (sp_quiz_num_questions p);
         sp_quiz_type := column_after (quizType data) (sp_quiz_type p);
         sp_quiz_hints_allowed :=
           column_after (quizHintsAllowed data) (sp_quiz_hints_allowed p);
         sp_onboarding_complete :=
           column_after (onboardingComplete data) (sp_onboarding_complete p);
         sp_created_at := sp_created_at p |}
  end.

(** The [CHECK] constraints of the preferences row hold. *)
Definition preferences_checked (d : Database) : Prop :=
  match session_preferences d with
  | Some p => Sql.check_preferences p = true
  | None => True
  end.

(** A setter of the preferences row that never breaks a [CHECK]. *)
Definition keeps_checks (set : SessionPreferences -> SessionPreferences) : Prop :=
  forall p, Sql.check_preferences p = true -> Sql.check_preferences (set p) = true.

(** One guarded [UPDATE] of the preferences row. *)
Definition apply_defined {A} (x : js_opt A)
  (set : option A -> SessionPreferences -> SessionPreferences)
  (p : SessionPreferences) : SessionPreferences :=
  if is_defined x then set (or_null x) p else p.

(** The eleven guarded [UPDATE]s, in the order in which they run. *)
Definition preferences_setter (data : SessionPreferencesData)
  (p : SessionPreferences) : SessionPreferences :=
  apply_defined (onboardingComplete data) set_onboarding_complete
  (apply_defined (quizHintsAllowed data) set_quiz_hints_allowed
  (apply_defined (quizType data) set_quiz_type
  (apply_defined (quizNumQuestions data) set_quiz_num_questions
  (apply_defined (quizTopic data) set_quiz_topic
  (apply_defined (examTimeLeft data) set_exam_time_left
  (apply_defined (examDepth data) set_exam_depth
  (apply_defined (examName data) set_exam_name
  (apply_defined (learnConcept data) set_learn_concept
  (apply_defined (learnTopic data) set_learn_topic
  (apply_defined (goal data) set_goal p)))))))))).

(** The table after [updateSessionPreferences]. *)
Definition preferences_stored (data : SessionPreferencesData) (c : Chat)
  : Database :=
  let row := preferences_after data (clock c) (session_preferences (db c)) in
  {| user_profile := user_profile (db c);
     session_preferences := Some row;
     knowledge := knowledge (db c);
     quiz_history := quiz_history (db c);
     study_sessions := study_sessions (db c);
     seq_knowledge := seq_knowledge (db c);
     seq_quiz_history := seq_quiz_history (db c);
     seq_study_sessions := seq_study_sessions (db c);
     last_insert_rowid :=
       match session_preferences (db c) with
       | Some _ => last_insert_rowid (db c)
       | None => 1
       end |}.

(** *** Keys and ids *)

(** The key of a knowledge row, [UNIQUE(subject, topic)]. *)
Definition key_of (k : Knowledge) : string * string :=
  (k_subject k, k_topic k).

Definition keys_unique (d : Database) : Prop :=
  NoDup (map key_of (knowledge d)).

(** *** The constraints of the tables *)

(** The [CHECK]s of the quiz ledger and of the session log. *)
Definition ledger_checked (d : Database) : Prop :=
  Forall (fun q => Sql.check_in QuizType_values (q_quiz_type q)
                   && Sql.check_percent (q_score q) = true)
         (quiz_history d).

Definition sessions_checked (d : Database) : Prop :=
  Forall (fun s => Js.includes SessionType_values (ss_session_type s) = true)
         (study_sessions d).

(** The ids of a table are distinct and none is above the counter of
    the table: [AUTOINCREMENT] has never handed out a larger one. *)
Definition ids_fresh {A} (id : A -> Z) (rows : list A) (counter : Z) : Prop :=
  NoDup (map id rows) /\ Forall (fun r => id r <= counter) rows.

(** Every constraint [initTables] declares holds. *)
Record well_formed (d : Database) : Prop := {
  wf_knowledge : knowledge_checked d;
  wf_keys : keys_unique d;
  wf_preferences : preferences_checked d;
  wf_ledger : ledger_checked d;
  wf_sessions : sessions_checked d;
  wf_knowledge_ids : ids_fresh k_id (knowledge d) (seq_knowledge d);
  wf_ledger_ids : ids_fresh q_id (quiz_history d) (seq_quiz_history d);
  wf_session_ids : ids_fresh ss_id (study_sessions d) (seq_study_sessions d)
}.

(** *** Sequences of calls *)

(** The write operations of the class. *)
Inductive operation : Type :=
| OpUpdateUserProfile (data : UserProfileData)
| OpUpdateSessionPreferences (data : SessionPreferencesData)
| OpUpdateKnowledge (data : KnowledgeData)
| OpRecordQuiz (data : QuizResult)
| OpStartSession (sessionType : string) (subject topic : option string)
| OpEndSession (sessionId : Z) (summary : string)
| OpResetProgress (resetType : string).

Section Operations.

Variable minutes_between : timestamp -> timestamp -> Z.

Definition perform (op : operation) : M unit :=
  match op with
  | OpUpdateUserProfile data => updateUserProfile data
  | OpUpdateSessionPreferences data => updateSessionPreferences data
  | OpUpdateKnowledge data => updateKnowledge data
  | OpRecordQuiz data => recordQuiz data ;;; ret tt
  | OpStartSession sessionType subject topic =>
      startSession sessionType subject topic ;;; ret tt
  | OpEndSession sessionId summary => endSession minutes_between sessionId summary
  | OpResetProgress resetType => resetProgress resetType
  end.

(** The agent after a sequence of calls, each made on the state the one
    before left, whether it returned or threw. *)
Definition after_calls (ops : list operation) (c : Chat) : Chat :=
  fold_left (fun c op => final (perform op c)) ops c.

End Operations.

(** An operation under which a property of the tables is kept, whether
    it returns or throws. *)
Definition keeps {A} (I : Database -> Prop) (m : M A) : Prop :=
  forall c, I (db c) -> I (db (final (m c))).

(** A setter of one column of a knowledge row. *)
Definition column_setter (set : Knowledge -> Knowledge) : Prop :=
  forall k, k_id (set k) = k_id k /\ key_of (set k) = key_of k.

(** The agent when its clock shows [t]. *)
Definition at_time (c : Chat) (t : timestamp) : Chat :=
  {| planSteps := planSteps c; stepResults := stepResults c;
     originalPrompt := originalPrompt c;
     isProcessingPlan := isProcessingPlan c;
     db := db c; messages := messages c; schedules := schedules c;
     clock := t |}.

(** The rows of one session type among the ended sessions. *)
Definition ended_of_type (d : Database) (ty : string) : list StudySession :=
  filter (fun s => String.eqb (ss_session_type s) ty)
         (filter Queries.is_ended (study_sessions d)).

(** A session as [endSession] leaves it. *)
Definition ended_session (s : StudySession) (summary : string)
  (minutes : Z) (t : timestamp) : StudySession :=
  {| ss_id := ss_id s; ss_session_type := ss_session_type s;
     ss_subject := ss_subject s; ss_topic := ss_topic s;
     ss_duration_minutes := Some minutes; ss_summary := Some summary;
     ss_started_at := ss_started_at s; ss_ended_at := Some t |}.

(** The row of a session that has just been started. *)
Definition started_session (id : Z) (ty : string)
  (subject topic : option string) (t : timestamp) : StudySession :=
  {| ss_id := id; ss_session_type := ty;
     ss_subject := subject; ss_topic := topic;
     ss_duration_minutes := None; ss_summary := None;
     ss_started_at := t; ss_ended_at := None |}.

(** *** What the tools ask next *)

(** The question that fits a preferences row. *)
Definition session_action (p : SessionPreferences) : string :=
  let missing (x : option string) : bool := negb (is_truthy_string x) in
  if is_string (sp_goal p) "learn" then
    if missing (sp_learn_topic p) then NEXT_ASK_LEARN_TOPIC
    else if missing (sp_learn_concept p) then NEXT_ASK_LEARN_CONCEPT
    else NEXT_START_TEACHING
  else if is_string (sp_goal p) "exam" then
    if missing (sp_exam_name p) then NEXT_ASK_EXAM_NAME
    else if missing (sp_exam_depth p) then NEXT_ASK_EXAM_DEPTH
    else if missing (sp_exam_time_left p) then NEXT_ASK_EXAM_TIME
    else NEXT_CREATE_STUDY_PLAN
  else if is_string (sp_goal p) "quiz" then
    if missing (sp_quiz_topic p) then NEXT_ASK_QUIZ_TOPIC
    else if negb (truthy_number (sp_quiz_num_questions p))
    then NEXT_ASK_QUIZ_NUM_QUESTIONS
    else if missing (sp_quiz_type p) then NEXT_ASK_QUIZ_TYPE
    else match sp_quiz_hints_allowed p with
         | None => NEXT_ASK_QUIZ_HINTS
         | Some _ => NEXT_START_QUIZ
         end
  else if missing (sp_goal p) then NEXT_ASK_GOAL
  else EmptyString.

(** *** What an operation leaves alone *)

(** The knowledge rows of the other topics. *)
Definition other_topics (subject topic : string) (d : Database)
  : list Knowledge :=
  filter (fun k => negb (Sql.same_key subject topic k)) (knowledge d).

(** The tables of [d] other than the knowledge table are those of
    [d0]. *)
Definition same_other_tables (d0 d : Database) : Prop :=
  user_profile d = user_profile d0
  /\ session_preferences d = session_preferences d0
  /\ quiz_history d = quiz_history d0
  /\ study_sessions d = study_sessions d0.

(** An operation that changes nothing of the agent but its tables. *)
Definition store_only {A} (m : M A) : Prop :=
  forall c, final (m c) = with_db c (db (final (m c))).

(* ================================================================== *)
(** ** Routing of a chat message *)
(* ================================================================== *)

(** [s.toUpperCase()], on the ASCII range. *)
Definition upper (c : ascii) : ascii :=
  let n := nat_of_ascii c in
  if ((97 <=? n) && (n <=? 122))%nat then ascii_of_nat (n - 32) else c.

Fixpoint toUpperCase (s : string) : string :=
  match s with
  | EmptyString => EmptyString
  | String c s' => String (upper c) (toUpperCase s')
  end.

(** [s.split(/\s+/)[0]]: what stands before the first blank. *)
Fixpoint first_word (s : string) : string :=
  match s with
  | EmptyString => EmptyString
  | String c s' => if Js.is_space c then EmptyString else String c (first_word s')
  end.

(** [prompts.ts] *)
Definition CLASSIFIER_CONTEXT_TEMPLATE (lastAssistantMessage : string) : string :=
  "Last thing the assistant said: " ++ quoted (Js.take 200 lastAssistantMessage)
  ++ Js.LF
  ++ "If the user's message is a short answer to that (e.g. profile info like name, major, year), reply CONVERSATIONAL."
  ++ Js.LF ++ Js.LF.

Inductive intent := CONVERSATIONAL | LEARNING.

(** Where [onChatMessage] sends a message before any plan is made: it
    ignores it (the empty stream), answers it in the streaming flow, or
    goes on to plan the answer to the prompt. *)
Inductive route :=
| Ignored
| Streamed
| Planned (prompt : string).

Section Routing.

(** The classifier's call of the model, by the context line and the user
    message of its request; a rejected call is [None]. *)
Variable AI_classify : string -> string -> option jsval.

(** The word the classifier reads off the model's answer; [None] when
    the answer has no text to trim (the [TypeError] the [try] absorbs). *)
Definition classifier_word (result : jsval) : option string :=
  match raw_response result with
  | JStr raw => Some (first_word (toUpperCase (Js.trim raw)))
  | _ => None
  end.

Definition classifyIntent (prompt : string)
  (lastAssistantMessage : option string) : intent :=
  let trimmed := Js.trim prompt in
  if (String.length trimmed =? 0)%nat then CONVERSATIONAL
  else
    let contextLine :=
      match truthy_string lastAssistantMessage with
      | Some last => CLASSIFIER_CONTEXT_TEMPLATE last
      | None => EmptyString
      end in
    match AI_classify contextLine (Js.take 300 trimmed) with
    | Some result =>
        match classifier_word result with
        | Some word =>
            if String.eqb word "LEARNING" then LEARNING else CONVERSATIONAL
        | None => CONVERSATIONAL
        end
    | None => CONVERSATIONAL
    end.

(** The text of the first text part of a message that has one. *)
Definition text_of (m : UIMessage) : option string := truthy_string (Some (text m)).

(** The part of [onChatMessage] that comes before [generatePlan]. *)
Definition onChatMessage_route (messages : list UIMessage) : route :=
  match rev messages with
  | [] => Ignored
  | userMessage :: earlier =>
      match role userMessage with
      | assistant => Ignored
      | user =>
          match text_of userMessage with
          | None => Streamed
          | Some prompt =>
              let lastAssistantText :=
                match earlier with
                | prev :: _ =>
                    match role prev with
                    | assistant => text_of prev
                    | user => None
                    end
                | [] => None
                end in
              match classifyIntent prompt lastAssistantText with
              | CONVERSATIONAL => Streamed
              | LEARNING => Planned prompt
              end
          end
      end
  end.

End Routing.

(* ================================================================== *)
(** * Properties *)
(* ================================================================== *)

(** ** Running operations *)

Lemma outcome_eta {A} (r : outcome A) :
  Outcome (final r) (trace r) (result r) = r.
Proof. destruct r; reflexivity. Qed.

Lemma bind_ok {A B} (m : M A) (k : A -> M B) c c1 a :
  m c = Outcome c1 [] (inr a) -> bind m k c = k a c1.
Proof. intros H. unfold bind. rewrite H. simpl. apply outcome_eta. Qed.

Lemma bind_run {A B} (m : M A) (k : A -> M B) c c1 t a :
  m c = Outcome c1 t (inr a) ->
  bind m k c = Outcome (final (k a c1)) (t ++ trace (k a c1)) (result (k a c1)).
Proof. intros H. unfold bind. rewrite H. reflexivity. Qed.

Lemma bind_throw {A B} (m : M A) (k : A -> M B) c c1 t e :
  m c = Outcome c1 t (inl e) -> bind m k c = Outcome c1 t (inl e).
Proof. intros H. unfold bind. rewrite H. reflexivity. Qed.

(** ** Lists, [ORDER BY] and [LIMIT] *)

Lemma In_firstn {A} (n : nat) (l : list A) (x : A) :
  In x (firstn n l) -> In x l.
Proof.
  intros H. rewrite <- (firstn_skipn n l). apply in_or_app. now left.
Qed.

Lemma filter_true {A} (l : list A) : filter (fun _ => true) l = l.
Proof. induction l; simpl; congruence. Qed.

Lemma filter_andb {A} (f g : A -> bool) (l : list A) :
  filter (fun x => f x && g x) l = filter g (filter f l).
Proof.
  induction l as [|x l IH]; simpl; [reflexivity|].
  destruct (f x); simpl; [destruct (g x)|]; now rewrite IH.
Qed.

Lemma hd_error_nil {A} (l : list A) : hd_error l = None -> l = [].
Proof. destruct l; [reflexivity|discriminate]. Qed.

Lemma hd_error_In {A} (l : list A) (x : A) : hd_error l = Some x -> In x l.
Proof. destruct l; simpl; [discriminate|]. intros [= ->]. now left. Qed.

Lemma existsb_filter_nil {A} (f : A -> bool) (l : list A) :
  filter f l = [] -> existsb f l = false.
Proof.
  induction l as [|x l IH]; simpl; [reflexivity|].
  destruct (f x); [discriminate|]. assumption.
Qed.

Lemma StronglySorted_impl {A} (R S : A -> A -> Prop) (l : list A) :
  (forall a b, R a b -> S a b) -> StronglySorted R l -> StronglySorted S l.
Proof.
  intros H. induction 1; constructor; [assumption|].
  eapply Forall_impl; [|eassumption]. auto.
Qed.

Lemma limit_nonneg {A} (n : Z) (l : list A) :
  0 <= n -> Sql.limit n l = firstn (Z.to_nat n) l.
Proof.
  intros H. unfold Sql.limit. destruct (n <? 0) eqn:E; [|reflexivity].
  apply Z.ltb_lt in E. lia.
Qed.

(** A negative [LIMIT] returns every row. *)
Lemma limit_negative {A} (n : Z) (l : list A) : n < 0 -> Sql.limit n l = l.
Proof.
  intros H. unfold Sql.limit. destruct (Z.ltb_spec n 0); [reflexivity|lia].
Qed.

Section OrderBy.

Context {A : Type} (le : A -> A -> bool).

Lemma insert_sorted_perm (x : A) (l : list A) :
  Permutation (Sql.insert_sorted le x l) (x :: l).
Proof.
  induction l as [|y l IH]; simpl; [reflexivity|].
  destruct (le x y); [reflexivity|].
  rewrite IH. apply perm_swap.
Qed.

Lemma order_by_perm (l : list A) : Permutation (Sql.order_by le l) l.
Proof.
  induction l as [|x l IH]; simpl; [reflexivity|].
  rewrite insert_sorted_perm. now constructor.
Qed.

(** A row that may come before none of the others goes last. *)
Lemma insert_sorted_last (x : A) (l : list A) :
  (forall y, In y l -> le x y = false) -> Sql.insert_sorted le x l = l ++ [x].
Proof.
  induction l as [|y l IH]; simpl; intros H; [reflexivity|].
  rewrite (H y) by now left. f_equal. apply IH. intros z Hz. apply H. now right.
Qed.

(** Rows with equal keys keep the order in which they came. *)
Lemma order_by_ties (l : list A) :
  (forall a b, le a b = true) -> Sql.order_by le l = l.
Proof.
  intros H. unfold Sql.order_by.
  induction l as [|x l IH]; simpl; [reflexivity|].
  rewrite IH. destruct l as [|y l]; simpl; [reflexivity|]. now rewrite H.
Qed.

Section Sortedness.

Hypothesis le_total : forall a b, le a b = true \/ le b a = true.
Hypothesis le_trans :
  forall a b c, le a b = true -> le b c = true -> le a c = true.

Let before (a b : A) : Prop := le a b = true.

Lemma insert_sorted_hd (a x : A) (l : list A) :
  before a x -> HdRel before a l -> HdRel before a (Sql.insert_sorted le x l).
Proof.
  intros Hax Hl. destruct l as [|y l]; simpl; [now constructor|].
  destruct (le x y); constructor; [assumption|].
  now inversion Hl.
Qed.

Lemma insert_sorted_sorted (x : A) (l : list A) :
  Sorted before l -> Sorted before (Sql.insert_sorted le x l).
Proof.
  induction 1 as [|y l Hs IH Hd]; simpl; [repeat constructor|].
  destruct (le x y) eqn:E.
  - constructor; [now constructor|]. now constructor.
  - constructor; [assumption|].
    apply insert_sorted_hd; [|assumption].
    destruct (le_total x y) as [H|H]; [congruence|exact H].
Qed.

Lemma order_by_sorted (l : list A) : StronglySorted before (Sql.order_by le l).
Proof.
  apply Sorted_StronglySorted.
  - intros a b c. apply le_trans.
  - induction l as [|x l IH]; simpl; [constructor|].
    now apply insert_sorted_sorted.
Qed.

End Sortedness.

End OrderBy.

Lemma insert_sorted_map {A B} (f : A -> B) (le : B -> B -> bool) x l :
  Sql.insert_sorted le (f x) (map f l)
  = map f (Sql.insert_sorted (fun a b => le (f a) (f b)) x l).
Proof.
  induction l as [|y l IH]; simpl; [reflexivity|].
  destruct (le (f x) (f y)); simpl; [reflexivity|]. now rewrite IH.
Qed.

Lemma order_by_map {A B} (f : A -> B) (le : B -> B -> bool) l :
  Sql.order_by le (map f l)
  = map f (Sql.order_by (fun a b => le (f a) (f b)) l).
Proof.
  induction l as [|x l IH]; simpl; [reflexivity|].
  unfold Sql.order_by in *. simpl. rewrite IH. apply insert_sorted_map.
Qed.

(** On a ledger whose dates grow with the rows, [ORDER BY quiz_date
    DESC] is the ledger read backwards. *)
Lemma newest_first_of_chronological (rows : list QuizHistory) :
  StronglySorted (fun a b => q_quiz_date a < q_quiz_date b) rows ->
  Sql.order_by Sql.newest_first rows = rev rows.
Proof.
  unfold Sql.order_by.
  induction 1 as [|x rows Hs IH Hx]; simpl; [reflexivity|].
  rewrite IH. apply insert_sorted_last. intros y Hy. apply in_rev in Hy.
  rewrite Forall_forall in Hx. specialize (Hx y Hy).
  unfold Sql.newest_first. apply Z.leb_gt. assumption.
Qed.

(** [ORDER BY quiz_date DESC] always yields the same rows, latest date
    first. *)
Lemma newest_first_sorted (rows : list QuizHistory) :
  Permutation (Sql.order_by Sql.newest_first rows) rows
  /\ StronglySorted (fun a b => q_quiz_date b <= q_quiz_date a)
       (Sql.order_by Sql.newest_first rows).
Proof.
  split; [apply order_by_perm|].
  apply StronglySorted_impl with (R := fun a b => Sql.newest_first a b = true).
  - intros a b. unfold Sql.newest_first. apply Z.leb_le.
  - apply order_by_sorted; unfold Sql.newest_first.
    + intros a b. rewrite !Z.leb_le. lia.
    + intros a b c. rewrite !Z.leb_le. lia.
Qed.

(* ================================================================== *)
(** ** Validation of enumerated fields *)
(* ================================================================== *)

Lemma validate_enum_cases field valid x c :
  (outside valid x = false
   /\ validate_enum field valid x c = Outcome c [] (inr tt))
  \/ (outside valid x = true
      /\ exists v, validate_enum field valid x c
                   = Outcome c [] (inl (ValidationError field v))).
Proof.
  destruct x as [| |v]; simpl; try (left; split; reflexivity).
  destruct (Js.includes valid v); simpl; [left; split; reflexivity|].
  right. split; [reflexivity|]. exists v. reflexivity.
Qed.

Lemma rejected_intro {A} (c : Chat) field v :
  rejected_untouched (@Outcome A c [] (inl (ValidationError field v))) c.
Proof. split; [reflexivity|]. do 2 eexists; reflexivity. Qed.

(** C6.  A write operation that carries a value outside the enumeration
    of one of its enumerated fields (goal, examDepth or quizType of
    [updateSessionPreferences], quizType of [recordQuiz], sessionType of
    [startSession], resetType of [resetProgress]) ends in a validation
    error and leaves the whole state of the agent, every table included,
    as it was: the check runs before the first statement. *)
Theorem invalid_enum_is_rejected_before_any_write (op : write_op) (c : Chat) :
  invalid_enum op = true ->
  rejected_untouched (run_write op c) c.
Proof.
  destruct op as [data|data|ty s t|ty]; cbn [run_write invalid_enum]; intros H.
  - unfold updateSessionPreferences.
    destruct (validate_enum_cases "goal" Goal_values (goal data) c)
      as [[Hg Eg]|[Hg [v Eg]]];
      [rewrite (bind_ok _ _ _ _ _ Eg)
      |rewrite (bind_throw _ _ _ _ _ _ Eg); apply rejected_intro].
    destruct (validate_enum_cases "examDepth" ExamDepth_values (examDepth data) c)
      as [[Hd Ed]|[Hd [v Ed]]];
      [rewrite (bind_ok _ _ _ _ _ Ed)
      |rewrite (bind_throw _ _ _ _ _ _ Ed); apply rejected_intro].
    destruct (validate_enum_cases "quizType" QuizType_values (quizType data) c)
      as [[Hq Eq]|[Hq [v Eq]]];
      [|rewrite (bind_throw _ _ _ _ _ _ Eq); apply rejected_intro].
    rewrite Hg, Hd, Hq in H. discriminate.
  - unfold recordQuiz. apply negb_true_iff in H. rewrite H.
    apply rejected_intro.
  - unfold startSession. apply negb_true_iff in H. rewrite H.
    apply rejected_intro.
  - unfold resetProgress. apply negb_true_iff in H. rewrite H.
    apply rejected_intro.
Qed.

(** A reset with an unknown scope, on a new object. *)
Lemma unknown_reset_scope_is_rejected :
  invalid_enum (ResetProgress "everything") = true
  /\ rejected_untouched (run_write (ResetProgress "everything") Example.idle)
       Example.idle.
Proof.
  split; [reflexivity|].
  apply (invalid_enum_is_rejected_before_any_write
           (ResetProgress "everything") Example.idle).
  reflexivity.
Defined.

(* ================================================================== *)
(** ** Reset scopes *)
(* ================================================================== *)

Lemma getQuizStats_empty_ledger (c : Chat) (subject : option string) :
  quiz_history (db c) = [] ->
  getQuizStats subject c = Outcome c [] (inr Spec.zero_stats).
Proof.
  intros H. unfold getQuizStats, query, bind, ret. simpl.
  unfold Sql.select_recent_scores, Sql.select_missed_concepts,
    Sql.select_aggregates.
  rewrite H. reflexivity.
Qed.

(** C8.  [resetProgress] clears the tables of its scope and nothing
    else.  Scope "quizzes" empties the quiz ledger: every other table,
    the id counters and the rest of the agent stay as they were, a
    weak-areas query answers as before, and the statistics are all zero.
    Scope "knowledge" empties only the knowledge table, scope "sessions"
    only the study sessions, and scope "all" empties the three of them
    together with the profile and the session preferences. *)
Theorem resetProgress_clears_only_its_scope (c : Chat) :
  (let r := resetProgress "quizzes" c in
   r = Outcome
         (with_db c
            {| user_profile := user_profile (db c);
               session_preferences := session_preferences (db c);
               knowledge := knowledge (db c);
               quiz_history := [];
               study_sessions := study_sessions (db c);
               seq_knowledge := seq_knowledge (db c);
               seq_quiz_history := seq_quiz_history (db c);
               seq_study_sessions := seq_study_sessions (db c);
               last_insert_rowid := last_insert_rowid (db c) |})
         [] (inr tt)
   /\ (forall limit, result (getWeakAreas limit (final r))
                     = result (getWeakAreas limit c))
   /\ (forall subject, getQuizStats subject (final r)
                       = Outcome (final r) [] (inr Spec.zero_stats)))
  /\ resetProgress "knowledge" c
     = Outcome
         (with_db c
            {| user_profile := user_profile (db c);
               session_preferences := session_preferences (db c);
               knowledge := [];
               quiz_history := quiz_history (db c);
               study_sessions := study_sessions (db c);
               seq_knowledge := seq_knowledge (db c);
               seq_quiz_history := seq_quiz_history (db c);
               seq_study_sessions := seq_study_sessions (db c);
               last_insert_rowid := last_insert_rowid (db c) |})
         [] (inr tt)
  /\ resetProgress "sessions" c
     = Outcome
         (with_db c
            {| user_profile := user_profile (db c);
               session_preferences := session_preferences (db c);
               knowledge := knowledge (db c);
               quiz_history := quiz_history (db c);
               study_sessions := [];
               seq_knowledge := seq_knowledge (db c);
               seq_quiz_history := seq_quiz_history (db c);
               seq_study_sessions := seq_study_sessions (db c);
               last_insert_rowid := last_insert_rowid (db c) |})
         [] (inr tt)
  /\ resetProgress "all" c
     = Outcome
         (with_db c
            {| user_profile := None;
               session_preferences := None;
               knowledge := [];
               quiz_history := [];
               study_sessions := [];
               seq_knowledge := seq_knowledge (db c);
               seq_quiz_history := seq_quiz_history (db c);
               seq_study_sessions := seq_study_sessions (db c);
               last_insert_rowid := last_insert_rowid (db c) |})
         [] (inr tt).
Proof.
  split; [|repeat split; reflexivity].
  split; [reflexivity|]. split.
  - intros limit. reflexivity.
  - intros subject. apply getQuizStats_empty_ledger. reflexivity.
Qed.

(* ================================================================== *)
(** ** Quiz submissions *)
(* ================================================================== *)

Lemma check_percent_iff v : Sql.check_percent v = true <-> 0 <= v <= 100.
Proof. unfold Sql.check_percent. rewrite andb_true_iff, !Z.leb_le. tauto. Qed.

Lemma getTopicMastery_run c subject topic :
  getTopicMastery subject topic c
  = Outcome c [] (inr (hd_error (Sql.select_topic (db c) subject topic))).
Proof. reflexivity. Qed.

(** A valid submission first appends its row to the ledger; the
    knowledge update, if any, runs on the state that results. *)
Lemma recordQuiz_inserts (c : Chat) (data : QuizResult) :
  Js.includes QuizType_values (qr_quizType data) = true ->
  0 <= qr_score data <= 100 ->
  let c1 := with_db c (ledger_appended (db c) (quiz_row (db c) (clock c) data)) in
  recordQuiz data c
  = match truthy_string (qr_topic data) with
    | Some topic =>
        bind (getTopicMastery (qr_subject data) topic)
             (fun existing => bind
                (match existing with
                 | Some e =>
                     updateKnowledge
                       {| kd_subject := qr_subject data; kd_topic := topic;
                          kd_masteryLevel :=
                            Some (clamp_percent
                                    (weighted_mastery (k_mastery_level e)
                                                      (qr_score data)));
                          kd_confidence := None; kd_timesStudied := None;
                          kd_timesQuizzed := Some (k_times_quizzed e + 1);
                          kd_lastStudied := None; kd_lastQuizzed := Some true;
                          kd_weakAreas :=
                            Some (Js.dedup
                                    (match k_weak_areas e with
                                     | Some l => l
                                     | None => []
                                     end ++ qr_missedConcepts data));
                          kd_notes := None |}
                 | None =>
                     updateKnowledge
                       {| kd_subject := qr_subject data; kd_topic := topic;
                          kd_masteryLevel := Some (qr_score data);
                          kd_confidence := None; kd_timesStudied := None;
                          kd_timesQuizzed := Some 1;
                          kd_lastStudied := None; kd_lastQuizzed := Some true;
                          kd_weakAreas := Some (qr_missedConcepts data);
                          kd_notes := None |}
                 end)
                (fun _ => ret (seq_quiz_history (db c) + 1))) c1
    | None => Outcome c1 [] (inr (seq_quiz_history (db c) + 1))
    end.
Proof.
  intros Hq Hs c1. unfold recordQuiz. rewrite Hq.
  rewrite (bind_ok _ _ c c tt) by reflexivity.
  rewrite (bind_ok _ _ c c (clock c)) by reflexivity.
  rewrite (bind_ok _ _ c c1 tt).
  - rewrite (bind_ok _ _ c1 c1 (seq_quiz_history (db c) + 1)) by reflexivity.
    destruct (truthy_string (qr_topic data)); reflexivity.
  - unfold sql, Sql.insert_quiz, Sql.check_in. rewrite Hq.
    rewrite (proj2 (check_percent_iff _) Hs). reflexivity.
Qed.

(** C10.  A valid submission without a topic appends its row, with a
    null topic, to the ledger and returns the id of the row; the
    knowledge table is left exactly as it was, the rows of the submitted
    subject included, and so is every other table. *)
Theorem recordQuiz_without_topic_leaves_knowledge_alone
  (c : Chat) (data : QuizResult) :
  qr_topic data = None ->
  Js.includes QuizType_values (qr_quizType data) = true ->
  0 <= qr_score data <= 100 ->
  let r := recordQuiz data c in
  let row := quiz_row (db c) (clock c) data in
  result r = inr (q_id row)
  /\ q_topic row = None
  /\ quiz_history (db (final r)) = quiz_history (db c) ++ [row]
  /\ knowledge (db (final r)) = knowledge (db c)
  /\ seq_knowledge (db (final r)) = seq_knowledge (db c)
  /\ user_profile (db (final r)) = user_profile (db c)
  /\ session_preferences (db (final r)) = session_preferences (db c)
  /\ study_sessions (db (final r)) = study_sessions (db c).
Proof.
  intros Ht Hq Hs. cbv zeta.
  rewrite (recordQuiz_inserts c data Hq Hs), Ht.
  cbn. rewrite Ht. repeat split.
Qed.

(** A quiz on Math without a topic, for a learner who already has an
    entry for Math > Algebra: the entry stays, the ledger grows. *)
Lemma topicless_quiz_keeps_the_algebra_entry :
  let c := Example.quizzed 40 in
  let data := Example.quiz None 90 ["limits"] in
  (qr_topic data = None
   /\ Js.includes QuizType_values (qr_quizType data) = true
   /\ 0 <= qr_score data <= 100)
  /\ knowledge (db (final (recordQuiz data c))) = knowledge (db c)
  /\ List.length (quiz_history (db (final (recordQuiz data c)))) = 2%nat.
Proof.
  intros c data.
  assert (H1 : qr_topic data = None) by reflexivity.
  assert (H2 : Js.includes QuizType_values (qr_quizType data) = true)
    by reflexivity.
  assert (H3 : 0 <= qr_score data <= 100) by (simpl; lia).
  split; [auto|].
  destruct (recordQuiz_without_topic_leaves_knowledge_alone c data H1 H2 H3)
    as (_ & _ & Hl & Hk & _).
  split; [exact Hk|]. rewrite Hl. reflexivity.
Defined.

(* ================================================================== *)
(** ** Weak areas *)
(* ================================================================== *)

Lemma weakest_first_spec (a b : Knowledge) :
  Sql.weakest_first a b = true <-> Spec.weaker_or_equal a b.
Proof.
  unfold Sql.weakest_first, Spec.weaker_or_equal.
  rewrite orb_true_iff, andb_true_iff, Z.ltb_lt, Z.eqb_eq, Z.leb_le. tauto.
Qed.

Lemma is_weak_spec (k : Knowledge) :
  Sql.is_weak k = true <-> k_mastery_level k < 60 \/ k_confidence k < 50.
Proof.
  unfold Sql.is_weak. now rewrite orb_true_iff, !Z.ltb_lt.
Qed.

(** C9.  For a limit that is not negative (10 when none is given),
    [getWeakAreas] returns the first [limit] rows of a ranking of the
    knowledge table that holds exactly the rows with mastery < 60 or
    confidence < 50, each as often as the table holds it, in ascending
    order of (mastery, confidence).  A row with (59, 90) or (60, 49) is
    ranked, a row with (60, 50) is not.  The query changes nothing. *)
Theorem getWeakAreas_lists_weakest_first (c : Chat) (limit : option Z) :
  let n := match limit with Some n => n | None => 10 end in
  0 <= n ->
  exists ranked,
    getWeakAreas limit c = Outcome c [] (inr (firstn (Z.to_nat n) ranked))
    /\ Permutation ranked (filter Sql.is_weak (knowledge (db c)))
    /\ (forall k, In k ranked <->
                  In k (knowledge (db c))
                  /\ (k_mastery_level k < 60 \/ k_confidence k < 50))
    /\ StronglySorted Spec.weaker_or_equal ranked
    /\ (forall k, In k (knowledge (db c)) ->
          (k_mastery_level k = 59 -> k_confidence k = 90 -> In k ranked)
          /\ (k_mastery_level k = 60 -> k_confidence k = 49 -> In k ranked)
          /\ (k_mastery_level k = 60 -> k_confidence k = 50 -> ~ In k ranked)).
Proof.
  intros n Hn.
  set (ranked := Sql.order_by Sql.weakest_first
                   (filter Sql.is_weak (knowledge (db c)))).
  assert (Hperm : Permutation ranked (filter Sql.is_weak (knowledge (db c))))
    by apply order_by_perm.
  assert (Hin : forall k, In k ranked <->
                  In k (knowledge (db c))
                  /\ (k_mastery_level k < 60 \/ k_confidence k < 50)).
  { intros k. rewrite <- is_weak_spec, <- filter_In.
    split; apply Permutation_in; [assumption|now symmetry]. }
  exists ranked. split; [|split; [assumption|split; [assumption|split]]].
  - unfold getWeakAreas, query, Sql.select_weak. fold n.
    rewrite limit_nonneg by assumption. reflexivity.
  - apply StronglySorted_impl with (R := fun a b => Sql.weakest_first a b = true).
    + intros a b. apply weakest_first_spec.
    + apply order_by_sorted.
      * intros a b. rewrite !weakest_first_spec. unfold Spec.weaker_or_equal. lia.
      * intros a b d. rewrite !weakest_first_spec. unfold Spec.weaker_or_equal. lia.
  - intros k Hk. repeat split; intros Hm Hc; rewrite Hin; [split; [assumption|lia]..|].
    intros [_ H]. lia.
Qed.

(** The three boundary rows, with the default limit. *)
Lemma weak_areas_at_the_boundary :
  0 <= 10
  /\ exists ranked,
       getWeakAreas None Example.boundary
       = Outcome Example.boundary [] (inr (firstn 10 ranked))
       /\ In (Example.entry 3 59 90) ranked
       /\ In (Example.entry 2 60 49) ranked
       /\ ~ In (Example.entry 1 60 50) ranked.
Proof.
  assert (H : 0 <= 10) by lia.
  split; [exact H|].
  destruct (getWeakAreas_lists_weakest_first Example.boundary None H)
    as (ranked & Hrun & _ & _ & _ & Hb).
  exists ranked. split; [exact Hrun|].
  split; [|split].
  - destruct (Hb (Example.entry 3 59 90)) as (Hin & _ & _); [simpl; auto|].
    apply Hin; reflexivity.
  - destruct (Hb (Example.entry 2 60 49)) as (_ & Hin & _); [simpl; auto|].
    apply Hin; reflexivity.
  - destruct (Hb (Example.entry 1 60 50)) as (_ & _ & Hout); [simpl; auto|].
    apply Hout; reflexivity.
Defined.

(* ================================================================== *)
(** ** The knowledge update of a quiz *)
(* ================================================================== *)

(** *** Column updates *)

Lemma same_key_harmless subject topic set k :
  harmless set ->
  Sql.same_key subject topic (set k) = Sql.same_key subject topic k.
Proof.
  intros H. destruct (H k) as (Hs & Ht & _). unfold Sql.same_key.
  now rewrite Hs, Ht.
Qed.

Lemma same_key_refl subject topic k :
  k_subject k = subject -> k_topic k = topic ->
  Sql.same_key subject topic k = true.
Proof. intros <- <-. unfold Sql.same_key. now rewrite !String.eqb_refl. Qed.

Lemma harmless_id : harmless (fun k => k).
Proof. intros k. auto. Qed.

Lemma harmless_compose f g :
  harmless f -> harmless g -> harmless (fun k => g (f k)).
Proof.
  intros Hf Hg k. destruct (Hf k) as (a & b & d), (Hg (f k)) as (a' & b' & d').
  repeat split; [congruence|congruence|auto].
Qed.

Lemma harmless_opt_apply {A} (x : option A) set :
  (forall v, x = Some v -> harmless (set v)) -> harmless (opt_apply x set).
Proof.
  intros H. destruct x as [v|]; simpl; [now apply H|apply harmless_id].
Qed.

Lemma harmless_step {A} f (x : option A) set :
  harmless f -> (forall v, x = Some v -> harmless (set v)) ->
  harmless (fun r => opt_apply x set (f r)).
Proof.
  intros Hf Hs. apply harmless_compose with (g := opt_apply x set); [assumption|].
  now apply harmless_opt_apply.
Qed.

Ltac harmless_setter :=
  let k := fresh "k" in
  intros k; destruct k; unfold Sql.check_knowledge; cbn; auto.

Lemma harmless_set_times_studied v : harmless (Sql.set_times_studied v).
Proof. harmless_setter. Qed.

Lemma harmless_set_times_quizzed v : harmless (Sql.set_times_quizzed v).
Proof. harmless_setter. Qed.

Lemma harmless_set_last_studied v : harmless (Sql.set_last_studied v).
Proof. harmless_setter. Qed.

Lemma harmless_set_last_quizzed v : harmless (Sql.set_last_quizzed v).
Proof. harmless_setter. Qed.

Lemma harmless_set_weak_areas v : harmless (Sql.set_weak_areas v).
Proof. harmless_setter. Qed.

Lemma harmless_set_notes v : harmless (Sql.set_notes v).
Proof. harmless_setter. Qed.

Lemma harmless_set_mastery_level v :
  Sql.check_percent v = true -> harmless (Sql.set_mastery_level v).
Proof.
  intros Hv k; destruct k; unfold Sql.check_knowledge; cbn.
  repeat split. rewrite Hv. rewrite !andb_true_iff. tauto.
Qed.

Lemma harmless_set_confidence v :
  Sql.check_percent v = true -> harmless (Sql.set_confidence v).
Proof.
  intros Hv k; destruct k; unfold Sql.check_knowledge; cbn.
  repeat split. rewrite Hv. rewrite !andb_true_iff. tauto.
Qed.

Create HintDb harmless.
#[local] Hint Resolve harmless_id harmless_step harmless_set_times_studied
  harmless_set_times_quizzed harmless_set_last_studied
  harmless_set_last_quizzed harmless_set_weak_areas harmless_set_notes
  : harmless.

Lemma harmless_knowledge_setter data t :
  percent_or_absent (kd_masteryLevel data) ->
  percent_or_absent (kd_confidence data) ->
  harmless (knowledge_setter data t).
Proof.
  intros Hm Hf.
  assert (Hmast : forall v, kd_masteryLevel data = Some v ->
                            harmless (Sql.set_mastery_level v)).
  { intros v E. rewrite E in Hm. now apply harmless_set_mastery_level. }
  assert (Hconf : forall v, kd_confidence data = Some v ->
                            harmless (Sql.set_confidence v)).
  { intros v E. rewrite E in Hf. now apply harmless_set_confidence. }
  unfold knowledge_setter.
  do 8 (apply harmless_step; [|auto with harmless]).
  apply harmless_id.
Qed.

Lemma with_rows_same (c : Chat) : with_rows c (knowledge (db c)) = c.
Proof. destruct c as [? ? ? ? d ? ? ?]. destruct d. reflexivity. Qed.

Lemma map_on_topic_id subject topic rows :
  map (on_topic subject topic (fun k => k)) rows = rows.
Proof.
  induction rows as [|k rows IH]; simpl; [reflexivity|].
  rewrite IH. unfold on_topic. now destruct (Sql.same_key subject topic k).
Qed.

Lemma map_on_topic_fuse subject topic f g rows :
  harmless f ->
  map (on_topic subject topic g) (map (on_topic subject topic f) rows)
  = map (on_topic subject topic (fun k => g (f k))) rows.
Proof.
  intros Hf. rewrite map_map. apply map_ext. intros k. unfold on_topic.
  destruct (Sql.same_key subject topic k) eqn:E.
  - now rewrite same_key_harmless, E.
  - now rewrite E.
Qed.

Lemma checked_on_topic subject topic set rows :
  harmless set ->
  Forall (fun k => Sql.check_knowledge k = true) rows ->
  Forall (fun k => Sql.check_knowledge k = true)
         (map (on_topic subject topic set) rows).
Proof.
  intros Hs H. induction H as [|k rows Hk _ IH]; simpl; constructor;
    [|assumption].
  unfold on_topic. destruct (Sql.same_key subject topic k); [|assumption].
  now apply Hs.
Qed.

Lemma checked_with_rows c rows :
  Forall (fun k => Sql.check_knowledge k = true) rows ->
  knowledge_checked (db (with_rows c rows)).
Proof. intros H. exact H. Qed.

Lemma update_knowledge_run (c : Chat) subject topic set :
  harmless set -> knowledge_checked (db c) ->
  sql (fun d => Sql.update_knowledge d subject topic set) c
  = Outcome (with_rows c (map (on_topic subject topic set) (knowledge (db c))))
            [] (inr tt).
Proof.
  intros Hs Hc. unfold sql, Sql.update_knowledge.
  replace (forallb _ (knowledge (db c))) with true; [reflexivity|].
  symmetry. apply forallb_forall. intros k Hk.
  destruct (Sql.same_key subject topic k); [|reflexivity]. simpl.
  apply Hs. unfold knowledge_checked in Hc. rewrite Forall_forall in Hc. auto.
Qed.

Lemma update_column_run {A} (c : Chat) subject topic (x : option A) set :
  (forall v, x = Some v -> harmless (set v)) -> knowledge_checked (db c) ->
  update_column subject topic x set c
  = Outcome (with_rows c (map (on_topic subject topic (opt_apply x set))
                              (knowledge (db c)))) [] (inr tt).
Proof.
  intros Hs Hc. destruct x as [v|].
  - exact (update_knowledge_run c subject topic (set v) (Hs v eq_refl) Hc).
  - unfold update_column, opt_apply, ret.
    rewrite map_on_topic_id, with_rows_same. reflexivity.
Qed.

(** Chaining one more column update onto a run of [updateKnowledge]. *)
Lemma update_column_then {A B} (c : Chat) subject topic f (x : option A) set
  (k : M B) :
  harmless f -> (forall v, x = Some v -> harmless (set v)) ->
  knowledge_checked (db c) ->
  bind (update_column subject topic x set) (fun _ => k)
       (with_rows c (map (on_topic subject topic f) (knowledge (db c))))
  = k (with_rows c (map (on_topic subject topic
                           (fun r => opt_apply x set (f r)))
                        (knowledge (db c)))).
Proof.
  intros Hf Hs Hc.
  rewrite (bind_ok _ _ _ _ _ (update_column_run _ subject topic x set Hs
             (checked_with_rows c _ (checked_on_topic _ _ _ _ Hf Hc)))).
  cbn [db with_rows with_db knowledge Sql.with_knowledge].
  rewrite map_on_topic_fuse by assumption. reflexivity.
Qed.

(** [updateKnowledge] on an existing entry rewrites the rows of its
    topic, column by column. *)
Lemma updateKnowledge_existing (c : Chat) (data : KnowledgeData) (e : Knowledge) :
  knowledge_checked (db c) ->
  hd_error (Sql.select_topic (db c) (kd_subject data) (kd_topic data)) = Some e ->
  percent_or_absent (kd_masteryLevel data) ->
  percent_or_absent (kd_confidence data) ->
  updateKnowledge data c
  = Outcome (with_rows c (map (on_topic (kd_subject data) (kd_topic data)
                                 (knowledge_setter data (clock c)))
                              (knowledge (db c)))) [] (inr tt).
Proof.
  intros Hc He Hm Hf. unfold updateKnowledge.
  rewrite (bind_ok _ _ _ _ _ (getTopicMastery_run c _ _)).
  rewrite (bind_ok _ _ c c (clock c)) by reflexivity.
  rewrite He.
  set (s := kd_subject data). set (t := kd_topic data).
  assert (Hmast : forall v, kd_masteryLevel data = Some v ->
                            harmless (Sql.set_mastery_level v)).
  { intros v E. rewrite E in Hm. now apply harmless_set_mastery_level. }
  assert (Hconf : forall v, kd_confidence data = Some v ->
                            harmless (Sql.set_confidence v)).
  { intros v E. rewrite E in Hf. now apply harmless_set_confidence. }
  rewrite <- (with_rows_same c) at 1.
  rewrite <- (map_on_topic_id s t (knowledge (db c))) at 1.
  do 7 (rewrite update_column_then; [|auto 10 with harmless..]).
  rewrite update_column_run.
  - cbn [db with_rows with_db knowledge Sql.with_knowledge].
    rewrite map_on_topic_fuse by auto 10 with harmless. reflexivity.
  - auto with harmless.
  - apply checked_with_rows, checked_on_topic; auto 10 with harmless.
Qed.

(** [updateKnowledge] on a new topic appends one row. *)
Lemma updateKnowledge_fresh (c : Chat) (data : KnowledgeData) :
  hd_error (Sql.select_topic (db c) (kd_subject data) (kd_topic data)) = None ->
  Sql.check_percent (or_0 (kd_masteryLevel data)) = true ->
  Sql.check_percent (or_0 (kd_confidence data)) = true ->
  let row :=
    {| k_id := seq_knowledge (db c) + 1;
       k_subject := kd_subject data; k_topic := kd_topic data;
       k_mastery_level := or_0 (kd_masteryLevel data);
       k_confidence := or_0 (kd_confidence data);
       k_times_studied := or_0 (kd_timesStudied data);
       k_times_quizzed := or_0 (kd_timesQuizzed data);
       k_last_studied :=
         if truthy (kd_lastStudied data) then Some (clock c) else None;
       k_last_quizzed :=
         if truthy (kd_lastQuizzed data) then Some (clock c) else None;
       k_weak_areas := kd_weakAreas data; k_notes := kd_notes data;
       k_created_at := clock c |} in
  exists d',
    updateKnowledge data c = Outcome (with_db c d') [] (inr tt)
    /\ knowledge d' = knowledge (db c) ++ [row]
    /\ quiz_history d' = quiz_history (db c)
    /\ study_sessions d' = study_sessions (db c)
    /\ user_profile d' = user_profile (db c)
    /\ session_preferences d' = session_preferences (db c).
Proof.
  intros He Hm Hf row. unfold updateKnowledge.
  rewrite (bind_ok _ _ _ _ _ (getTopicMastery_run c _ _)).
  rewrite (bind_ok _ _ c c (clock c)) by reflexivity.
  rewrite He. unfold sql, Sql.insert_knowledge.
  unfold Sql.check_knowledge at 1. cbn [k_mastery_level k_confidence].
  rewrite Hm, Hf. cbn [andb negb].
  rewrite (existsb_filter_nil _ _ (hd_error_nil _ He)).
  eexists. split; [reflexivity|]. cbn. repeat split; reflexivity.
Qed.

Lemma updateKnowledge_succeeds (c : Chat) (data : KnowledgeData) :
  knowledge_checked (db c) ->
  percent_or_absent (kd_masteryLevel data) ->
  percent_or_absent (kd_confidence data) ->
  exists d', updateKnowledge data c = Outcome (with_db c d') [] (inr tt).
Proof.
  intros Hc Hm Hf.
  destruct (hd_error (Sql.select_topic (db c) (kd_subject data) (kd_topic data)))
    as [e|] eqn:E.
  - eexists. exact (updateKnowledge_existing c data e Hc E Hm Hf).
  - destruct (updateKnowledge_fresh c data E) as (d' & H & _).
    + destruct (kd_masteryLevel data); [exact Hm|reflexivity].
    + destruct (kd_confidence data); [exact Hf|reflexivity].
    + eexists. exact H.
Qed.

Lemma hd_select_on_topic subject topic f rows :
  harmless f ->
  hd_error (filter (Sql.same_key subject topic)
                   (map (on_topic subject topic f) rows))
  = option_map f (hd_error (filter (Sql.same_key subject topic) rows)).
Proof.
  intros Hf. induction rows as [|k rows IH]; simpl; [reflexivity|].
  unfold on_topic at 1 2. destruct (Sql.same_key subject topic k) eqn:E.
  - rewrite same_key_harmless, E by assumption. reflexivity.
  - rewrite E. assumption.
Qed.

Lemma hd_select_after_insert subject topic rows row :
  hd_error (filter (Sql.same_key subject topic) rows) = None ->
  Sql.same_key subject topic row = true ->
  hd_error (filter (Sql.same_key subject topic) (rows ++ [row])) = Some row.
Proof.
  intros H Hr. rewrite filter_app, (hd_error_nil _ H). simpl. now rewrite Hr.
Qed.

(** *** The weighted mean in binary64 *)

Lemma in_percent_range (x : Z) : 0 <= x <= 100 -> In x percent_range.
Proof.
  intros H. unfold percent_range. apply in_map_iff. exists (Z.to_nat x).
  split; [lia|]. apply in_seq. lia.
Qed.

Lemma weighted_mastery_table :
  forallb (fun m => forallb (weighted_mastery_ok m) percent_range)
          percent_range = true.
Proof. vm_compute. reflexivity. Qed.

(** On percentages, [Math.round(m * 0.7 + s * 0.3)] is an integer nearest
    to the exact weighted mean [(7 m + 3 s) / 10], and a percentage; it
    is the exactly rounded mean unless that mean lies half-way between
    two integers; and it returns [s] when [m = s]. *)
Lemma weighted_mastery_facts (m s : Z) :
  0 <= m <= 100 -> 0 <= s <= 100 ->
  let w := weighted_mastery m s in
  10 * w - 5 <= 7 * m + 3 * s <= 10 * w + 5
  /\ 0 <= w <= 100
  /\ ((7 * m + 3 * s) mod 10 <> 5 -> w = Spec.exact_weighted_mastery m s)
  /\ (m = s -> w = s).
Proof.
  intros Hm Hs w.
  pose proof weighted_mastery_table as T.
  rewrite forallb_forall in T. specialize (T m (in_percent_range m Hm)).
  rewrite forallb_forall in T. specialize (T s (in_percent_range s Hs)).
  unfold weighted_mastery_ok in T. fold w in T.
  rewrite !andb_true_iff, !orb_true_iff, !Z.leb_le, !Z.eqb_eq, negb_true_iff,
    Z.eqb_neq in T.
  intuition lia.
Qed.

(** *** Merging weak areas *)

Lemma includes_In (l : list string) (x : string) :
  Js.includes l x = true <-> In x l.
Proof.
  unfold Js.includes. rewrite existsb_exists. split.
  - intros (y & Hy & E). apply String.eqb_eq in E. now subst.
  - intros H. exists x. split; [assumption|apply String.eqb_refl].
Qed.

Lemma includes_false (l : list string) (x : string) :
  Js.includes l x = false <-> ~ In x l.
Proof.
  rewrite <- includes_In. destruct (Js.includes l x); split; congruence.
Qed.

Lemma dedup_onto_In seen l x :
  In x (Js.dedup_onto seen l) <-> In x l /\ ~ In x seen.
Proof.
  revert seen. induction l as [|y l IH]; intros seen; simpl; [tauto|].
  destruct (Js.includes seen y) eqn:E.
  - apply includes_In in E. rewrite IH. split.
    + tauto.
    + intros [[->|H] Hn]; [contradiction|tauto].
  - apply includes_false in E. simpl. rewrite IH. simpl. split.
    + intros [->|[H Hn]]; tauto.
    + intros [[->|H] Hn]; [tauto|].
      destruct (string_dec y x) as [->|Hne]; [tauto|]. right. tauto.
Qed.

Lemma dedup_onto_NoDup seen l : NoDup (Js.dedup_onto seen l).
Proof.
  revert seen. induction l as [|y l IH]; intros seen; simpl; [constructor|].
  destruct (Js.includes seen y); [apply IH|].
  constructor; [|apply IH].
  rewrite dedup_onto_In. simpl. tauto.
Qed.

Lemma dedup_union (a b : list string) :
  Spec.duplicate_free_union (Js.dedup (a ++ b)) a b.
Proof.
  split; [apply dedup_onto_NoDup|].
  intros x. unfold Js.dedup. rewrite dedup_onto_In, in_app_iff. simpl. tauto.
Qed.

Lemma truthy_string_some topic :
  topic <> EmptyString -> truthy_string (Some topic) = Some topic.
Proof.
  intros H. unfold truthy_string.
  destruct (String.eqb_spec topic EmptyString); congruence.
Qed.

Lemma clamp_percent_id v : 0 <= v <= 100 -> clamp_percent v = v.
Proof. unfold clamp_percent. lia. Qed.

(** *** The entry a quiz leaves *)

(** C3, as the code has it, on whole numbers.  A valid submission (known
    quiz type, a whole-number score from 0 to 100) with a subject and a
    non-empty topic, on a table of whole-number mastery levels, leaves an
    entry for (subject, topic).  When none existed, its mastery is the score,
    it has been quizzed once and its weak areas are the submitted missed
    concepts.  When one existed, its mastery is
    [Math.round(prior * 0.7 + score * 0.3)] as binary64 arithmetic
    computes it: a percentage, an integer nearest to the exact weighted
    mean, equal to the exactly rounded mean whenever that mean is not
    half-way between two integers, and equal to the score when the prior
    mastery was the score; it has been quizzed once more; and its weak
    areas are the union, without duplicates, of the prior weak areas and
    the missed concepts. *)
Theorem recordQuiz_updates_the_topic_entry (c : Chat) (data : QuizResult)
  (topic : string) :
  knowledge_checked (db c) ->
  qr_topic data = Some topic -> topic <> EmptyString ->
  Js.includes QuizType_values (qr_quizType data) = true ->
  0 <= qr_score data <= 100 ->
  let prior := hd_error (Sql.select_topic (db c) (qr_subject data) topic) in
  let r := recordQuiz data c in
  exists e',
    result r = inr (seq_quiz_history (db c) + 1)
    /\ hd_error (Sql.select_topic (db (final r)) (qr_subject data) topic)
       = Some e'
    /\ match prior with
       | None =>
           k_mastery_level e' = qr_score data
           /\ k_times_quizzed e' = 1
           /\ exists areas,
                k_weak_areas e' = Some areas
                /\ forall x, In x areas <-> In x (qr_missedConcepts data)
       | Some e =>
           let m := k_mastery_level e in
           let s := qr_score data in
           k_mastery_level e' = weighted_mastery m s
           /\ 10 * k_mastery_level e' - 5 <= 7 * m + 3 * s
              <= 10 * k_mastery_level e' + 5
           /\ ((7 * m + 3 * s) mod 10 <> 5 ->
               k_mastery_level e' = Spec.exact_weighted_mastery m s)
           /\ 0 <= k_mastery_level e' <= 100
           /\ (m = s -> k_mastery_level e' = s)
           /\ k_times_quizzed e' = k_times_quizzed e + 1
           /\ exists merged,
                k_weak_areas e' = Some merged
                /\ Spec.duplicate_free_union merged
                     (match k_weak_areas e with Some l => l | None => [] end)
                     (qr_missedConcepts data)
       end.
Proof.
  intros Hc Ht Hne Hq Hs prior r. subst r.
  rewrite (recordQuiz_inserts c data Hq Hs).
  rewrite Ht, (truthy_string_some _ Hne).
  set (c1 := with_db c _).
  assert (Hc1 : knowledge_checked (db c1)) by exact Hc.
  rewrite (bind_ok _ _ _ _ _ (getTopicMastery_run c1 _ _)).
  change (hd_error (Sql.select_topic (db c1) (qr_subject data) topic)) with prior.
  destruct prior as [e|] eqn:Hp.
  - (* an entry exists *)
    assert (He : Sql.check_knowledge e = true).
    { unfold knowledge_checked in Hc. rewrite Forall_forall in Hc. apply Hc.
      apply hd_error_In in Hp. unfold Sql.select_topic in Hp.
      apply filter_In in Hp. tauto. }
    assert (Hm : 0 <= k_mastery_level e <= 100).
    { unfold Sql.check_knowledge in He. apply andb_true_iff in He.
      now apply check_percent_iff. }
    destruct (weighted_mastery_facts _ _ Hm Hs) as (Hb & Hr & Hx & Hfix).
    rewrite (clamp_percent_id _ Hr).
    match goal with |- context [updateKnowledge ?d] => set (kd := d) end.
    assert (Hrun := updateKnowledge_existing c1 kd e Hc1 Hp
                      (proj2 (check_percent_iff _) Hr) I).
    rewrite (bind_ok _ _ _ _ _ Hrun).
    eexists. split; [reflexivity|]. split.
    + unfold Sql.select_topic.
      cbn [final ret db with_rows with_db Sql.with_knowledge knowledge
           kd kd_subject kd_topic].
      rewrite hd_select_on_topic.
      * change (hd_error (filter (Sql.same_key (qr_subject data) topic)
                                 (knowledge (db c1)))) with prior.
        rewrite Hp. reflexivity.
      * apply harmless_knowledge_setter;
          [exact (proj2 (check_percent_iff _) Hr)|exact I].
    + set (e' := knowledge_setter kd (clock c1) e).
      assert (Hm' : k_mastery_level e'
                    = weighted_mastery (k_mastery_level e) (qr_score data))
        by (destruct e; reflexivity).
      assert (Hq' : k_times_quizzed e' = k_times_quizzed e + 1)
        by (destruct e; reflexivity).
      assert (Hw' : k_weak_areas e'
                    = Some (Js.dedup
                              (match k_weak_areas e with
                               | Some l => l
                               | None => []
                               end ++ qr_missedConcepts data)))
        by (destruct e; reflexivity).
      cbv zeta. rewrite Hm', Hq', Hw'.
      repeat (split; [assumption || reflexivity|]).
      eexists. split; [reflexivity|apply dedup_union].
  - (* no entry yet *)
    match goal with |- context [updateKnowledge ?d] => set (kd := d) end.
    destruct (updateKnowledge_fresh c1 kd Hp (proj2 (check_percent_iff _) Hs)
                eq_refl) as (d' & Hrun & Hk & _).
    rewrite (bind_ok _ _ _ _ _ Hrun).
    eexists. split; [reflexivity|]. split.
    + cbn [final db with_db ret]. unfold Sql.select_topic. rewrite Hk.
      apply hd_select_after_insert; [exact Hp|].
      apply same_key_refl; reflexivity.
    + split; [reflexivity|]. split; [reflexivity|].
      eexists. split; [reflexivity|]. intros x. reflexivity.
Qed.

(** Prior mastery 40, score 100: the entry goes to 58 and has been
    quizzed twice. *)
Lemma quiz_of_100_on_mastery_40_gives_58 :
  let c := Example.quizzed 40 in
  let data := Example.quiz (Some "Algebra") 100 ["loops"] in
  (knowledge_checked (db c)
   /\ qr_topic data = Some "Algebra"
   /\ "Algebra" <> EmptyString
   /\ Js.includes QuizType_values (qr_quizType data) = true
   /\ 0 <= qr_score data <= 100)
  /\ exists e',
       Example.algebra (final (recordQuiz data c)) = Some e'
       /\ k_mastery_level e' = 58
       /\ k_times_quizzed e' = 2.
Proof.
  intros c data.
  assert (H1 : knowledge_checked (db c)) by (repeat constructor).
  assert (H2 : qr_topic data = Some "Algebra") by reflexivity.
  assert (H3 : "Algebra" <> EmptyString) by discriminate.
  assert (H4 : Js.includes QuizType_values (qr_quizType data) = true)
    by reflexivity.
  assert (H5 : 0 <= qr_score data <= 100) by (simpl; lia).
  split; [auto 6|].
  destruct (recordQuiz_updates_the_topic_entry c data "Algebra" H1 H2 H3 H4 H5)
    as (e' & _ & He & Hm).
  exists e'. split; [exact He|].
  vm_compute in Hm. destruct Hm as (Hm & _ & _ & _ & _ & Hq & _).
  split; assumption.
Defined.

(** C3 as stated fails in three places.  With prior mastery 1 and score
    36 the exact weighted mean is 11.5, which rounds to 12, and the code
    stores 11: the binary64 sum is 11.499999999999998.  A first quiz on
    a topic that reports a concept twice stores it twice.  And a score
    that is no whole number is not kept by a repeated quiz: with the
    mastery at 66.7 (where a first quiz with the score 66.7 leaves it,
    the score being stored as it is) the same score gives
    [Math.round(66.7 * 0.7 + 66.7 * 0.3)], which is 67. *)
Lemma recordQuiz_half_way_mean_and_repeated_concept :
  (option_map k_mastery_level (Example.algebra (Example.quizzed 1)) = Some 1
   /\ option_map k_mastery_level
        (Example.algebra
           (final (recordQuiz (Example.quiz (Some "Algebra") 36 [])
                              (Example.quizzed 1))))
      = Some 11
   /\ Spec.exact_weighted_mastery 1 36 = 12)
  /\ (Example.algebra Example.idle = None
      /\ option_map k_weak_areas
           (Example.algebra
              (final (recordQuiz
                        (Example.quiz (Some "Algebra") 40 ["loops"; "loops"])
                        Example.idle)))
         = Some (Some ["loops"; "loops"])
      /\ ~ Spec.duplicate_free_union ["loops"; "loops"] []
             ["loops"; "loops"])
  /\ (Z.abs (10 * 4693595236650189 - 667 * 2 ^ 46) <= 5
      /\ Num.lt (Num.of_Z 66) Num.lit_66_7 = true
      /\ Num.lt Num.lit_66_7 (Num.of_Z 67) = true
      /\ smoothed Num.lit_66_7 Num.lit_66_7 = 67
      /\ clamp_percent (smoothed Num.lit_66_7 Num.lit_66_7) = 67).
Proof.
  split; [repeat split; vm_compute; reflexivity|].
  split.
  - split; [reflexivity|]. split; [vm_compute; reflexivity|].
    intros [Hnd _]. inversion Hnd as [|x l Hin _]; subst.
    apply Hin. now left.
  - split; [vm_compute; discriminate|]. repeat split; vm_compute; reflexivity.
Qed.

(* ================================================================== *)
(** ** Quiz statistics *)
(* ================================================================== *)

(** *** The aggregates *)

Lemma sum_Z_from (l : list Z) (a : Z) : fold_left Z.add l a = a + Spec.total l.
Proof.
  revert a. induction l as [|x l IH]; intros a; simpl; [lia|].
  rewrite IH. lia.
Qed.

Lemma sum_Z_total (l : list Z) : Sql.sum_Z l = Spec.total l.
Proof. unfold Sql.sum_Z. now rewrite sum_Z_from. Qed.

Lemma fold_max_spec (l : list Z) (a : Z) :
  let m := fold_left Z.max l a in
  (m = a \/ In m l) /\ a <= m /\ Forall (fun x => x <= m) l.
Proof.
  revert a. induction l as [|x l IH]; intros a; simpl.
  - repeat split; [now left|lia|constructor].
  - destruct (IH (Z.max a x)) as ([E|Hin] & Hle & Hall).
    + repeat split; [|lia|constructor; [lia|assumption]].
      destruct (Z.max_spec a x) as [[_ Hm]|[_ Hm]]; rewrite Hm in E;
        [right; left; congruence|left; congruence].
    + repeat split; [right; now right|lia|constructor; [lia|assumption]].
Qed.

Lemma fold_min_spec (l : list Z) (a : Z) :
  let m := fold_left Z.min l a in
  (m = a \/ In m l) /\ m <= a /\ Forall (fun x => m <= x) l.
Proof.
  revert a. induction l as [|x l IH]; intros a; simpl.
  - repeat split; [now left|lia|constructor].
  - destruct (IH (Z.min a x)) as ([E|Hin] & Hle & Hall).
    + repeat split; [|lia|constructor; [lia|assumption]].
      destruct (Z.min_spec a x) as [[_ Hm]|[_ Hm]]; rewrite Hm in E;
        [left; congruence|right; left; congruence].
    + repeat split; [right; now right|lia|constructor; [lia|assumption]].
Qed.

Lemma max_Z_greatest (l : list Z) :
  Spec.greatest (Sql.coalesce0 (Sql.max_Z l)) l.
Proof.
  destruct l as [|a l]; simpl; [reflexivity|].
  destruct (fold_max_spec l a) as ([E|Hin] & Hle & Hall).
  - split; [left; now rewrite E|constructor; assumption].
  - split; [now right|constructor; assumption].
Qed.

Lemma min_Z_least (l : list Z) :
  Spec.least (Sql.coalesce0 (Sql.min_Z l)) l.
Proof.
  destruct l as [|a l]; simpl; [reflexivity|].
  destruct (fold_min_spec l a) as ([E|Hin] & Hle & Hall).
  - split; [left; now rewrite E|constructor; assumption].
  - split; [now right|constructor; assumption].
Qed.

Lemma round_quotient (s : Z) (p : positive) :
  Num.Math_round_Q (inject_Z s / inject_Z (Z.pos p))
  = (2 * s + Z.pos p) / (2 * Z.pos p).
Proof.
  unfold Num.Math_round_Q, Qdiv, Qinv, Qmult, Qplus, inject_Z, Qfloor.
  cbn [Qnum Qden].
  f_equal; lia.
Qed.

Lemma avg_rounded (l : list Z) :
  Num.Math_round_Q (Sql.coalesce0_Q (Sql.avg_Z l)) = Spec.rounded_mean l.
Proof.
  destruct l as [|a l]; [reflexivity|].
  unfold Sql.avg_Z, Sql.coalesce0_Q, Spec.rounded_mean.
  rewrite sum_Z_total.
  remember (List.length (a :: l)) as n eqn:En.
  destruct n as [|n]; [discriminate|].
  replace (Z.of_nat (S n)) with (Z.pos (Pos.of_succ_nat n)) by lia.
  apply round_quotient.
Qed.

(** *** The counting object *)

Lemma first_occurrences_In (l : list string) (x : string) :
  In x (Spec.first_occurrences l) <-> In x l.
Proof.
  induction l as [|y l IH]; simpl; [tauto|].
  rewrite filter_In, IH, negb_true_iff, String.eqb_neq.
  destruct (string_dec y x) as [->|Hne]; [tauto|].
  split; [tauto|]. intros [H|H]; [contradiction|].
  right. split; [assumption|congruence].
Qed.

Lemma first_occurrences_NoDup (l : list string) :
  NoDup (Spec.first_occurrences l).
Proof.
  induction l as [|y l IH]; simpl; constructor.
  - rewrite filter_In, negb_true_iff, String.eqb_neq. tauto.
  - now apply NoDup_filter.
Qed.

Lemma first_occurrences_snoc (l : list string) (x : string) :
  Spec.first_occurrences (l ++ [x])
  = if in_dec string_dec x l then Spec.first_occurrences l
    else Spec.first_occurrences l ++ [x].
Proof.
  induction l as [|y l IH]; simpl; [reflexivity|].
  rewrite IH.
  destruct (string_dec y x) as [->|Hne].
  - destruct (in_dec string_dec x l); [reflexivity|].
    rewrite filter_app. simpl. rewrite String.eqb_refl. simpl.
    now rewrite app_nil_r.
  - destruct (in_dec string_dec x l); [reflexivity|].
    rewrite filter_app. simpl.
    destruct (String.eqb_spec x y) as [->|_]; [congruence|]. reflexivity.
Qed.

Lemma frequency_snoc (l : list string) (x z : string) :
  Spec.frequency (l ++ [x]) z
  = Spec.frequency l z + (if string_dec x z then 1 else 0).
Proof.
  unfold Spec.frequency. rewrite count_occ_app. simpl.
  destruct (string_dec x z); lia.
Qed.

Lemma frequency_pos (l : list string) (x : string) :
  In x l -> 0 < Spec.frequency l x.
Proof.
  intros H. unfold Spec.frequency.
  apply (count_occ_In string_dec) in H. lia.
Qed.

Lemma frequency_absent (l : list string) (x : string) :
  ~ In x l -> Spec.frequency l x = 0.
Proof.
  intros H. unfold Spec.frequency.
  apply (count_occ_not_In string_dec) in H. lia.
Qed.

Lemma get_table (g : string -> Z) (keys : list string) (x : string) :
  JsObject.get (map (fun z => (z, g z)) keys) x
  = if in_dec string_dec x keys then Some (g x) else None.
Proof.
  induction keys as [|k keys IH]; simpl; [reflexivity|].
  destruct (String.eqb_spec k x) as [->|Hne].
  - destruct (string_dec x x); [reflexivity|congruence].
  - rewrite IH. destruct (string_dec k x); [congruence|].
    destruct (in_dec string_dec x keys); reflexivity.
Qed.

Lemma set_table_present (g : string -> Z) (keys : list string) (x : string)
  (v : Z) :
  NoDup keys -> In x keys ->
  JsObject.set (map (fun z => (z, g z)) keys) x v
  = map (fun z => (z, if string_dec x z then v else g z)) keys.
Proof.
  induction keys as [|k keys IH]; simpl; intros Hnd Hin; [contradiction|].
  inversion Hnd as [|? ? Hk Hnd']; subst.
  destruct (String.eqb_spec k x) as [->|Hne].
  - destruct (string_dec x x); [|congruence]. f_equal.
    apply map_ext_in. intros z Hz.
    destruct (string_dec x z); [subst; contradiction|reflexivity].
  - destruct (string_dec x k); [congruence|]. f_equal.
    apply IH; [assumption|]. destruct Hin; [congruence|assumption].
Qed.

Lemma set_table_absent (g : string -> Z) (keys : list string) (x : string)
  (v : Z) :
  ~ In x keys ->
  JsObject.set (map (fun z => (z, g z)) keys) x v
  = map (fun z => (z, g z)) keys ++ [(x, v)].
Proof.
  induction keys as [|k keys IH]; simpl; intros Hin; [reflexivity|].
  destruct (String.eqb_spec k x) as [->|Hne]; [tauto|].
  f_equal. apply IH. tauto.
Qed.

(** One pass of the inner loop keeps the object a tally. *)
Lemma count_concept_tally (done : list string) (x : string) :
  count_concept (tally done) x = tally (done ++ [x]).
Proof.
  unfold count_concept, tally. rewrite get_table, first_occurrences_snoc.
  destruct (in_dec string_dec x (Spec.first_occurrences done)) as [Hin|Hin];
    destruct (in_dec string_dec x done) as [Hd|Hd];
    [|exfalso; apply Hd; now apply first_occurrences_In
     |exfalso; apply Hin; now apply first_occurrences_In|].
  - rewrite set_table_present by (auto using first_occurrences_NoDup).
    apply map_ext. intros z. rewrite frequency_snoc. f_equal.
    unfold JsObject.or_zero.
    pose proof (frequency_pos done x Hd) as Hp.
    destruct (string_dec x z) as [<-|]; [|lia].
    destruct (Z.eqb_spec (Spec.frequency done x) 0); lia.
  - rewrite set_table_absent by assumption.
    rewrite map_app. simpl. f_equal.
    + apply map_ext_in. intros z Hz. rewrite frequency_snoc.
      destruct (string_dec x z) as [<-|]; [contradiction|]. f_equal. lia.
    + rewrite frequency_snoc, frequency_absent by assumption.
      destruct (string_dec x x); [reflexivity|congruence].
Qed.

Lemma fold_count_concept (rest done : list string) :
  fold_left count_concept rest (tally done) = tally (done ++ rest).
Proof.
  revert done. induction rest as [|x rest IH]; intros done; simpl.
  - now rewrite app_nil_r.
  - rewrite count_concept_tally, IH, <- app_assoc. reflexivity.
Qed.

Lemma fold_count_row (rows : list QuizHistory) (acc : JsObject.t) :
  fold_left count_row (map q_missed_concepts rows) acc
  = fold_left count_concept (Spec.missed_labels rows) acc.
Proof.
  revert acc. induction rows as [|q rows IH]; intros acc; simpl; [reflexivity|].
  rewrite fold_left_app, IH. unfold count_row.
  destruct (q_missed_concepts q); reflexivity.
Qed.

(** The two loops of [getQuizStats] build the tally of the labels. *)
Lemma conceptCounts_tally (rows : list QuizHistory) :
  fold_left count_row (map q_missed_concepts rows) []
  = tally (Spec.missed_labels rows).
Proof.
  rewrite fold_count_row. exact (fold_count_concept _ []).
Qed.

(** [Object.entries] lists plain keys in creation order. *)
Lemma entries_plain (o : JsObject.t) :
  Forall (fun e => JsObject.plain_key (fst e) = true) o ->
  JsObject.entries o = o.
Proof.
  intros H. unfold JsObject.entries.
  assert (Hno : forall e, In e o -> JsObject.is_array_index (fst e) = false).
  { intros e He. rewrite Forall_forall in H. specialize (H e He).
    unfold JsObject.plain_key in H. apply andb_true_iff in H.
    destruct H as [H _]. now apply negb_true_iff in H. }
  replace (filter (fun e => JsObject.is_array_index (fst e)) o)
    with (@nil (string * Z)).
  - simpl. induction o as [|e o IH]; simpl; [reflexivity|].
    rewrite (Hno e) by now left. simpl. f_equal. apply IH.
    + now inversion H.
    + intros e' He'. apply Hno. now right.
  - symmetry. induction o as [|e o IH]; simpl; [reflexivity|].
    rewrite (Hno e) by now left. apply IH.
    + now inversion H.
    + intros e' He'. apply Hno. now right.
Qed.

Lemma ranking_of_tally (labels : list string) :
  Forall (fun x => JsObject.plain_key x = true) labels ->
  map fst (firstn 5 (Sql.order_by more_frequent
                       (JsObject.entries (tally labels))))
  = Spec.most_frequent 5 labels.
Proof.
  intros H. rewrite entries_plain.
  - unfold tally. rewrite order_by_map, <- firstn_map, map_map. cbn [fst].
    rewrite map_id. reflexivity.
  - unfold tally. rewrite Forall_forall in *. intros e He.
    apply in_map_iff in He. destruct He as (x & <- & Hx). cbn [fst].
    apply H. now apply first_occurrences_In.
Qed.

(** The ranking is by descending frequency. *)
Lemma most_frequent_descending (n : nat) (labels : list string) :
  exists ranked,
    Spec.most_frequent n labels = firstn n ranked
    /\ Permutation ranked (Spec.first_occurrences labels)
    /\ StronglySorted
         (fun a b => Spec.frequency labels b <= Spec.frequency labels a)
         ranked.
Proof.
  eexists. split; [reflexivity|]. split; [apply order_by_perm|].
  apply StronglySorted_impl
    with (R := fun a b => (Spec.frequency labels b <=? Spec.frequency labels a)
                          = true).
  - intros a b. apply Z.leb_le.
  - apply order_by_sorted.
    + intros a b. rewrite !Z.leb_le. lia.
    + intros a b c. rewrite !Z.leb_le. lia.
Qed.

(** *** The selection *)

Lemma subject_filter_selected (subject : option string)
  (ledger : list QuizHistory) :
  filter (Sql.subject_filter subject) ledger = Spec.selected subject ledger.
Proof.
  unfold Spec.selected, Sql.subject_filter.
  destruct subject as [s|]; [destruct (String.eqb s EmptyString)|].
  - exact (filter_true ledger).
  - reflexivity.
  - exact (filter_true ledger).
Qed.

Lemma selected_incl subject ledger q :
  In q (Spec.selected subject ledger) -> In q ledger.
Proof.
  rewrite <- subject_filter_selected. intros H. apply filter_In in H. tauto.
Qed.

(** *** Order of the entries and of the labels *)

(** A list read backwards is sorted the other way round. *)
Lemma chronological_rev (rows : list QuizHistory) :
  StronglySorted (fun a b => q_quiz_date a < q_quiz_date b) rows ->
  StronglySorted (fun a b => q_quiz_date b < q_quiz_date a) (rev rows).
Proof.
  induction 1 as [|x rows Hs IH Hx]; cbn; [constructor|].
  assert (Hlast : Forall (fun y => q_quiz_date x < q_quiz_date y) (rev rows)).
  { apply Forall_forall. intros y Hy. apply in_rev in Hy.
    rewrite Forall_forall in Hx. now apply Hx. }
  clear Hs Hx. induction IH as [|y older Hs IHo Hy]; cbn.
  - repeat constructor.
  - inversion Hlast as [|? ? Hxy Hrest]; subst. constructor.
    + now apply IHo.
    + apply Forall_app. split; [assumption|]. now constructor.
Qed.

(** Entries of distinct dates have one order from the most recent to the
    oldest. *)
Lemma by_recency_unique (ranked strict : list QuizHistory) :
  Permutation ranked strict ->
  StronglySorted (fun a b => q_quiz_date b <= q_quiz_date a) ranked ->
  StronglySorted (fun a b => q_quiz_date b < q_quiz_date a) strict ->
  ranked = strict.
Proof.
  revert strict. induction ranked as [|a r IH]; intros strict Hp Hr Hs.
  - apply Permutation_nil in Hp. now subst.
  - destruct strict as [|b s].
    { apply Permutation_sym, Permutation_nil in Hp. discriminate. }
    inversion Hr as [|? ? Hr' Ha]; subst.
    inversion Hs as [|? ? Hs' Hb]; subst.
    assert (E : a = b).
    { assert (Hab : In a (b :: s))
        by (eapply Permutation_in; [exact Hp|now left]).
      assert (Hba : In b (a :: r))
        by (eapply Permutation_in; [apply Permutation_sym, Hp|now left]).
      destruct Hab as [->|Hab]; [reflexivity|].
      destruct Hba as [->|Hba]; [reflexivity|].
      rewrite Forall_forall in Ha, Hb.
      specialize (Ha b Hba). specialize (Hb a Hab). cbn in Ha, Hb. lia. }
    subst b. f_equal. apply IH; [|assumption..].
    now apply Permutation_cons_inv in Hp.
Qed.

(** On a ledger whose dates grow with the rows, the order from the most
    recent to the oldest is the ledger read backwards. *)
Lemma by_recency_chronological (ranked rows : list QuizHistory) :
  StronglySorted (fun a b => q_quiz_date a < q_quiz_date b) rows ->
  Spec.by_recency ranked rows -> ranked = rev rows.
Proof.
  intros Hc [Hp Hs]. apply by_recency_unique; [|assumption|].
  - eapply Permutation_trans; [exact Hp|apply Permutation_rev].
  - now apply chronological_rev.
Qed.

(** The sort keeps the rows that the order does not tell apart in the
    order in which they came. *)
Lemma insert_sorted_keeps_ties {A} (le : A -> A -> bool) (p : A -> bool)
  (x : A) (l : list A) :
  (forall y, p x = true -> p y = true -> le x y = true) ->
  filter p (Sql.insert_sorted le x l)
  = if p x then x :: filter p l else filter p l.
Proof.
  intros H. induction l as [|y l IH]; cbn.
  - destruct (p x); reflexivity.
  - destruct (le x y) eqn:E; cbn.
    + destruct (p x); reflexivity.
    + rewrite IH. destruct (p y) eqn:Py; [|reflexivity].
      destruct (p x) eqn:Px; [|reflexivity].
      rewrite (H y eq_refl Py) in E. discriminate.
Qed.

Lemma order_by_keeps_ties {A} (le : A -> A -> bool) (p : A -> bool)
  (l : list A) :
  (forall a b, p a = true -> p b = true -> le a b = true) ->
  filter p (Sql.order_by le l) = filter p l.
Proof.
  intros H. unfold Sql.order_by. induction l as [|x l IH]; cbn; [reflexivity|].
  rewrite insert_sorted_keeps_ties by (intros y; apply H).
  rewrite IH. destruct (p x); reflexivity.
Qed.

(** The ranking the code computes is by descending frequency, the labels
    of one frequency in the order in which they were first met. *)
Lemma most_frequent_ranks (n : nat) (labels : list string) :
  Spec.ranks n labels (Spec.most_frequent n labels).
Proof.
  unfold Spec.most_frequent.
  exists (Sql.order_by
            (fun a b => Spec.frequency labels b <=? Spec.frequency labels a)
            (Spec.first_occurrences labels)).
  split; [reflexivity|]. split; [apply order_by_perm|]. split.
  - apply StronglySorted_impl
      with (R := fun a b => (Spec.frequency labels b
                             <=? Spec.frequency labels a) = true).
    + intros a b. apply Z.leb_le.
    + apply order_by_sorted.
      * intros a b. rewrite !Z.leb_le. lia.
      * intros a b c. rewrite !Z.leb_le. lia.
  - intros k. apply order_by_keeps_ties.
    intros a b Ha Hb. apply Z.eqb_eq in Ha, Hb. apply Z.leb_le. lia.
Qed.

(** C7, as the code has it.  Whatever the ledger and the subject filter
    (an empty filter counting as none), [getQuizStats] changes nothing,
    never fails, and returns: the number of selected entries, their mean
    score rounded to the nearest integer, the sums of their questions
    and of their correct answers, their best and worst score, and the
    scores of 5 most recent ones, most recent first (no entry left out
    is dated after one that is listed; on a ledger of growing dates they
    are the last 5 read backwards); all of it zero or empty when nothing
    is selected.  The missed concepts are ranked over the 10 most recent
    selected entries that recorded a missed concept: when the labels of
    these entries are neither array indices nor names inherited from
    [Object.prototype], the statistics list the 5 most frequent of them,
    by descending frequency, equally frequent ones in the order in which
    they were first met. *)
Theorem getQuizStats_describes_the_ledger (c : Chat) (subject : option string) :
  let rows := Spec.selected subject (quiz_history (db c)) in
  exists stats,
    getQuizStats subject c = Outcome c [] (inr stats)
    /\ Spec.describes stats rows
    /\ Spec.ranks_missed_concepts stats (filter Sql.has_missed_concepts rows)
    /\ (StronglySorted (fun a b => q_quiz_date a < q_quiz_date b) rows ->
        recentScores stats = map q_score (firstn 5 (rev rows)))
    /\ (rows = [] -> stats = Spec.zero_stats).
Proof.
  intros rows.
  unfold getQuizStats, query, bind, ret.
  cbn [final trace result app].
  eexists. split; [reflexivity|].
  unfold Sql.select_recent_scores, Sql.select_missed_concepts,
    Sql.select_aggregates.
  cbn [Sql.total_quizzes Sql.avg_score Sql.total_questions Sql.total_correct
       Sql.best_score Sql.worst_score].
  rewrite filter_andb, !subject_filter_selected. fold rows.
  rewrite !limit_nonneg by lia.
  split; [|split; [|split]].
  - unfold Spec.describes.
    cbn [totalQuizzes averageScore totalQuestions totalCorrect bestScore
         worstScore recentScores].
    rewrite avg_rounded, !sum_Z_total.
    repeat split; auto using max_Z_greatest, min_Z_least.
    exists (Sql.order_by Sql.newest_first rows).
    split; [exact (newest_first_sorted rows)|reflexivity].
  - exists (Sql.order_by Sql.newest_first
              (filter Sql.has_missed_concepts rows)).
    split; [exact (newest_first_sorted _)|].
    cbv zeta. intros Hplain. cbn [mostMissedConcepts].
    rewrite conceptCounts_tally, ranking_of_tally by exact Hplain.
    split; [reflexivity|apply most_frequent_ranks].
  - intros Hc. cbn [recentScores].
    now rewrite (newest_first_of_chronological rows Hc).
  - intros E. rewrite E. reflexivity.
Qed.

(** Eleven quizzes of growing dates, the oldest alone with a missed
    concept: the statistics rank the concept of the oldest. *)
Lemma stats_of_eleven_quizzes :
  let c := Example.with_ledger Example.eleven_quizzes in
  exists stats,
    getQuizStats None c = Outcome c [] (inr stats)
    /\ totalQuizzes stats = 11
    /\ averageScore stats = 80
    /\ recentScores stats = [80; 80; 80; 80; 80]
    /\ mostMissedConcepts stats = ["fractions"].
Proof.
  intros c.
  destruct (getQuizStats_describes_the_ledger c None)
    as (stats & Hrun & (Hn & Hm & _) & (ranked & Hby & Hrank) & Hrecent & _).
  exists stats. split; [exact Hrun|].
  split; [rewrite Hn; reflexivity|].
  split; [rewrite Hm; vm_compute; reflexivity|].
  split.
  - rewrite Hrecent; [reflexivity|]. repeat constructor.
  - assert (E : ranked = [Example.ledger_row 1 (Some ["fractions"])]).
    { destruct Hby as [Hp _]. apply Permutation_sym in Hp.
      now apply Permutation_length_1_inv in Hp. }
    subst ranked. destruct Hrank as [Hc _]; [repeat constructor|].
    rewrite Hc. reflexivity.
Defined.

(** C7 as stated fails on the window of the ranking: with one missed
    concept in the oldest of eleven quizzes and none in the ten that
    followed, the last ten ledger entries hold no missed concept, and
    the statistics still rank the concept of the eleventh. *)
Lemma stats_rank_a_concept_older_than_the_last_ten_entries :
  let c := Example.with_ledger Example.eleven_quizzes in
  let ledger := quiz_history (db c) in
  exists stats,
    getQuizStats None c = Outcome c [] (inr stats)
    /\ mostMissedConcepts stats = ["fractions"]
    /\ (forall ranked, Spec.by_recency ranked ledger ->
        Spec.missed_labels (firstn 10 ranked) = [])
    /\ ~ Spec.ranks_missed_concepts stats ledger.
Proof.
  intros c ledger.
  assert (Hc : StronglySorted (fun a b => q_quiz_date a < q_quiz_date b) ledger)
    by repeat constructor.
  assert (Hw : forall ranked, Spec.by_recency ranked ledger ->
                              Spec.missed_labels (firstn 10 ranked) = []).
  { intros ranked Hby. now rewrite (by_recency_chronological ranked ledger Hc Hby). }
  eexists. split; [vm_compute; reflexivity|].
  split; [reflexivity|]. split; [exact Hw|].
  intros (ranked & Hby & Hrank). cbv zeta in Hrank.
  rewrite (Hw ranked Hby) in Hrank.
  destruct Hrank as [H _]; [constructor|]. vm_compute in H. discriminate H.
Qed.

(* ================================================================== *)
(** ** The name of a continuation *)
(* ================================================================== *)

Lemma read_digits_of_uint (d : Decimal.uint) (a : nat) :
  Js.read_digits (NilEmpty.string_of_uint d) (Z.of_nat a) true
  = Some (Z.of_nat (Nat.of_uint_acc d a)).
Proof.
  revert a. induction d; intros a;
    cbn [NilEmpty.string_of_uint Nat.of_uint_acc];
    [reflexivity|..];
    cbn [Js.read_digits]; change (Js.is_digit _) with true; cbv iota;
    rewrite <- IHd; f_equal; rewrite ?Nat.tail_mul_spec;
    unfold Js.digit_value;
    match goal with
    | |- context [nat_of_ascii ?c] =>
        let v := eval vm_compute in (nat_of_ascii c) in
        change (nat_of_ascii c) with v
    end; lia.
Qed.

Lemma all_digits_of_uint (d : Decimal.uint) :
  JsObject.all_digits (NilEmpty.string_of_uint d) = true.
Proof. induction d; cbn [NilEmpty.string_of_uint JsObject.all_digits]; auto. Qed.

(** [parseInt] reads back the index a template literal printed. *)
Lemma parseInt_show_nat (n : nat) :
  Js.parseInt (Js.show_nat n) = Some (Z.of_nat n).
Proof.
  unfold Js.show_nat.
  pose proof (Unsigned.of_to n) as Hof.
  destruct (Nat.to_uint n) as [|d|d|d|d|d|d|d|d|d|d] eqn:E;
    [cbn in Hof; subst n; discriminate E|..];
    unfold Nat.of_uint in Hof; cbn [Nat.of_uint_acc] in Hof;
    rewrite <- Hof;
    unfold Js.parseInt; cbn [NilEmpty.string_of_uint Js.skip_spaces];
    change (Js.is_space _) with false; cbv iota;
    change (Ascii.eqb _ (Js.chr 45)) with false;
    change (Ascii.eqb _ (Js.chr 43)) with false; cbv iota;
    cbn [Js.read_digits]; change (Js.is_digit _) with true; cbv iota;
    rewrite <- read_digits_of_uint; f_equal.
Qed.

Lemma split_on_digits (s : string) :
  JsObject.all_digits s = true -> Js.split_on (Js.chr 58) s = [s].
Proof.
  induction s as [|c s IH]; cbn [JsObject.all_digits Js.split_on];
    [reflexivity|].
  intros H. apply andb_true_iff in H. destruct H as [Hc Hs].
  destruct (Ascii.eqb_spec c (Js.chr 58)) as [->|_]; [discriminate Hc|].
  now rewrite (IH Hs).
Qed.

(** [executeTask] recognises the name [schedule] was given and reads the
    index back from it. *)
Lemma plan_step_index (i : nat) :
  Js.startsWith "PLAN_STEP:" (PLAN_STEP i) = true
  /\ match nth_error (Js.split_on (Js.chr 58) (PLAN_STEP i)) 1 with
     | Some digits => Js.parseInt digits
     | None => None
     end = Some (Z.of_nat i).
Proof.
  split; [unfold PLAN_STEP, Js.startsWith; simpl;
          destruct (Js.show_nat i); reflexivity|].
  unfold PLAN_STEP. simpl.
  rewrite split_on_digits by apply all_digits_of_uint.
  cbn [nth_error]. apply parseInt_show_nat.
Qed.

Lemma array_get_nat {A} (a : list A) (i : nat) :
  Js.array_get a (Some (Z.of_nat i)) = nth_error a i.
Proof.
  unfold Js.array_get. destruct (Z.ltb_spec (Z.of_nat i) 0); [lia|].
  now rewrite Nat2Z.id.
Qed.

(* ================================================================== *)
(** ** Traces *)
(* ================================================================== *)

Lemma quiet_ret {A} (a : A) : quiet (ret a).
Proof. intros c. constructor. Qed.

Lemma quiet_bind {A B} (m : M A) (k : A -> M B) :
  quiet m -> (forall a, quiet (k a)) -> quiet (bind m k).
Proof.
  intros Hm Hk c. unfold bind. specialize (Hm c).
  destruct (result (m c)) as [e|a]; cbn [trace]; [assumption|].
  apply Forall_app. split; [assumption|apply Hk].
Qed.

Lemma quiet_sql stmt : quiet (sql stmt).
Proof. intros c. unfold sql. destruct (stmt (db c)); constructor. Qed.

Lemma quiet_query {A} (q : Database -> A) : quiet (query q).
Proof. intros c. constructor. Qed.

Lemma quiet_updateKnowledge data : quiet (updateKnowledge data).
Proof.
  unfold updateKnowledge.
  apply quiet_bind; [apply quiet_query|]. intros existing.
  apply quiet_bind; [intros c; constructor|]. intros t.
  destruct existing as [e|]; [|apply quiet_sql].
  repeat (apply quiet_bind; [|intros _]);
    match goal with
    | |- quiet (update_column _ _ ?x _) =>
        destruct x; [apply quiet_sql|apply quiet_ret]
    end.
Qed.

(* ================================================================== *)
(** ** The plan flow *)
(* ================================================================== *)

Section PlanFlowFacts.

Variable ai : ai_request -> option jsval.
Variable parse : string -> option jsval.
Variable show : jsval -> string.
Variable store : list UIMessage -> bool.

(** *** The plan generator *)

Lemma parseStepsFromString_length (text fallback : string) :
  (List.length (parseStepsFromString parse text fallback) <= 10)%nat.
Proof.
  unfold parseStepsFromString.
  destruct (parse text) as [[| | | | |items|]|];
    try (simpl; lia); try apply firstn_le_length.
  destruct (Js.match_delimited _ _ text) as [m|]; [|simpl; lia].
  destruct (parse m) as [[| | | | |items|]|];
    try (simpl; lia); apply firstn_le_length.
Qed.

(** The plan never has more than 10 steps. *)
Lemma steps_of_response_length (result : jsval) (prompt : string) :
  (List.length (steps_of_response parse result prompt) <= 10)%nat.
Proof.
  unfold steps_of_response.
  destruct result; try (simpl; lia);
    try apply parseStepsFromString_length;
    (destruct (prop _ "response");
     try apply firstn_le_length; try apply parseStepsFromString_length;
     destruct (prop _ "result");
     try apply firstn_le_length; try apply parseStepsFromString_length;
     simpl; lia).
Qed.

(** A text that is no JSON and holds no bracketed piece that is a JSON
    array gives the one-step plan of the prompt. *)
Lemma parseStepsFromString_fallback (text fallback : string) :
  parse text = None ->
  (forall piece, Js.match_delimited (Js.chr 91) (Js.chr 93) text = Some piece ->
                 forall items, parse piece <> Some (JArr items)) ->
  parseStepsFromString parse text fallback = [JStr fallback].
Proof.
  intros Hp Hm. unfold parseStepsFromString. rewrite Hp.
  destruct (Js.match_delimited _ _ text) as [piece|]; [|reflexivity].
  specialize (Hm piece eq_refl).
  destruct (parse piece) as [[| | | | |items|]|]; try reflexivity.
  now destruct (Hm items).
Qed.

(** A response that is neither text nor an object gives the one-step
    plan of the prompt. *)
Lemma steps_of_response_fallback (result : jsval) (prompt : string) :
  match result with
  | JUndefined | JNull | JBool _ | JNum _ => True
  | _ => False
  end ->
  steps_of_response parse result prompt = [JStr prompt].
Proof. destruct result; simpl; tauto. Qed.

(** *** Topic inference *)

Lemma inferSubjectTopicFromAI_run (prompt : string) (c : Chat) :
  exists info,
    inferSubjectTopicFromAI ai parse prompt c
    = Outcome c [Inference (InferRequest (Js.take 300 prompt))] (inr info).
Proof.
  unfold inferSubjectTopicFromAI, try_catch, infer, bind, emit, ret, throw.
  cbn [result final trace].
  destruct (ai (InferRequest (Js.take 300 prompt))) as [v|]; cbn;
    [|eexists; reflexivity].
  destruct (raw_response v); cbn; try (eexists; reflexivity).
  destruct (Js.match_delimited _ _ _); cbn; [|eexists; reflexivity].
  destruct (parse _) as [p|]; cbn; [|eexists; reflexivity].
  destruct (prop p "subject"); cbn; try (eexists; reflexivity).
  destruct (prop p "topic"); cbn; eexists; reflexivity.
Qed.

Lemma quiet_inferSubjectTopicFromAI prompt :
  quiet (inferSubjectTopicFromAI ai parse prompt).
Proof.
  intros c. destruct (inferSubjectTopicFromAI_run prompt c) as (info & H).
  rewrite H. repeat constructor.
Qed.

Lemma quiet_saveMessages ms : quiet (saveMessages store ms).
Proof. intros c. unfold saveMessages. destruct (store ms); constructor. Qed.

(** The combiner never calls the step processor. *)
Lemma quiet_outputCombinedResult : quiet (outputCombinedResult ai parse store).
Proof.
  unfold outputCombinedResult.
  apply quiet_bind; [intros c; constructor|]. intros c0.
  apply quiet_bind; [apply quiet_inferSubjectTopicFromAI|]. intros info.
  apply quiet_bind.
  - destruct (match info with Some i => Some i | None => _ end) as [[s t]|];
      [|apply quiet_ret].
    apply quiet_bind; [apply quiet_updateKnowledge|]. intros _.
    apply quiet_bind; [intros c; repeat constructor|]. intros _. apply quiet_ret.
  - intros msg. apply quiet_bind; [intros c; constructor|]. intros c'.
    apply quiet_bind; [apply quiet_saveMessages|]. intros _.
    intros c; constructor.
Qed.

(** *** The combiner *)

(** C4, as the code has it.  The combiner builds one reply and saves
    it; topic inference cannot make it fail (a failed or garbled
    inference falls back to the heuristic, and no topic means no
    knowledge update).  When the storage accepts the reply, the combiner
    returns normally with the four plan fields back at their initial
    values.  When the storage refuses it, the error leaves the combiner
    and the four plan fields are what they were: the statements that
    clear them come after the save and are not reached. *)
Theorem outputCombinedResult_clears_the_plan_when_the_reply_is_saved (c : Chat) :
  knowledge_checked (db c) ->
  let r := outputCombinedResult ai parse store c in
  exists reply,
    let ms := messages c ++ [{| role := assistant; text := reply |}] in
    (store ms = true ->
     result r = inr tt /\ plan_cleared (final r) /\ messages (final r) = ms)
    /\ (store ms = false ->
        result r = inl StorageError /\ same_plan c (final r)
        /\ messages (final r) = messages c).
Proof.
  intros Hc r. subst r.
  destruct (inferSubjectTopicFromAI_run (originalPrompt c) c) as (info & Hinf).
  unfold outputCombinedResult, bind, get. cbn [result final trace].
  rewrite Hinf. cbn [result final trace].
  destruct (match info with
            | Some i => Some i
            | None => extractTopicFromPrompt (originalPrompt c)
            end) as [[subject topic]|].
  - match goal with |- context [updateKnowledge ?d c] => set (kd := d) end.
    destruct (updateKnowledge_succeeds c kd Hc) as (d' & Hup);
      [reflexivity|exact I|].
    rewrite Hup. cbn [result final trace emit ret app].
    exists (combine_results (planSteps c) (stepResults c)
            ++ (TRACKING_MESSAGE_ADDED subject topic
                ++ TRACKING_MESSAGE_WHAT_NEXT))%string.
    unfold saveMessages, set_plan. cbn [messages with_db].
    split; intros Hs; rewrite Hs; cbn; repeat split.
  - exists (combine_results (planSteps c) (stepResults c)
            ++ TRACKING_MESSAGE_EXPLAIN_MORE)%string.
    unfold ret, saveMessages, set_plan. cbn [result final trace messages].
    split; intros Hs; rewrite Hs; cbn; repeat split.
Qed.

(** *** The scheduler *)

Lemma executeTask_plan_step (i : nat) (c : Chat) :
  executeTask ai parse show store (PLAN_STEP i) c
  = match truthy_string (nth_error (planSteps c) i) with
    | None => Outcome c [InvalidStepIndex (Some (Z.of_nat i))] (inr tt)
    | Some step =>
        (stepResult <- processStep ai show step i ;;
         c1 <- get ;;
         set_plan (planSteps c1) (Js.array_set i stepResult (stepResults c1))
                  (originalPrompt c1) (isProcessingPlan c1) ;;;
         if (i + 1 <? List.length (planSteps c1))%nat
         then schedule 0 "executeTask" (PLAN_STEP (i + 1))
         else outputCombinedResult ai parse store) c
    end.
Proof.
  unfold executeTask.
  destruct (plan_step_index i) as [Hp Hi]. rewrite Hp, Hi.
  rewrite (bind_ok _ _ c c c) by reflexivity.
  rewrite array_get_nat.
  destruct (truthy_string (nth_error (planSteps c) i)); [|reflexivity].
  cbn [or_0]. rewrite Nat2Z.id. reflexivity.
Qed.

(** A continuation whose index has no step behind it (past the end of
    the plan, or an empty step) is reported and dropped: the state is
    untouched and nothing is scheduled. *)
Lemma executeTask_drops (i : nat) (c : Chat) :
  truthy_string (nth_error (planSteps c) i) = None ->
  executeTask ai parse show store (PLAN_STEP i) c
  = Outcome c [InvalidStepIndex (Some (Z.of_nat i))] (inr tt).
Proof. intros H. now rewrite executeTask_plan_step, H. Qed.

Lemma executeTask_drops_past_the_end (i : nat) (c : Chat) :
  (List.length (planSteps c) <= i)%nat ->
  executeTask ai parse show store (PLAN_STEP i) c
  = Outcome c [InvalidStepIndex (Some (Z.of_nat i))] (inr tt).
Proof.
  intros H. apply executeTask_drops.
  now rewrite (proj2 (nth_error_None _ _) H).
Qed.

(** A continuation with a non-empty step behind it, the model
    answering: the step processor is asked for that step, its answer is
    stored at the index, and either the next continuation is scheduled
    with delay 0 or, after the last step, the combiner runs at once. *)
Lemma executeTask_runs (i : nat) (c : Chat) (step : string) (v : jsval) :
  nth_error (planSteps c) i = Some step -> step <> EmptyString ->
  ai (step_request c i step) = Some v ->
  let c1 := with_results c (Js.array_set i (response_text show v)
                                         (stepResults c)) in
  executeTask ai parse show store (PLAN_STEP i) c
  = if (i + 1 <? List.length (planSteps c))%nat
    then Outcome (with_schedules c1 (schedules c ++ [continuation (i + 1)]))
                 [Inference (step_request c i step)] (inr tt)
    else let r := outputCombinedResult ai parse store c1 in
         Outcome (final r) (Inference (step_request c i step) :: trace r)
                 (result r).
Proof.
  intros Hn Hne Hv c1.
  rewrite executeTask_plan_step, Hn, (truthy_string_some _ Hne).
  assert (Hps : processStep ai show step i c
                = Outcome c [Inference (step_request c i step)]
                          (inr (response_text show v))).
  { unfold processStep, bind, get, infer, emit, ret. cbn [result final trace].
    fold (step_request c i step). rewrite Hv. reflexivity. }
  rewrite (bind_run _ _ _ _ _ _ Hps).
  rewrite (bind_ok _ _ c c c) by reflexivity.
  rewrite (bind_ok _ _ c c1 tt) by reflexivity.
  change (planSteps c1) with (planSteps c).
  destruct (i + 1 <? List.length (planSteps c))%nat; reflexivity.
Qed.

(** In range, [results[i] = r] overwrites slot [i] and keeps the
    length. *)
Lemma array_set_in_range {A} (i : nat) (v : A) (a : list (option A)) :
  (i < List.length a)%nat ->
  nth_error (Js.array_set i v a) i = Some (Some v)
  /\ List.length (Js.array_set i v a) = List.length a.
Proof.
  revert a. induction i as [|i IH]; intros [|x a] H; simpl in *; try lia.
  - split; reflexivity.
  - destruct (IH a) as [H1 H2]; [lia|]. split; [assumption|now rewrite H2].
Qed.

(** Whatever the model answers, a continuation with a non-empty step
    behind it starts by asking the step processor for that step, and
    asks it for no other. *)
Lemma executeTask_asks_first (i : nat) (c : Chat) (step : string) :
  nth_error (planSteps c) i = Some step -> step <> EmptyString ->
  exists more,
    trace (executeTask ai parse show store (PLAN_STEP i) c)
    = Inference (step_request c i step) :: more
    /\ Forall no_step more.
Proof.
  intros Hn Hne. rewrite executeTask_plan_step, Hn, (truthy_string_some _ Hne).
  destruct (ai (step_request c i step)) as [v|] eqn:Hv.
  - assert (Hps : processStep ai show step i c
                  = Outcome c [Inference (step_request c i step)]
                            (inr (response_text show v))).
    { unfold processStep, bind, get, infer, emit, ret. cbn [result final trace].
      fold (step_request c i step). rewrite Hv. reflexivity. }
    rewrite (bind_run _ _ _ _ _ _ Hps). cbn [trace app].
    eexists. split; [reflexivity|].
    rewrite (bind_ok _ _ c c c) by reflexivity.
    rewrite (bind_ok _ _ c _ tt) by reflexivity.
    destruct (_ <? _)%nat; [constructor|apply quiet_outputCombinedResult].
  - assert (Hps : processStep ai show step i c
                  = Outcome c [Inference (step_request c i step)]
                            (inl InferenceError)).
    { unfold processStep, bind, get, infer, emit, throw. cbn [result final trace].
      fold (step_request c i step). rewrite Hv. reflexivity. }
    rewrite (bind_throw _ _ _ _ _ _ Hps). cbn [trace].
    eexists. split; [reflexivity|constructor].
Qed.

Lemma onChatMessage_plan_starts (c : Chat) (prompt : string)
  (plan : list string) :
  (2 <= List.length plan)%nat ->
  store (messages c ++ [acknowledgment plan]) = true ->
  onChatMessage_plan store prompt plan c
  = Outcome (plan_started c prompt plan) [] (inr PlanFlow).
Proof.
  intros Hlen Hs. unfold onChatMessage_plan.
  destruct (Nat.leb_spec (List.length plan) 1); [lia|].
  unfold bind, get, set_plan, saveMessages, schedule, ret.
  cbn [result final trace messages app].
  fold (acknowledgment plan). rewrite Hs. reflexivity.
Qed.

Lemma run_next_schedule_head (c : Chat) (s : Schedule) (q : list Schedule) :
  schedules c = s :: q ->
  run_next_schedule ai parse show store c
  = executeTask ai parse show store (payload s) (with_schedules c q).
Proof. intros H. unfold run_next_schedule. rewrite H. reflexivity. Qed.

(** A continuation for a step that is not the last one never reaches
    the combiner: it leaves at most the one request of its step on the
    trace, and the plan, the conversation and the tables are as they
    were, whether the step processor answered, failed or was not
    called. *)
Lemma executeTask_before_the_last_step (i : nat) (c : Chat) :
  (i + 1 < List.length (planSteps c))%nat ->
  let r := executeTask ai parse show store (PLAN_STEP i) c in
  (trace r = [InvalidStepIndex (Some (Z.of_nat i))]
   \/ exists step, nth_error (planSteps c) i = Some step
                   /\ trace r = [Inference (step_request c i step)])
  /\ planSteps (final r) = planSteps c
  /\ originalPrompt (final r) = originalPrompt c
  /\ isProcessingPlan (final r) = isProcessingPlan c
  /\ messages (final r) = messages c
  /\ db (final r) = db c.
Proof.
  intros Hi r. subst r.
  destruct (truthy_string (nth_error (planSteps c) i)) as [step|] eqn:Ht.
  - assert (Hn : nth_error (planSteps c) i = Some step /\ step <> EmptyString).
    { unfold truthy_string in Ht.
      destruct (nth_error (planSteps c) i) as [s|]; [|discriminate].
      destruct (String.eqb_spec s EmptyString); [discriminate|].
      injection Ht as <-. split; [reflexivity|assumption]. }
    destruct Hn as [Hn Hne].
    destruct (ai (step_request c i step)) as [v|] eqn:Hv.
    + rewrite (executeTask_runs i c step v Hn Hne Hv).
      rewrite (proj2 (Nat.ltb_lt _ _) Hi). cbn.
      split; [right; exists step; split; [exact Hn|reflexivity]|repeat split].
    + rewrite executeTask_plan_step, Ht.
      assert (Hps : processStep ai show step i c
                    = Outcome c [Inference (step_request c i step)]
                              (inl InferenceError)).
      { unfold processStep, bind, get, infer, emit, throw.
        cbn [result final trace].
        fold (step_request c i step). rewrite Hv. reflexivity. }
      rewrite (bind_throw _ _ _ _ _ _ Hps). cbn.
      split; [right; exists step; split; [assumption|reflexivity]|repeat split].
  - rewrite (executeTask_drops i c Ht). cbn.
    split; [left; reflexivity|repeat split].
Qed.

(** C1, as the code has it.  A plan of at least two non-empty steps is
    started on an agent with nothing scheduled; the acknowledgment is
    saved and the model answers step 0.  Then the scheduler runs step 0,
    stores its result and enqueues the continuation of step 1.

    If the process is still the same when that continuation runs, it
    asks the step processor for step 1 and for no other step.  When the
    model fails, the error is thrown with the plan as it was.  When it
    answers, the answer is stored beside that of step 0; if further
    steps remain, the continuation of step 2 is the one entry scheduled,
    the plan stays in place and the trace holds nothing but the request
    of step 1, so the combiner has not run; if step 1 is the last, the
    combiner runs at once on the two results.  And no continuation of a
    step that is not the last reaches the combiner.

    If the process was restarted in between, the continuation is still
    on the schedule but the four plan fields are back at their initial
    values; the continuation is reported as an invalid step index and
    dropped, no step runs and nothing is left on the schedule. *)
Theorem plan_resumes_in_process_but_not_after_restart
  (c : Chat) (prompt s0 s1 : string) (rest : list string) (v0 : jsval) :
  let plan := s0 :: s1 :: rest in
  schedules c = [] ->
  s0 <> EmptyString -> s1 <> EmptyString ->
  store (messages c ++ [acknowledgment plan]) = true ->
  ai (StepRequest 1 (List.length plan) prompt EmptyString s0) = Some v0 ->
  let started := final (onChatMessage_plan store prompt plan c) in
  let after0 := final (run_next_schedule ai parse show store started) in
  let request1 := StepRequest 2 (List.length plan) prompt s0 s1 in
  let in_process := run_next_schedule ai parse show store after0 in
  trace (run_next_schedule ai parse show store started)
  = [Inference (StepRequest 1 (List.length plan) prompt EmptyString s0)]
  /\ nth_error (stepResults after0) 0 = Some (Some (response_text show v0))
  /\ schedules after0 = [continuation 1]
  /\ (exists more,
        trace in_process = Inference request1 :: more
        /\ Forall no_step more)
  /\ match ai request1 with
     | None =>
         trace in_process = [Inference request1]
         /\ result in_process = inl InferenceError
         /\ same_plan after0 (final in_process)
         /\ messages (final in_process) = messages after0
     | Some v1 =>
         let answered :=
           with_results (with_schedules after0 [])
             (Js.array_set 1 (response_text show v1) (stepResults after0)) in
         planSteps answered = plan
         /\ originalPrompt answered = prompt
         /\ isProcessingPlan answered = true
         /\ nth_error (stepResults answered) 0
            = Some (Some (response_text show v0))
         /\ nth_error (stepResults answered) 1
            = Some (Some (response_text show v1))
         /\ match rest with
            | _ :: _ =>
                in_process
                = Outcome (with_schedules answered [continuation 2])
                          [Inference request1] (inr tt)
            | [] =>
                let r := outputCombinedResult ai parse store answered in
                in_process
                = Outcome (final r) (Inference request1 :: trace r) (result r)
            end
     end
  /\ (forall (c' : Chat) (i : nat),
        (i + 1 < List.length (planSteps c'))%nat ->
        let r := executeTask ai parse show store (PLAN_STEP i) c' in
        (trace r = [InvalidStepIndex (Some (Z.of_nat i))]
         \/ exists step, nth_error (planSteps c') i = Some step
                         /\ trace r = [Inference (step_request c' i step)])
        /\ planSteps (final r) = planSteps c'
        /\ originalPrompt (final r) = originalPrompt c'
        /\ isProcessingPlan (final r) = isProcessingPlan c'
        /\ messages (final r) = messages c'
        /\ db (final r) = db c')
  /\ schedules (restart after0) = [continuation 1]
  /\ plan_cleared (restart after0)
  /\ run_next_schedule ai parse show store (restart after0)
     = Outcome (with_schedules (restart after0) [])
               [InvalidStepIndex (Some 1)] (inr tt).
Proof.
  intros plan Hq H0 H1 Hs Hv started after0 request1 in_process.
  assert (Hlen : (2 <= List.length plan)%nat) by (cbn; lia).
  assert (Estarted : started = plan_started c prompt plan).
  { unfold started. now rewrite onChatMessage_plan_starts. }
  assert (Hsched : schedules started = [continuation 0]).
  { rewrite Estarted. cbn. now rewrite Hq. }
  set (c0 := with_schedules started []).
  assert (Hrun0 : run_next_schedule ai parse show store started
                  = Outcome (with_schedules
                               (with_results c0
                                  (Js.array_set 0 (response_text show v0)
                                     (stepResults c0)))
                               [continuation 1])
                            [Inference (StepRequest 1 (List.length plan) prompt
                                          EmptyString s0)] (inr tt)).
  { rewrite (run_next_schedule_head _ _ _ Hsched).
    change (payload (continuation 0)) with (PLAN_STEP 0). fold c0.
    rewrite (executeTask_runs 0 c0 s0 v0).
    - unfold c0 at 1. rewrite Estarted.
      cbn [planSteps with_schedules with_plan with_messages plan_started].
      destruct (Nat.ltb_spec (0 + 1) (List.length plan)); [|lia].
      unfold c0. rewrite Estarted. reflexivity.
    - unfold c0. rewrite Estarted. reflexivity.
    - assumption.
    - unfold c0. rewrite Estarted. exact Hv. }
  assert (Eafter : after0 = with_schedules
                              (with_results c0
                                 (Js.array_set 0 (response_text show v0)
                                    (stepResults c0)))
                              [continuation 1]).
  { unfold after0. now rewrite Hrun0. }
  set (c1 := with_schedules after0 []).
  assert (Hstep1 : nth_error (planSteps c1) 1 = Some s1).
  { unfold c1. rewrite Eafter. unfold c0. rewrite Estarted. reflexivity. }
  assert (Hreq : step_request c1 1 s1 = request1).
  { unfold c1. rewrite Eafter. unfold c0. rewrite Estarted. reflexivity. }
  assert (Hin : in_process = executeTask ai parse show store (PLAN_STEP 1) c1).
  { unfold in_process.
    rewrite (run_next_schedule_head after0 (continuation 1) [])
      by now rewrite Eafter.
    reflexivity. }
  split; [now rewrite Hrun0|].
  split; [rewrite Eafter; unfold c0; rewrite Estarted; reflexivity|].
  split; [now rewrite Eafter|].
  split.
  { rewrite Hin.
    destruct (executeTask_asks_first 1 c1 s1 Hstep1 H1) as (more & Ht & Hm).
    exists more. split; [|assumption]. now rewrite Ht, Hreq. }
  split.
  { destruct (ai request1) as [v1|] eqn:Hv1.
    - assert (Hv1' : ai (step_request c1 1 s1) = Some v1) by now rewrite Hreq.
      pose proof (executeTask_runs 1 c1 s1 v1 Hstep1 H1 Hv1') as Hrun1.
      rewrite Hreq in Hrun1. cbv zeta in Hrun1.
      change (stepResults c1) with (stepResults after0) in Hrun1.
      change (schedules c1) with (@nil Schedule) in Hrun1.
      assert (Hplan : planSteps c1 = plan).
      { unfold c1. rewrite Eafter. unfold c0. rewrite Estarted. reflexivity. }
      rewrite Hplan in Hrun1.
      split; [exact Hplan|].
      split; [unfold c1; rewrite Eafter; unfold c0; rewrite Estarted;
              reflexivity|].
      split; [unfold c1; rewrite Eafter; unfold c0; rewrite Estarted;
              reflexivity|].
      split; [unfold c1; rewrite Eafter; unfold c0; rewrite Estarted;
              reflexivity|].
      split; [unfold c1; rewrite Eafter; unfold c0; rewrite Estarted;
              reflexivity|].
      rewrite Hin, Hrun1. unfold plan.
      destruct rest as [|s2 rest']; reflexivity.
    - rewrite Hin, executeTask_plan_step, Hstep1, (truthy_string_some _ H1).
      assert (Hps : processStep ai show s1 1 c1
                    = Outcome c1 [Inference (step_request c1 1 s1)]
                              (inl InferenceError)).
      { unfold processStep, bind, get, infer, emit, throw.
        cbn [result final trace].
        fold (step_request c1 1 s1). rewrite Hreq, Hv1. reflexivity. }
      rewrite (bind_throw _ _ _ _ _ _ Hps), Hreq. cbn.
      repeat split. }
  split; [exact (fun c' i => executeTask_before_the_last_step i c')|].
  split; [now rewrite Eafter|].
  split; [repeat split|].
  rewrite (run_next_schedule_head (restart after0) (continuation 1) [])
    by now rewrite Eafter.
  change (payload (continuation 1)) with (PLAN_STEP 1).
  apply (executeTask_drops 1). reflexivity.
Qed.

(** C5, the failing run.  The stored plan has two steps and the second
    is the empty string.  Index 1 is a valid index into the plan, yet
    the continuation of step 1 is reported as an invalid step index and
    dropped: the step processor is not called, no result is written,
    nothing is scheduled and the combiner does not run. *)
Theorem executeTask_drops_a_valid_index_whose_step_is_empty :
  let c := Example.with_empty_step in
  PLAN_STEP 1 = "PLAN_STEP:1"
  /\ (1 < List.length (planSteps c))%nat
  /\ nth_error (planSteps c) 1 = Some EmptyString
  /\ executeTask ai parse show store (PLAN_STEP 1) c
     = Outcome c [InvalidStepIndex (Some 1)] (inr tt).
Proof.
  intros c. split; [reflexivity|]. split; [simpl; lia|].
  split; [reflexivity|]. apply (executeTask_drops 1). reflexivity.
Qed.

End PlanFlowFacts.

(* ================================================================== *)
(** ** Concrete runs of the plan flow *)
(* ================================================================== *)

(** C2, the failing run.  The service answers with an empty list, as a
    structured list or as the text of one: [generatePlan] returns the
    empty plan, not a plan of 1 to 10 steps. *)
Theorem generatePlan_returns_the_empty_list_of_the_service
  (parse : string -> option jsval) (prompt : string) (c : Chat) :
  generatePlan (fun _ => Some (JObj [("response", JArr [])])) parse prompt c
  = Outcome c [Inference (PlanRequest prompt)] (inr [])
  /\ generatePlan (fun _ => Some (JObj [("response", JStr "[]")]))
       (fun _ => Some (JArr [])) prompt c
     = Outcome c [Inference (PlanRequest prompt)] (inr []).
Proof. split; reflexivity. Qed.

(** A three-step plan, run in one process and across a restart. *)
Lemma three_step_plan_in_process_and_after_restart :
  let s0 := "Step 1: define recursion" in
  let s1 := "Step 2: give example of recursion" in
  let s2 := "Step 3: compare with iteration" in
  let plan := [s0; s1; s2] in
  let after0 :=
    final (run_next_schedule Example.answering Example.unparsable
             Example.printing Example.accepting
             (final (onChatMessage_plan Example.accepting Example.prompt
                       plan Example.idle))) in
  let in_process :=
    run_next_schedule Example.answering Example.unparsable
      Example.printing Example.accepting after0 in
  (schedules Example.idle = []
   /\ s0 <> EmptyString /\ s1 <> EmptyString
   /\ Example.accepting (messages Example.idle ++ [acknowledgment plan]) = true
   /\ Example.answering (StepRequest 1 3 Example.prompt EmptyString s0)
      = Some (JStr "An answer."))
  /\ (trace in_process = [Inference (StepRequest 2 3 Example.prompt s0 s1)]
      /\ schedules (final in_process) = [continuation 2]
      /\ planSteps (final in_process) = plan
      /\ stepResults (final in_process)
         = [Some "An answer."; Some "An answer."; Some EmptyString]
      /\ messages (final in_process) = [acknowledgment plan])
  /\ trace (run_next_schedule Example.answering Example.unparsable
              Example.printing Example.accepting (restart after0))
     = [InvalidStepIndex (Some 1)].
Proof.
  intros s0 s1 s2 plan after0 in_process.
  assert (H1 : schedules Example.idle = []) by reflexivity.
  assert (H2 : s0 <> EmptyString) by discriminate.
  assert (H3 : s1 <> EmptyString) by discriminate.
  assert (H4 : Example.accepting
                 (messages Example.idle ++ [acknowledgment plan]) = true)
    by reflexivity.
  assert (H5 : Example.answering (StepRequest 1 3 Example.prompt EmptyString s0)
               = Some (JStr "An answer.")) by reflexivity.
  split; [auto 6|].
  destruct (plan_resumes_in_process_but_not_after_restart
              Example.answering Example.unparsable Example.printing
              Example.accepting Example.idle Example.prompt s0 s1 [s2]
              (JStr "An answer.") H1 H2 H3 H4 H5)
    as (_ & _ & _ & _ & Hrun & _ & _ & _ & Hdrop).
  split.
  - cbv zeta in Hrun. cbn [Example.answering] in Hrun.
    destruct Hrun as (_ & _ & _ & _ & _ & Hrun).
    unfold in_process, after0, plan. rewrite Hrun. repeat split.
  - unfold after0, plan. rewrite Hdrop. reflexivity.
Defined.

(** C1 as stated fails.  Step 0 of the two-step plan has run, its
    result is stored and the continuation of step 1 is on the schedule.
    After a restart the continuation is still there, and running it
    calls no step processor: the plan fields are empty, the
    continuation is reported as an invalid step index, and the schedule
    ends up empty with step 1 never run and the combiner never
    reached. *)
Lemma restart_after_step_0_loses_the_plan :
  let c := Example.after_step_0 in
  let r := run_next_schedule Example.answering Example.unparsable
             Example.printing Example.accepting (restart c) in
  nth_error (stepResults c) 0 = Some (Some "An answer.")
  /\ planSteps c = Example.two_steps
  /\ schedules c = [continuation 1]
  /\ schedules (restart c) = [continuation 1]
  /\ planSteps (restart c) = []
  /\ trace r = [InvalidStepIndex (Some 1)]
  /\ existsb is_step_request (trace r) = false
  /\ result r = inr tt
  /\ schedules (final r) = []
  /\ messages (final r) = messages c.
Proof. vm_compute. repeat split. Qed.

(** The combiner on the two-step plan, the storage accepting. *)
Lemma combiner_clears_the_plan_when_the_storage_accepts :
  knowledge_checked (db Example.combining)
  /\ plan_cleared
       (final (outputCombinedResult Example.answering Example.unparsable
                 Example.accepting Example.combining)).
Proof.
  assert (H : knowledge_checked (db Example.combining)) by constructor.
  split; [exact H|].
  destruct (outputCombinedResult_clears_the_plan_when_the_reply_is_saved
              Example.answering Example.unparsable Example.accepting
              Example.combining H) as (reply & Hok & _).
  apply Hok. reflexivity.
Defined.

(** C4 as stated fails.  The combiner runs on the two-step plan and the
    storage refuses the reply: the error leaves the combiner, the
    knowledge entry has been written, and the four plan fields are
    still set, the processing flag included. *)
Lemma combiner_leaves_the_plan_when_the_storage_refuses :
  let c := Example.combining in
  let r := outputCombinedResult Example.answering Example.unparsable
             Example.refusing c in
  result r = inl StorageError
  /\ planSteps (final r) = Example.two_steps
  /\ stepResults (final r) = [Some "An answer."; Some "An answer."]
  /\ originalPrompt (final r) = Example.prompt
  /\ isProcessingPlan (final r) = true
  /\ List.length (knowledge (db (final r))) = 1%nat
  /\ ~ plan_cleared (final r).
Proof.
  vm_compute. repeat split. intros (H & _). discriminate H.
Qed.

(** ** [trim] *)

Lemma append_assoc (a b c : string) :
  ((a ++ b) ++ c)%string = (a ++ (b ++ c))%string.
Proof. induction a; simpl; congruence. Qed.

Lemma rev_string_onto_app (s acc : string) :
  Js.rev_string_onto s acc = (Js.rev_string s ++ acc)%string.
Proof.
  unfold Js.rev_string. revert acc.
  induction s as [|c s IH]; intros acc; simpl; [reflexivity|].
  rewrite IH, (IH (String c EmptyString)).
  rewrite append_assoc. reflexivity.
Qed.

Lemma append_empty_r (s : string) : (s ++ EmptyString)%string = s.
Proof. induction s; simpl; congruence. Qed.

Lemma rev_string_cons (c : ascii) (s : string) :
  Js.rev_string (String c s) = (Js.rev_string s ++ String c EmptyString)%string.
Proof. unfold Js.rev_string at 1. simpl. apply rev_string_onto_app. Qed.

Lemma rev_string_app (a b : string) :
  Js.rev_string (a ++ b) = (Js.rev_string b ++ Js.rev_string a)%string.
Proof.
  induction a as [|c a IH]; simpl.
  - now rewrite append_empty_r.
  - rewrite !rev_string_cons, IH. now rewrite append_assoc.
Qed.

Lemma rev_string_involutive (s : string) : Js.rev_string (Js.rev_string s) = s.
Proof.
  induction s as [|c s IH]; [reflexivity|].
  rewrite rev_string_cons, rev_string_app, IH. reflexivity.
Qed.

Lemma skip_spaces_no_leading_blank (s : string) :
  no_leading_blank (Js.skip_spaces s).
Proof.
  induction s as [|c s IH]; simpl; [exact I|].
  destruct (Js.is_space c) eqn:E; [exact IH|exact E].
Qed.

Lemma skip_spaces_fixed (s : string) :
  no_leading_blank s -> Js.skip_spaces s = s.
Proof. destruct s as [|c s]; simpl; [reflexivity|]. now intros ->. Qed.

Lemma skip_spaces_split (s : string) :
  exists p, s = (p ++ Js.skip_spaces s)%string /\ all_blank p = true.
Proof.
  induction s as [|c s (p & Hp & Hb)]; simpl.
  - now exists EmptyString.
  - destruct (Js.is_space c) eqn:E.
    + exists (String c p). simpl. rewrite E, Hb. now rewrite <- Hp.
    + now exists EmptyString.
Qed.

Lemma no_leading_blank_app (a b : string) :
  no_leading_blank (a ++ b) -> no_leading_blank a.
Proof. destruct a; simpl; auto. Qed.

Lemma trim_no_leading_blank (s : string) : no_leading_blank (Js.trim s).
Proof.
  unfold Js.trim.
  destruct (skip_spaces_split (Js.rev_string (Js.skip_spaces s))) as (p & Hp & _).
  apply (f_equal Js.rev_string) in Hp.
  rewrite rev_string_involutive, rev_string_app in Hp.
  apply no_leading_blank_app with (b := Js.rev_string p).
  rewrite <- Hp. apply skip_spaces_no_leading_blank.
Qed.

Lemma trim_no_trailing_blank (s : string) :
  no_leading_blank (Js.rev_string (Js.trim s)).
Proof.
  unfold Js.trim. rewrite rev_string_involutive.
  apply skip_spaces_no_leading_blank.
Qed.

Lemma trim_fixed (s : string) :
  no_leading_blank s -> no_leading_blank (Js.rev_string s) -> Js.trim s = s.
Proof.
  intros H1 H2. unfold Js.trim.
  rewrite (skip_spaces_fixed s H1), (skip_spaces_fixed _ H2).
  apply rev_string_involutive.
Qed.

Lemma trim_idempotent (s : string) : Js.trim (Js.trim s) = Js.trim s.
Proof.
  apply trim_fixed; [apply trim_no_leading_blank|apply trim_no_trailing_blank].
Qed.

Lemma rev_string_all_blank (s : string) :
  all_blank s = true -> all_blank (Js.rev_string s) = true.
Proof.
  induction s as [|c s IH]; simpl; [reflexivity|].
  intros H. apply andb_prop in H as [Hc Hs].
  rewrite rev_string_cons.
  specialize (IH Hs). revert IH. generalize (Js.rev_string s).
  induction s0 as [|d s0 IH0]; simpl; intros H.
  - now rewrite Hc.
  - apply andb_prop in H as [Hd H0]. rewrite Hd. simpl. now apply IH0.
Qed.

Lemma skip_spaces_all_blank (s : string) :
  all_blank s = true -> Js.skip_spaces s = EmptyString.
Proof.
  induction s as [|c s IH]; simpl; [reflexivity|].
  intros H. apply andb_prop in H as [Hc Hs]. rewrite Hc. auto.
Qed.

Lemma trim_all_blank (s : string) :
  all_blank s = true -> Js.trim s = EmptyString.
Proof.
  intros H. unfold Js.trim. now rewrite (skip_spaces_all_blank s H).
Qed.

Lemma all_blank_skip (s : string) :
  Js.skip_spaces s = EmptyString -> all_blank s = true.
Proof.
  induction s as [|c s IH]; simpl; [reflexivity|].
  destruct (Js.is_space c); [auto|discriminate].
Qed.

Lemma rev_string_empty (s : string) :
  Js.rev_string s = EmptyString -> s = EmptyString.
Proof.
  intros H. apply (f_equal Js.rev_string) in H.
  now rewrite rev_string_involutive in H.
Qed.

Lemma trim_empty_iff (s : string) :
  Js.trim s = EmptyString <-> all_blank s = true.
Proof.
  split; [|apply trim_all_blank].
  unfold Js.trim. intros H. apply rev_string_empty in H.
  apply all_blank_skip in H. apply rev_string_all_blank in H.
  rewrite rev_string_involutive in H.
  destruct (skip_spaces_split s) as (p & Hp & Hb).
  rewrite Hp. revert H. generalize (Js.skip_spaces s). intros u Hu.
  clear Hp. induction p as [|c p IH]; simpl in *; [exact Hu|].
  apply andb_prop in Hb as [Hc Hb]. rewrite Hc. simpl. auto.
Qed.

Lemma piece_of_refl (s : string) : piece_of s s.
Proof. exists EmptyString, EmptyString. simpl. now rewrite append_empty_r. Qed.

Lemma piece_of_trans (a b c : string) :
  piece_of a b -> piece_of b c -> piece_of a c.
Proof.
  intros (p1 & q1 & ->) (p2 & q2 & ->).
  exists (p2 ++ p1)%string, (q1 ++ q2)%string.
  now rewrite !append_assoc.
Qed.

Lemma piece_of_suffix (p s : string) : piece_of s (p ++ s).
Proof. exists p, EmptyString. now rewrite append_empty_r. Qed.

Lemma piece_of_prefix (s q : string) : piece_of s (s ++ q).
Proof. now exists EmptyString, q. Qed.

Lemma strip_prefix_ci_suffix (p s rest : string) :
  Js.strip_prefix_ci p s = Some rest -> exists pre, s = (pre ++ rest)%string.
Proof.
  revert s. induction p as [|a p IH]; intros s; simpl.
  - intros [= ->]. now exists EmptyString.
  - destruct s as [|b s]; [discriminate|].
    destruct (Ascii.eqb (Js.lower a) (Js.lower b)); [|discriminate].
    intros H. destruct (IH _ H) as (pre & ->). now exists (String b pre).
Qed.

Lemma strip_first_alt_ci_suffix (alts : list string) (s rest : string) :
  Js.strip_first_alt_ci alts s = Some rest -> exists pre, s = (pre ++ rest)%string.
Proof.
  induction alts as [|p alts IH]; simpl; [discriminate|].
  destruct (Js.strip_prefix_ci p s) eqn:E; [|exact IH].
  intros [= <-]. eapply strip_prefix_ci_suffix; eassumption.
Qed.

Lemma cut_from_phrase_prefix (alts : list string) (s : string) :
  exists post, s = (cut_from_phrase alts s ++ post)%string.
Proof.
  induction s as [|c s (post & IH)].
  - exists EmptyString. simpl. now destruct (tail_matches alts EmptyString).
  - simpl. destruct (tail_matches alts (String c s)).
    + now exists (String c s).
    + exists post. simpl. now rewrite <- IH.
Qed.

Lemma cut_question_marks_prefix (s : string) :
  exists post, s = (cut_question_marks s ++ post)%string.
Proof.
  induction s as [|c s (post & IH)].
  - exists EmptyString. simpl. now destruct (question_tail EmptyString).
  - simpl. destruct (question_tail (String c s)).
    + now exists (String c s).
    + exists post. simpl. now rewrite <- IH.
Qed.

Lemma trim_piece (s : string) : piece_of (Js.trim s) s.
Proof.
  destruct (skip_spaces_split s) as (p & Hp & _).
  destruct (skip_spaces_split (Js.rev_string (Js.skip_spaces s))) as (q & Hq & _).
  apply (f_equal Js.rev_string) in Hq.
  rewrite rev_string_involutive, rev_string_app in Hq.
  exists p, (Js.rev_string q). unfold Js.trim. now rewrite <- Hq.
Qed.

(** X1: a result of [extractTopicFromPrompt] has the subject General and a
    topic that is a contiguous piece of the prompt, equal to its own trim
    and at least two characters long; a prompt of blanks only gives [null]. *)
Theorem extractTopicFromPrompt_cuts_a_trimmed_piece (prompt : string) :
  match extractTopicFromPrompt prompt with
  | Some (subject, topic) =>
      subject = "General"
      /\ piece_of topic prompt
      /\ Js.trim topic = topic
      /\ (2 <= String.length topic)%nat
  | None => True
  end
  /\ (all_blank prompt = true -> extractTopicFromPrompt prompt = None).
Proof.
  unfold extractTopicFromPrompt.
  set (s1 := match Js.strip_first_alt_ci question_prefixes prompt with
             | Some rest => Js.skip_spaces rest
             | None => prompt
             end).
  set (cut := cut_question_marks (cut_from_phrase filler_phrases s1)).
  assert (Hs1 : piece_of s1 prompt).
  { unfold s1. destruct (Js.strip_first_alt_ci question_prefixes prompt) eqn:E.
    - destruct (strip_first_alt_ci_suffix _ _ _ E) as (pre & ->).
      destruct (skip_spaces_split s) as (p & Hp & _).
      rewrite Hp at 2. rewrite <- append_assoc. apply piece_of_suffix.
    - apply piece_of_refl. }
  assert (Hcut : piece_of cut s1).
  { unfold cut.
    destruct (cut_from_phrase_prefix filler_phrases s1) as (post1 & H1).
    destruct (cut_question_marks_prefix (cut_from_phrase filler_phrases s1))
      as (post2 & H2).
    rewrite H1 at 2. rewrite H2 at 2. rewrite append_assoc.
    apply piece_of_prefix. }
  split.
  - destruct (String.length (Js.trim cut) <? 2)%nat eqn:E; [exact I|].
    apply Nat.ltb_ge in E.
    repeat split; [|apply trim_idempotent|exact E].
    eapply piece_of_trans; [apply trim_piece|].
    eapply piece_of_trans; eassumption.
  - intros Hb.
    assert (Hall : forall t, piece_of t prompt -> all_blank t = true).
    { intros t (pre & post & Ht). rewrite Ht in Hb. clear Ht.
      induction pre as [|c pre IH]; simpl in Hb.
      - clear -Hb. induction t as [|c t IH]; simpl in *; [reflexivity|].
        apply andb_prop in Hb as [-> Hb]. simpl. auto.
      - apply andb_prop in Hb as [_ Hb]. auto. }
    rewrite (trim_all_blank cut); [reflexivity|].
    apply Hall. eapply piece_of_trans; eassumption.
Qed.

Section PlanRunFacts.

Variable ai : ai_request -> option jsval.
Variable parse : string -> option jsval.
Variable show : jsval -> string.
Variable store : list UIMessage -> bool.

Lemma inferSubjectTopicFromAI_value (prompt : string) (c : Chat) :
  inferSubjectTopicFromAI ai parse prompt c
  = Outcome c [Inference (InferRequest (Js.take 300 prompt))]
            (inr (inferred_topic ai parse prompt)).
Proof.
  unfold inferSubjectTopicFromAI, inferred_topic, topic_of_answer,
    try_catch, infer, bind, emit, ret, throw.
  cbn [result final trace].
  destruct (ai (InferRequest (Js.take 300 prompt))) as [v|]; cbn; [|reflexivity].
  destruct (raw_response v); cbn; try reflexivity.
  destruct (Js.match_delimited _ _ _); cbn; [|reflexivity].
  destruct (parse _) as [p|]; cbn; [|reflexivity].
  destruct (prop p "subject"); cbn; try reflexivity.
  destruct (prop p "topic"); cbn; reflexivity.
Qed.

(** The combiner, step by step: the knowledge update of the tracked
    topic, then the save of the reply, then the reset. *)
Lemma outputCombinedResult_value (c : Chat) :
  knowledge_checked (db c) ->
  let info := tracked_topic ai parse (originalPrompt c) in
  exists d',
    match info with
    | Some (subject, topic) =>
        updateKnowledge
          (tracking_update (List.length (planSteps c)) subject topic) c
        = Outcome (with_db c d') [] (inr tt)
    | None => d' = db c
    end
    /\ let reply :=
         {| role := assistant;
            text := (combine_results (planSteps c) (stepResults c)
                     ++ tracking_message info)%string |} in
       outputCombinedResult ai parse store c
       = if store (messages c ++ [reply])
         then Outcome (fresh_instance d' (messages c ++ [reply])
                                      (schedules c) (clock c))
                      (tracking_trace ai parse (originalPrompt c)) (inr tt)
         else Outcome (with_db c d')
                      (tracking_trace ai parse (originalPrompt c))
                      (inl StorageError).
Proof.
  intros Hc info.
  unfold outputCombinedResult, bind, get. cbn [result final trace].
  rewrite inferSubjectTopicFromAI_value. cbn [result final trace].
  unfold tracking_trace. subst info. unfold tracked_topic.
  destruct (match inferred_topic ai parse (originalPrompt c) with
            | Some i => Some i
            | None => extractTopicFromPrompt (originalPrompt c)
            end) as [[subject topic]|].
  - fold (tracking_update (List.length (planSteps c)) subject topic).
    destruct (updateKnowledge_succeeds c
                (tracking_update (List.length (planSteps c)) subject topic) Hc)
      as (d' & Hup); [reflexivity|exact I|].
    exists d'. split; [exact Hup|].
    rewrite Hup. cbn [result final trace emit ret app tracking_message].
    unfold saveMessages, set_plan. cbn [messages with_db].
    destruct (store _); reflexivity.
  - exists (db c). split; [reflexivity|].
    unfold ret, saveMessages, set_plan.
    cbn [result final trace messages tracking_message app].
    destruct (store _); [reflexivity|]. destruct c; reflexivity.
Qed.

(** X2: when the combiner finds a subject and topic for the original
    prompt, the knowledge table then has an entry of that topic with
    mastery 50, last studied now and the note on the number of steps; an
    entry that was there keeps its id, confidence, counters and weak areas
    (so its mastery is overwritten, and its study count is not raised), a
    new one has them at their defaults. *)
Theorem outputCombinedResult_files_the_topic_at_50 (c : Chat)
  (subject topic : string) :
  knowledge_checked (db c) ->
  tracked_topic ai parse (originalPrompt c) = Some (subject, topic) ->
  let r := outputCombinedResult ai parse store c in
  let prior := hd_error (Sql.select_topic (db c) subject topic) in
  exists e',
    hd_error (Sql.select_topic (db (final r)) subject topic) = Some e'
    /\ k_mastery_level e' = 50
    /\ k_last_studied e' = Some (clock c)
    /\ k_notes e' = Some ("Learned via "
                          ++ Js.show_nat (List.length (planSteps c))
                          ++ "-step explanation")%string
    /\ match prior with
       | Some e =>
           k_id e' = k_id e
           /\ k_confidence e' = k_confidence e
           /\ k_times_studied e' = k_times_studied e
           /\ k_times_quizzed e' = k_times_quizzed e
           /\ k_last_quizzed e' = k_last_quizzed e
           /\ k_weak_areas e' = k_weak_areas e
       | None =>
           k_confidence e' = 0
           /\ k_times_studied e' = 0
           /\ k_times_quizzed e' = 0
           /\ k_last_quizzed e' = None
           /\ k_weak_areas e' = None
       end.
Proof.
  intros Hc Hinfo r prior.
  destruct (outputCombinedResult_value c Hc) as (d' & Hup & Hrun).
  rewrite Hinfo in Hup, Hrun. cbv zeta in Hrun.
  assert (Hdb : db (final r) = d').
  { subst r. rewrite Hrun. destruct (store _); reflexivity. }
  rewrite Hdb. clear Hrun Hdb r.
  set (data := tracking_update (List.length (planSteps c)) subject topic) in *.
  subst prior.
  destruct (hd_error (Sql.select_topic (db c) subject topic)) as [e|] eqn:He.
  - rewrite (updateKnowledge_existing c data e Hc He) in Hup;
      [|reflexivity|exact I].
    apply (f_equal (fun o => db (final o))) in Hup. cbn in Hup. subst d'.
    unfold Sql.select_topic. cbn [knowledge Sql.with_knowledge].
    change (kd_subject data) with subject.
    change (kd_topic data) with topic.
    rewrite hd_select_on_topic
      by (apply harmless_knowledge_setter; [reflexivity|exact I]).
    unfold Sql.select_topic in He. rewrite He. cbn [option_map].
    eexists. split; [reflexivity|]. destruct e; cbn. repeat split.
  - destruct (updateKnowledge_fresh c data He) as (d2 & Hrun & Hk & _);
      [reflexivity|reflexivity|].
    rewrite Hrun in Hup.
    apply (f_equal (fun o => db (final o))) in Hup. cbn in Hup. subst d2.
    unfold Sql.select_topic. rewrite Hk.
    rewrite hd_select_after_insert.
    + eexists. split; [reflexivity|]. cbn. repeat split.
    + exact He.
    + unfold Sql.same_key. cbn. now rewrite !String.eqb_refl.
Qed.

End PlanRunFacts.

(** The combiner on the two-step plan of [Example.combining]. *)
Lemma combiner_files_recursion_under_General :
  let c := Example.combining in
  (knowledge_checked (db c)
   /\ tracked_topic Example.answering Example.unparsable (originalPrompt c)
      = Some ("General", "recursion"))
  /\ exists e',
       hd_error (Sql.select_topic
                   (db (final (outputCombinedResult Example.answering
                                 Example.unparsable Example.accepting c)))
                   "General" "recursion") = Some e'
       /\ k_mastery_level e' = 50
       /\ k_times_studied e' = 0.
Proof.
  intros c.
  assert (H1 : knowledge_checked (db c)) by constructor.
  assert (H2 : tracked_topic Example.answering Example.unparsable
                 (originalPrompt c) = Some ("General", "recursion"))
    by (vm_compute; reflexivity).
  split; [split; assumption|].
  destruct (outputCombinedResult_files_the_topic_at_50
              Example.answering Example.unparsable Example.accepting
              c "General" "recursion" H1 H2)
    as (e' & He & Hm & _ & _ & Hp).
  exists e'. split; [exact He|]. split; [exact Hm|].
  exact (proj1 (proj2 Hp)).
Defined.

Lemma array_set_app {A} (l rest : list (option A)) (x : option A) (v : A) :
  Js.array_set (List.length l) v (l ++ x :: rest) = l ++ Some v :: rest.
Proof. induction l as [|y l IH]; simpl; [reflexivity|]. now rewrite IH. Qed.

Lemma firstn_succ_nth {A} (l : list A) (k : nat) (x : A) :
  nth_error l k = Some x -> firstn (S k) l = firstn k l ++ [x].
Proof.
  revert l. induction k as [|k IH]; intros [|y l] H; try discriminate.
  - injection H as ->. reflexivity.
  - change (y :: firstn (S k) l = y :: (firstn k l ++ [x])).
    f_equal. now apply IH.
Qed.

Lemma skipn_nth {A} (l : list A) (k : nat) (x : A) :
  nth_error l k = Some x -> skipn k l = x :: skipn (S k) l.
Proof.
  revert l. induction k as [|k IH]; intros [|y l] H; try discriminate.
  - injection H as ->. reflexivity.
  - change (skipn k l = x :: skipn (S k) l). now apply IH.
Qed.

Section PlanCompletion.

Variable ai : ai_request -> option jsval.
Variable parse : string -> option jsval.
Variable show : jsval -> string.
Variable store : list UIMessage -> bool.

Variable c : Chat.
Variable prompt : string.
Variable plan : list string.

Hypothesis plan_long : (2 <= List.length plan)%nat.
Hypothesis steps_not_empty : Forall (fun s => s <> EmptyString) plan.
Hypothesis model_answers :
  forall i, (i < List.length plan)%nat -> step_reply ai show plan prompt i <> None.
Hypothesis storage_accepts : forall ms, store ms = true.
Hypothesis rows_checked : knowledge_checked (db c).
Hypothesis nothing_scheduled : schedules c = [].

Let N := List.length plan.
Let replies := step_replies ai show plan prompt.
Let request (step : string) (i : nat) : event :=
  Inference (StepRequest (i + 1) N prompt
               (if (0 <? i)%nat then Js.join ", " (firstn i plan)
                else EmptyString)
               step).

(** The agent between two steps: [k] steps answered, step [k] due. *)
Let between (k : nat) : Chat :=
  with_schedules
    (with_results (plan_started c prompt plan)
       (firstn k replies ++ repeat (Some EmptyString) (N - k)))
    [continuation k].

Lemma replies_length : List.length replies = N.
Proof. unfold replies, step_replies. now rewrite length_map, length_seq. Qed.

Lemma replies_nth (k : nat) :
  (k < N)%nat -> nth_error replies k = Some (step_reply ai show plan prompt k).
Proof.
  intros H. unfold replies, step_replies.
  rewrite nth_error_map, nth_error_seq.
  destruct (Nat.ltb_spec k (List.length plan)); [reflexivity|]. unfold N in H. lia.
Qed.

Lemma between_0 : plan_started c prompt plan = between 0.
Proof.
  unfold between, plan_started, with_schedules, with_results, with_messages,
    with_plan. cbn. rewrite nothing_scheduled, Nat.sub_0_r. reflexivity.
Qed.

Lemma tick (k : nat) (step : string) :
  nth_error plan k = Some step ->
  exists a,
    nth_error replies k = Some (Some a)
    /\ run_next_schedule ai parse show store (between k)
       = if (k + 1 <? N)%nat
         then Outcome (between (k + 1)) [request step k] (inr tt)
         else let c1 := with_results (with_schedules (between k) [])
                          replies in
              let r := outputCombinedResult ai parse store c1 in
              Outcome (final r) (request step k :: trace r) (result r).
Proof.
  intros Hn.
  assert (Hk : (k < N)%nat) by (apply nth_error_Some; congruence).
  assert (Hne : step <> EmptyString).
  { apply nth_error_In in Hn.
    now apply (proj1 (Forall_forall _ _) steps_not_empty). }
  pose proof (model_answers k Hk) as Ha.
  pose proof (replies_nth k Hk) as Hr.
  unfold step_reply in Ha, Hr. rewrite Hn in Ha, Hr.
  destruct (ai (StepRequest (k + 1) (List.length plan) prompt
                  (if (0 <? k)%nat then Js.join ", " (firstn k plan)
                   else EmptyString) step)) as [v|] eqn:Hv;
    [|now elim Ha].
  cbn [option_map] in Hr. exists (response_text show v). split; [exact Hr|].
  rewrite (run_next_schedule_head ai parse show store (between k)
             (continuation k) []) by reflexivity.
  cbn [payload continuation].
  rewrite (executeTask_runs ai parse show store k _ step v);
    [|exact Hn|exact Hne|exact Hv].
  change (planSteps (with_schedules (between k) [])) with plan.
  fold N.
  assert (Hset : Js.array_set k (response_text show v)
                   (firstn k replies ++ repeat (Some EmptyString) (N - k))
                 = firstn (k + 1) replies
                   ++ repeat (Some EmptyString) (N - (k + 1))).
  { replace (N - k)%nat with (S (N - (k + 1))) by lia. cbn [repeat].
    assert (Hl : List.length (firstn k replies) = k).
    { rewrite length_firstn, replies_length. lia. }
    rewrite <- Hl at 1. rewrite array_set_app.
    rewrite Nat.add_1_r, (firstn_succ_nth _ _ _ Hr), <- app_assoc.
    reflexivity. }
  destruct (k + 1 <? N)%nat eqn:E.
  - unfold between at 1. unfold with_schedules, with_results, with_plan.
    cbn. f_equal. unfold between, with_schedules, with_results, with_plan.
    cbn. rewrite Hset. reflexivity.
  - apply Nat.ltb_ge in E. assert (k + 1 = N)%nat by lia.
    assert (Hfull : Js.array_set k (response_text show v)
                      (firstn k replies ++ repeat (Some EmptyString) (N - k))
                    = replies).
    { rewrite Hset. replace (N - (k + 1))%nat with 0%nat by lia.
      cbn [repeat]. rewrite app_nil_r, H, <- replies_length.
      apply firstn_all. }
    cbv zeta.
    unfold between, with_schedules, with_results, with_plan. cbn.
    rewrite Hfull. reflexivity.
Qed.

(** The agent when the last step has been answered, and the run of the
    combiner from there. *)
Let answered : Chat :=
  with_results (with_schedules (between (N - 1)) []) replies.

Let combined := outputCombinedResult ai parse store answered.

Let reply : UIMessage :=
  {| role := assistant;
     text := (combine_results plan replies
              ++ tracking_message (tracked_topic ai parse prompt))%string |}.

Lemma combined_value :
  combined
  = Outcome (fresh_instance (db (final combined))
               (messages c ++ [acknowledgment plan; reply]) [] (clock c))
            (tracking_trace ai parse prompt) (inr tt).
Proof.
  destruct (outputCombinedResult_value ai parse store answered rows_checked)
    as (d' & _ & H).
  cbv zeta in H. rewrite storage_accepts in H.
  unfold combined. rewrite H. cbn [final db fresh_instance].
  change (messages answered) with (messages c ++ [acknowledgment plan]).
  rewrite <- app_assoc. reflexivity.
Qed.

Lemma run_from (j k : nat) :
  (k + S j = N)%nat ->
  run_schedule ai parse show store (S j) (between k)
  = Outcome (final combined)
            (mapi_from k request (skipn k plan) ++ trace combined) (inr tt).
Proof.
  revert k. induction j as [|j IH]; intros k Hk.
  - destruct (nth_error plan k) as [step|] eqn:Hn;
      [|apply nth_error_None in Hn; unfold N in Hk; lia].
    destruct (tick k step Hn) as (a & _ & Ht).
    destruct (Nat.ltb_spec (k + 1) N) as [Hlt|_]; [lia|].
    cbv zeta in Ht. replace k with (N - 1)%nat in Ht at 2 by lia.
    fold answered in Ht. fold combined in Ht.
    assert (Hrun : run_next_schedule ai parse show store (between k)
                   = Outcome (final combined)
                             (request step k :: trace combined) (inr tt)).
    { rewrite Ht. f_equal. exact (f_equal result combined_value). }
    cbn [run_schedule]. rewrite (bind_run _ _ _ _ _ _ Hrun).
    cbn [ret final trace result]. rewrite app_nil_r.
    rewrite (skipn_nth _ _ _ Hn), skipn_all2 by (fold N; lia).
    reflexivity.
  - destruct (nth_error plan k) as [step|] eqn:Hn;
      [|apply nth_error_None in Hn; unfold N in Hk; lia].
    destruct (tick k step Hn) as (a & _ & Ht).
    destruct (Nat.ltb_spec (k + 1) N) as [_|Hge]; [|lia].
    change (run_schedule ai parse show store (S (S j)))
      with (bind (run_next_schedule ai parse show store)
                 (fun _ => run_schedule ai parse show store (S j))).
    rewrite (bind_run _ _ _ _ _ _ Ht).
    rewrite (IH (k + 1)%nat) by lia.
    cbn [final trace result]. rewrite (skipn_nth _ _ _ Hn).
    rewrite Nat.add_1_r. reflexivity.
Qed.

Lemma run_whole_plan :
  let started := final (onChatMessage_plan store prompt plan c) in
  run_schedule ai parse show store N started
  = Outcome (final combined)
            (step_requests plan prompt ++ tracking_trace ai parse prompt)
            (inr tt).
Proof.
  rewrite (onChatMessage_plan_starts store c prompt plan plan_long)
    by apply storage_accepts.
  cbn [final]. rewrite between_0.
  replace (run_schedule ai parse show store N)
    with (run_schedule ai parse show store (S (N - 1)))
    by (f_equal; unfold N; lia).
  rewrite (run_from (N - 1) 0) by (unfold N; lia).
  f_equal. f_equal. exact (f_equal trace combined_value).
Qed.

End PlanCompletion.

(** X3: a plan of at least two non-empty steps, started by [onChatMessage]
    with nothing else scheduled, a model that answers every step and a
    storage that accepts every save, is run to its end by as many
    deliveries of the scheduler as it has steps: one request per step in
    order, then the topic inference; the plan fields are cleared, nothing
    stays scheduled, and the conversation gains exactly the acknowledgment
    and the combined reply. *)
Theorem started_plan_runs_to_completion
  (ai : ai_request -> option jsval) (parse : string -> option jsval)
  (show : jsval -> string) (store : list UIMessage -> bool)
  (c : Chat) (prompt : string) (plan : list string) :
  (2 <= List.length plan)%nat ->
  Forall (fun s => s <> EmptyString) plan ->
  (forall i, (i < List.length plan)%nat ->
             step_reply ai show plan prompt i <> None) ->
  (forall ms, store ms = true) ->
  knowledge_checked (db c) ->
  schedules c = [] ->
  let started := final (onChatMessage_plan store prompt plan c) in
  let r := run_schedule ai parse show store (List.length plan) started in
  result r = inr tt
  /\ trace r = step_requests plan prompt ++ tracking_trace ai parse prompt
  /\ plan_cleared (final r)
  /\ schedules (final r) = []
  /\ messages (final r)
     = messages c
       ++ [acknowledgment plan;
           {| role := assistant;
              text := (combine_results plan (step_replies ai show plan prompt)
                       ++ tracking_message (tracked_topic ai parse prompt))
                      %string |}].
Proof.
  intros H1 H2 H3 H4 H5 H6 started r. subst r started.
  rewrite (run_whole_plan ai parse show store c prompt plan H1 H2 H3 H4 H5 H6).
  cbn [result trace final].
  rewrite (combined_value ai parse show store c prompt plan H4 H5).
  cbn [final]. repeat split.
Qed.

(** The two-step plan of [Example.two_steps] on a new object. *)
Lemma two_step_plan_runs_to_completion :
  let plan := Example.two_steps in
  let c := Example.idle in
  ((2 <= List.length plan)%nat
   /\ Forall (fun s => s <> EmptyString) plan
   /\ (forall i, (i < List.length plan)%nat ->
                 step_reply Example.answering Example.printing plan
                   Example.prompt i <> None)
   /\ (forall ms, Example.accepting ms = true)
   /\ knowledge_checked (db c)
   /\ schedules c = [])
  /\ let r := run_schedule Example.answering Example.unparsable
                Example.printing Example.accepting 2
                (final (onChatMessage_plan Example.accepting Example.prompt
                          plan c)) in
     result r = inr tt /\ plan_cleared (final r)
     /\ List.length (messages (final r)) = 2%nat.
Proof.
  intros plan c.
  assert (H1 : (2 <= List.length plan)%nat) by (simpl; lia).
  assert (H2 : Forall (fun s => s <> EmptyString) plan)
    by (repeat constructor; discriminate).
  assert (H3 : forall i, (i < List.length plan)%nat ->
                 step_reply Example.answering Example.printing plan
                   Example.prompt i <> None).
  { intros [|[|i]] Hi; [discriminate|discriminate|simpl in Hi; lia]. }
  assert (H4 : forall ms, Example.accepting ms = true) by reflexivity.
  assert (H5 : knowledge_checked (db c)) by constructor.
  assert (H6 : schedules c = []) by reflexivity.
  split; [repeat (split; [assumption|]); assumption|].
  destruct (started_plan_runs_to_completion
              Example.answering Example.unparsable Example.printing
              Example.accepting c Example.prompt plan H1 H2 H3 H4 H5 H6)
    as (Hr & _ & Hp & _ & Hm).
  split; [exact Hr|]. split; [exact Hp|].
  change (List.length plan) with 2%nat in Hm. rewrite Hm. reflexivity.
Defined.

Lemma updateUserProfile_run (data : UserProfileData) (c : Chat) :
  exists d',
    updateUserProfile data c = Outcome (with_db c d') [] (inr tt)
    /\ user_profile d' = Some (profile_after data (clock c) (user_profile (db c)))
    /\ session_preferences d' = session_preferences (db c)
    /\ knowledge d' = knowledge (db c)
    /\ quiz_history d' = quiz_history (db c)
    /\ study_sessions d' = study_sessions (db c)
    /\ seq_knowledge d' = seq_knowledge (db c)
    /\ seq_quiz_history d' = seq_quiz_history (db c)
    /\ seq_study_sessions d' = seq_study_sessions (db c).
Proof.
  unfold updateUserProfile, getUserProfile, query, now, bind.
  cbn [result final trace app].
  destruct (user_profile (db c)) as [p|] eqn:Hp.
  - unfold update_profile_column, sql, ret, bind.
    destruct data as [n m y l]. cbn [pd_name pd_major pd_year
      pd_preferredLearningMethods profile_after given_or].
    destruct n, m, y, l; cbn; rewrite ?Hp; cbn;
      (eexists; split; [reflexivity|]); cbn; rewrite ?Hp; cbn;
      destruct p; repeat split; reflexivity.
  - unfold sql, Queries.insert_profile. rewrite Hp. cbn.
    eexists; split; [reflexivity|]. cbn. repeat split; reflexivity.
Qed.

(** X4: [updateUserProfile] always succeeds; the profile read back has the
    given fields, keeps the stored value of every field that was not given,
    and has last_active at the time of the call; the other tables, the plan
    and the conversation are untouched. *)
Theorem updateUserProfile_keeps_what_was_not_given
  (data : UserProfileData) (c : Chat) :
  let r := updateUserProfile data c in
  result r = inr tt
  /\ result (getUserProfile (final r))
     = inr (Some (profile_after data (clock c) (user_profile (db c))))
  /\ session_preferences (db (final r)) = session_preferences (db c)
  /\ knowledge (db (final r)) = knowledge (db c)
  /\ quiz_history (db (final r)) = quiz_history (db c)
  /\ study_sessions (db (final r)) = study_sessions (db c)
  /\ same_plan c (final r)
  /\ messages (final r) = messages c.
Proof.
  intros r. subst r.
  destruct (updateUserProfile_run data c) as (d' & -> & Hp & H1 & H2 & H3 & H4 & _).
  cbn. rewrite Hp. repeat split; assumption.
Qed.

(** ** Session preferences *)

Lemma update_if_defined_run {A} (x : js_opt A) set (c : Chat) (d : Database)
  (p : SessionPreferences) :
  keeps_checks (set (or_null x)) -> Sql.check_preferences p = true ->
  update_if_defined x set (with_db c (Sql.with_preferences d (Some p)))
  = Outcome (with_db c (Sql.with_preferences d (Some (apply_defined x set p))))
            [] (inr tt).
Proof.
  intros Hk Hp. unfold update_if_defined, apply_defined, when.
  destruct (is_defined x); [|reflexivity].
  unfold sql, Sql.update_preferences. cbn. rewrite (Hk p Hp). reflexivity.
Qed.

Lemma apply_defined_checked {A} (x : js_opt A) set p :
  keeps_checks (set (or_null x)) -> Sql.check_preferences p = true ->
  Sql.check_preferences (apply_defined x set p) = true.
Proof. intros Hk Hp. unfold apply_defined. destruct (is_defined x); auto. Qed.

Lemma update_if_defined_then {A B} (x : js_opt A) set (k : M B) c d p :
  keeps_checks (set (or_null x)) -> Sql.check_preferences p = true ->
  bind (update_if_defined x set) (fun _ => k)
       (with_db c (Sql.with_preferences d (Some p)))
  = k (with_db c (Sql.with_preferences d (Some (apply_defined x set p)))).
Proof.
  intros Hk Hp. now rewrite (bind_ok _ _ _ _ _ (update_if_defined_run x set c d p Hk Hp)).
Qed.

Ltac plain_setter :=
  let p := fresh "p" in
  intros p; destruct p; unfold Sql.check_preferences; cbn; auto.

Lemma keeps_set_learn_topic v : keeps_checks (set_learn_topic v).
Proof. plain_setter. Qed.
Lemma keeps_set_learn_concept v : keeps_checks (set_learn_concept v).
Proof. plain_setter. Qed.
Lemma keeps_set_exam_name v : keeps_checks (set_exam_name v).
Proof. plain_setter. Qed.
Lemma keeps_set_exam_time_left v : keeps_checks (set_exam_time_left v).
Proof. plain_setter. Qed.
Lemma keeps_set_quiz_topic v : keeps_checks (set_quiz_topic v).
Proof. plain_setter. Qed.
Lemma keeps_set_quiz_num_questions v : keeps_checks (set_quiz_num_questions v).
Proof. plain_setter. Qed.
Lemma keeps_set_quiz_hints_allowed v : keeps_checks (set_quiz_hints_allowed v).
Proof. plain_setter. Qed.
Lemma keeps_set_onboarding_complete v : keeps_checks (set_onboarding_complete v).
Proof. plain_setter. Qed.

Lemma check_in_or_null valid (x : js_opt string) :
  outside valid x = false -> Sql.check_in valid (or_null x) = true.
Proof.
  destruct x as [| |v]; cbn; try reflexivity.
  now destruct (Js.includes valid v).
Qed.

Lemma keeps_set_goal x :
  outside Goal_values x = false -> keeps_checks (set_goal (or_null x)).
Proof.
  intros H p. destruct p. unfold Sql.check_preferences. cbn.
  rewrite (check_in_or_null _ _ H). intros Hc.
  apply andb_prop in Hc as [Hc H3]. apply andb_prop in Hc as [_ H2].
  now rewrite H2, H3.
Qed.

Lemma keeps_set_exam_depth x :
  outside ExamDepth_values x = false -> keeps_checks (set_exam_depth (or_null x)).
Proof.
  intros H p. destruct p. unfold Sql.check_preferences. cbn.
  rewrite (check_in_or_null _ _ H). intros Hc.
  apply andb_prop in Hc as [Hc H3]. apply andb_prop in Hc as [H1 _].
  now rewrite H1, H3.
Qed.

Lemma keeps_set_quiz_type x :
  outside QuizType_values x = false -> keeps_checks (set_quiz_type (or_null x)).
Proof.
  intros H p. destruct p. unfold Sql.check_preferences. cbn.
  rewrite (check_in_or_null _ _ H). intros Hc.
  apply andb_prop in Hc as [Hc _]. now rewrite Hc.
Qed.

Lemma apply_defined_after {A} (x : js_opt A)
  (set : option A -> SessionPreferences -> SessionPreferences)
  (get : SessionPreferences -> option A) p :
  (forall v q, get (set v q) = v) ->
  get (apply_defined x set p) = column_after x (get p).
Proof. intros H. unfold apply_defined. destruct x; cbn; auto. Qed.

Lemma apply_defined_other {A B} (x : js_opt A)
  (set : option A -> SessionPreferences -> SessionPreferences)
  (get : SessionPreferences -> B) p :
  (forall v q, get (set v q) = get q) ->
  get (apply_defined x set p) = get p.
Proof. intros H. unfold apply_defined. destruct (is_defined x); auto. Qed.

Lemma preferences_ext (p q : SessionPreferences) :
  sp_goal p = sp_goal q -> sp_learn_topic p = sp_learn_topic q ->
  sp_learn_concept p = sp_learn_concept q -> sp_exam_name p = sp_exam_name q ->
  sp_exam_depth p = sp_exam_depth q ->
  sp_exam_time_left p = sp_exam_time_left q ->
  sp_quiz_topic p = sp_quiz_topic q ->
  sp_quiz_num_questions p = sp_quiz_num_questions q ->
  sp_quiz_type p = sp_quiz_type q ->
  sp_quiz_hints_allowed p = sp_quiz_hints_allowed q ->
  sp_onboarding_complete p = sp_onboarding_complete q ->
  sp_created_at p = sp_created_at q -> p = q.
Proof. destruct p, q; cbn; intros; subst; reflexivity. Qed.

Ltac peel get :=
  repeat first
    [ rewrite (apply_defined_other _ _ get) by (intros; reflexivity)
    | rewrite (apply_defined_after _ _ get) by (intros; reflexivity) ].

Lemma preferences_setter_after data t p :
  preferences_setter data p = preferences_after data t (Some p).
Proof.
  unfold preferences_setter.
  apply preferences_ext; cbn [preferences_after sp_goal sp_learn_topic
    sp_learn_concept sp_exam_name sp_exam_depth sp_exam_time_left
    sp_quiz_topic sp_quiz_num_questions sp_quiz_type sp_quiz_hints_allowed
    sp_onboarding_complete sp_created_at].
  - peel sp_goal. reflexivity.
  - peel sp_learn_topic. reflexivity.
  - peel sp_learn_concept. reflexivity.
  - peel sp_exam_name. reflexivity.
  - peel sp_exam_depth. reflexivity.
  - peel sp_exam_time_left. reflexivity.
  - peel sp_quiz_topic. reflexivity.
  - peel sp_quiz_num_questions. reflexivity.
  - peel sp_quiz_type. reflexivity.
  - peel sp_quiz_hints_allowed. reflexivity.
  - peel sp_onboarding_complete. reflexivity.
  - peel sp_created_at. reflexivity.
Qed.

Lemma with_preferences_same (c : Chat) (p : SessionPreferences) :
  session_preferences (db c) = Some p ->
  with_db c (Sql.with_preferences (db c) (Some p)) = c.
Proof.
  destruct c as [a b e f d m s k]. destruct d. cbn. intros ->. reflexivity.
Qed.

Lemma valid_enums (data : SessionPreferencesData) :
  invalid_enum (UpdateSessionPreferences data) = false ->
  outside Goal_values (goal data) = false
  /\ outside ExamDepth_values (examDepth data) = false
  /\ outside QuizType_values (quizType data) = false.
Proof.
  cbn [invalid_enum]. intros H.
  apply orb_false_elim in H as [H H3]. apply orb_false_elim in H as [H1 H2].
  auto.
Qed.

Lemma validate_enum_passes field valid x c :
  outside valid x = false -> validate_enum field valid x c = Outcome c [] (inr tt).
Proof.
  intros H. destruct (validate_enum_cases field valid x c) as [[_ E]|[E _]];
    [exact E|congruence].
Qed.

Lemma updateSessionPreferences_run (data : SessionPreferencesData) (c : Chat) :
  invalid_enum (UpdateSessionPreferences data) = false ->
  preferences_checked (db c) ->
  updateSessionPreferences data c
  = Outcome (with_db c (preferences_stored data c)) [] (inr tt).
Proof.
  intros Hv Hc. destruct (valid_enums data Hv) as (Hg & Hd & Hq).
  unfold updateSessionPreferences.
  rewrite (bind_ok _ _ _ _ _ (validate_enum_passes _ _ _ c Hg)).
  rewrite (bind_ok _ _ _ _ _ (validate_enum_passes _ _ _ c Hd)).
  rewrite (bind_ok _ _ _ _ _ (validate_enum_passes _ _ _ c Hq)).
  rewrite (bind_ok _ _ c c (session_preferences (db c))) by reflexivity.
  unfold preferences_stored, preferences_checked in *.
  destruct (session_preferences (db c)) as [p|] eqn:Hp.
  - rewrite <- (with_preferences_same c p Hp) at 1.
    assert (Kg := keeps_set_goal _ Hg).
    assert (Kd := keeps_set_exam_depth _ Hd).
    assert (Kq := keeps_set_quiz_type _ Hq).
    repeat (rewrite update_if_defined_then;
            [|first [assumption|apply keeps_set_learn_topic
                    |apply keeps_set_learn_concept|apply keeps_set_exam_name
                    |apply keeps_set_exam_time_left|apply keeps_set_quiz_topic
                    |apply keeps_set_quiz_num_questions
                    |apply keeps_set_quiz_hints_allowed]
             |repeat (apply apply_defined_checked;
                      [first [assumption|apply keeps_set_learn_topic
                             |apply keeps_set_learn_concept
                             |apply keeps_set_exam_name
                             |apply keeps_set_exam_time_left
                             |apply keeps_set_quiz_topic
                             |apply keeps_set_quiz_num_questions
                             |apply keeps_set_quiz_hints_allowed]|]);
              assumption]).
    rewrite update_if_defined_run;
      [|apply keeps_set_onboarding_complete
       |repeat (apply apply_defined_checked;
                [first [assumption|apply keeps_set_learn_topic
                       |apply keeps_set_learn_concept
                       |apply keeps_set_exam_name
                       |apply keeps_set_exam_time_left
                       |apply keeps_set_quiz_topic
                       |apply keeps_set_quiz_num_questions
                       |apply keeps_set_quiz_hints_allowed]|]);
        assumption].
    fold (preferences_setter data p).
    rewrite (preferences_setter_after data (clock c) p). reflexivity.
  - rewrite (bind_ok _ _ c c (clock c)) by reflexivity.
    unfold sql, Sql.insert_preferences. rewrite Hp.
    unfold Sql.check_preferences.
    cbn [sp_goal sp_exam_depth sp_quiz_type].
    rewrite (check_in_or_null _ _ Hg), (check_in_or_null _ _ Hd),
      (check_in_or_null _ _ Hq). reflexivity.
Qed.

Lemma column_after_twice {A} (x : js_opt A) (old : option A) :
  column_after x (column_after x old) = column_after x old.
Proof. now destruct x. Qed.

Lemma column_after_or_null {A} (x : js_opt A) :
  column_after x (or_null x) = or_null x.
Proof. now destruct x. Qed.

Lemma check_in_column_after valid (x : js_opt string) (old : option string) :
  outside valid x = false -> Sql.check_in valid old = true ->
  Sql.check_in valid (column_after x old) = true.
Proof.
  destruct x as [| |v]; cbn; auto. intros H _. now destruct (Js.includes valid v).
Qed.

Lemma preferences_after_checked data t old :
  invalid_enum (UpdateSessionPreferences data) = false ->
  match old with
  | Some p => Sql.check_preferences p = true
  | None => True
  end ->
  Sql.check_preferences (preferences_after data t old) = true.
Proof.
  intros Hv Hc. destruct (valid_enums data Hv) as (Hg & Hd & Hq).
  unfold Sql.check_preferences. destruct old as [p|]; cbn.
  - unfold Sql.check_preferences in Hc.
    apply andb_prop in Hc as [Hc H3]. apply andb_prop in Hc as [H1 H2].
    now rewrite !check_in_column_after.
  - now rewrite !check_in_or_null.
Qed.

(** X5: [updateSessionPreferences] with valid enum values, on a preferences
    row that meets its CHECKs, succeeds; the row read back has every given
    field replaced ([null] clears it) and every other field as it was; the
    row still meets the CHECKs and the other tables are untouched. *)
Theorem updateSessionPreferences_stores_the_given_fields
  (data : SessionPreferencesData) (c : Chat) :
  invalid_enum (UpdateSessionPreferences data) = false ->
  preferences_checked (db c) ->
  let r := updateSessionPreferences data c in
  result r = inr tt
  /\ result (getSessionPreferences (final r))
     = inr (Some (preferences_after data (clock c)
                    (session_preferences (db c))))
  /\ preferences_checked (db (final r))
  /\ user_profile (db (final r)) = user_profile (db c)
  /\ knowledge (db (final r)) = knowledge (db c)
  /\ quiz_history (db (final r)) = quiz_history (db c)
  /\ study_sessions (db (final r)) = study_sessions (db c).
Proof.
  intros Hv Hc r. subst r. rewrite (updateSessionPreferences_run data c Hv Hc).
  cbn. repeat split.
  unfold preferences_checked. cbn. now apply preferences_after_checked.
Qed.

(** A first update of the preferences of a new object. *)
Lemma goal_quiz_is_stored_on_a_new_object :
  let data :=
    {| goal := Val "quiz"; learnTopic := Undefined; learnConcept := Undefined;
       examName := Undefined; examDepth := Undefined;
       examTimeLeft := Undefined; quizTopic := Val "Algebra";
       quizNumQuestions := Val 5; quizType := Undefined;
       quizHintsAllowed := Undefined; onboardingComplete := Undefined |} in
  let c := Example.idle in
  (invalid_enum (UpdateSessionPreferences data) = false
   /\ preferences_checked (db c))
  /\ exists p,
       result (getSessionPreferences (final (updateSessionPreferences data c)))
       = inr (Some p)
       /\ sp_goal p = Some "quiz"
       /\ sp_quiz_topic p = Some "Algebra"
       /\ sp_quiz_num_questions p = Some 5
       /\ sp_quiz_type p = None.
Proof.
  intros data c.
  assert (H1 : invalid_enum (UpdateSessionPreferences data) = false)
    by reflexivity.
  assert (H2 : preferences_checked (db c)) by exact I.
  split; [split; assumption|].
  destruct (updateSessionPreferences_stores_the_given_fields data c H1 H2)
    as (_ & Hget & _).
  eexists. split; [exact Hget|]. repeat split.
Defined.

(** X6: repeating at any later time an [updateSessionPreferences] call that
    succeeded, with the same data (valid enum values, onboardingComplete
    not [null]), changes nothing: the second call returns and leaves the
    agent exactly as the first left it. *)
Theorem updateSessionPreferences_is_idempotent
  (data : SessionPreferencesData) (c : Chat) (later : timestamp) :
  invalid_enum (UpdateSessionPreferences data) = false ->
  preferences_checked (db c) ->
  onboardingComplete data <> Null ->
  let c1 := at_time (final (updateSessionPreferences data c)) later in
  updateSessionPreferences data c1 = Outcome c1 [] (inr tt).
Proof.
  intros Hv Hc Hn c1. subst c1. rewrite (updateSessionPreferences_run data c Hv Hc).
  cbn [final].
  rewrite updateSessionPreferences_run; [|exact Hv|].
  - f_equal. unfold with_db, at_time, preferences_stored. cbn.
    destruct (session_preferences (db c)) as [p|]; cbn.
    + now rewrite !column_after_twice.
    + rewrite !column_after_or_null.
      destruct (onboardingComplete data); [reflexivity|now elim Hn|reflexivity].
  - unfold preferences_checked. cbn. now apply preferences_after_checked.
Qed.

(** The same update made twice on a new object. *)
Lemma onboarding_update_twice :
  let data :=
    {| goal := Val "learn"; learnTopic := Val "Recursion";
       learnConcept := Null;
       examName := Undefined; examDepth := Undefined;
       examTimeLeft := Undefined; quizTopic := Undefined;
       quizNumQuestions := Undefined; quizType := Undefined;
       quizHintsAllowed := Undefined; onboardingComplete := Val true |} in
  let c := Example.idle in
  (invalid_enum (UpdateSessionPreferences data) = false
   /\ preferences_checked (db c)
   /\ onboardingComplete data <> Null)
  /\ db (final (updateSessionPreferences data
                  (at_time (final (updateSessionPreferences data c)) 2000)))
     = db (final (updateSessionPreferences data c)).
Proof.
  intros data c.
  assert (H1 : invalid_enum (UpdateSessionPreferences data) = false)
    by reflexivity.
  assert (H2 : preferences_checked (db c)) by exact I.
  assert (H3 : onboardingComplete data <> Null) by discriminate.
  split; [repeat (split; [assumption|]); assumption|].
  now rewrite (updateSessionPreferences_is_idempotent data c 2000 H1 H2 H3).
Defined.

(** ** The byte order of strings *)

Lemma ascii_compare_cases (a b : ascii) :
  match Ascii.compare a b with
  | Eq => a = b
  | Lt => (N_of_ascii a < N_of_ascii b)%N
  | Gt => (N_of_ascii b < N_of_ascii a)%N
  end.
Proof.
  unfold Ascii.compare. destruct (N.compare_spec (N_of_ascii a) (N_of_ascii b)) as [H|H|H];
    [|exact H|exact H].
  rewrite <- (ascii_N_embedding a), <- (ascii_N_embedding b). now rewrite H.
Qed.

Lemma string_leb_trans (a b c : string) :
  String.leb a b = true -> String.leb b c = true -> String.leb a c = true.
Proof.
  unfold String.leb.
  assert (H : forall a b c, String.compare a b <> Gt -> String.compare b c <> Gt ->
                            String.compare a c <> Gt).
  { clear. induction a as [|x a IH]; intros [|y b] [|z c]; cbn; try congruence.
    pose proof (ascii_compare_cases x y) as Hxy.
    pose proof (ascii_compare_cases y z) as Hyz.
    pose proof (ascii_compare_cases x z) as Hxz.
    destruct (Ascii.compare x y), (Ascii.compare y z); try congruence;
      destruct (Ascii.compare x z) eqn:E; subst; try congruence; try lia;
      try (intros; eapply IH; eassumption);
      try (unfold Ascii.compare in E; rewrite N.compare_refl in E; congruence). }
  intros Hab Hbc.
  specialize (H a b c).
  destruct (String.compare a b); destruct (String.compare b c);
    destruct (String.compare a c); try reflexivity; try discriminate;
    exfalso; apply H; congruence.
Qed.

(** ** Knowledge by subject *)

(** A selection of rows with distinct keys has distinct keys. *)
Lemma selected_keys_unique (keep : Knowledge -> bool) (rows : list Knowledge) :
  NoDup (map key_of rows) -> NoDup (map key_of (filter keep rows)).
Proof.
  intros H. induction rows as [|k rows IH]; cbn; [constructor|].
  cbn in H. apply NoDup_cons_iff in H as [Hk Hrows].
  destruct (keep k); cbn; [|now apply IH].
  constructor; [|now apply IH]. intros Hin. apply Hk.
  apply in_map_iff in Hin as (k' & Hkey & Hin). apply in_map_iff.
  exists k'. split; [assumption|]. now apply filter_In in Hin.
Qed.

(** X7: [getKnowledgeBySubject] reads without writing and returns exactly
    the entries of the subject (the subject compared exactly), in ascending
    byte order of their topics; under the UNIQUE(subject, topic) constraint
    no topic occurs twice. *)
Theorem getKnowledgeBySubject_lists_the_subject_by_topic
  (c : Chat) (subject : string) :
  exists rows,
    getKnowledgeBySubject subject c = Outcome c [] (inr rows)
    /\ Permutation rows
         (filter (fun k => String.eqb (k_subject k) subject) (knowledge (db c)))
    /\ (forall k, In k rows <-> In k (knowledge (db c)) /\ k_subject k = subject)
    /\ StronglySorted (fun a b => String.leb (k_topic a) (k_topic b) = true)
         rows
    /\ (keys_unique (db c) -> NoDup (map k_topic rows)).
Proof.
  exists (Queries.select_by_subject (db c) subject). split; [reflexivity|].
  unfold Queries.select_by_subject.
  set (mine := fun k => String.eqb (k_subject k) subject).
  assert (Hperm : Permutation
                    (Sql.order_by Queries.topic_ascending
                       (filter mine (knowledge (db c))))
                    (filter mine (knowledge (db c))))
    by apply order_by_perm.
  split; [exact Hperm|]. split; [|split].
  - intros k. rewrite (Permutation_in' (eq_refl k) Hperm), filter_In.
    unfold mine. now rewrite String.eqb_eq.
  - apply (order_by_sorted Queries.topic_ascending).
    + intros a b. apply String.leb_total.
    + intros a b d. apply string_leb_trans.
  - unfold keys_unique. intros Hu.
    apply (Permutation_NoDup (l := map k_topic (filter mine (knowledge (db c))))).
    { apply Permutation_map. now symmetry. }
    apply (selected_keys_unique mine) in Hu.
    assert (Hs : forall k, In k (filter mine (knowledge (db c))) ->
                           k_subject k = subject).
    { intros k Hk. apply filter_In in Hk as [_ Hk]. unfold mine in Hk.
      now apply String.eqb_eq in Hk. }
    revert Hu Hs. generalize (filter mine (knowledge (db c))) as rows.
    intros rows Hu Hs. revert Hu.
    induction rows as [|k rows IH]; cbn; [constructor|].
    intros Hu. apply NoDup_cons_iff in Hu as [Hk Hu].
    constructor; [|apply IH; [intros; apply Hs; now right|assumption]].
    intros Hin. apply Hk. apply in_map_iff in Hin as (k' & Ht & Hin).
    apply in_map_iff. exists k'. split; [|assumption].
    unfold key_of. rewrite Ht, (Hs k' (or_intror Hin)), (Hs k (or_introl eq_refl)).
    reflexivity.
Qed.

(** ** Quiz history *)

(** X8: [getQuizHistory] with a limit that is not negative (20 by default)
    reads without writing and returns the first [limit] entries of the
    selected ledger rows ordered newest first; on a ledger with strictly
    increasing dates that order is the reverse of the insertion order; the
    recent scores of [getQuizStats] are the scores of its first five. *)
Theorem getQuizHistory_returns_the_most_recent_entries
  (c : Chat) (subject : option string) (limit : option Z) :
  let n := match limit with Some n => n | None => 20 end in
  0 <= n ->
  let rows := Spec.selected subject (quiz_history (db c)) in
  exists ranked,
    getQuizHistory subject limit c
    = Outcome c [] (inr (firstn (Z.to_nat n) ranked))
    /\ Permutation ranked rows
    /\ StronglySorted (fun a b => q_quiz_date b <= q_quiz_date a) ranked
    /\ (StronglySorted (fun a b => q_quiz_date a < q_quiz_date b) rows ->
        ranked = rev rows)
    /\ (forall stats,
          result (getQuizStats subject c) = inr stats ->
          recentScores stats = map q_score (firstn 5 ranked)).
Proof.
  intros n Hn rows.
  exists (Sql.order_by Sql.newest_first rows).
  destruct (newest_first_sorted rows) as [Hperm Hsorted].
  split; [|split; [exact Hperm|split; [exact Hsorted|split]]].
  - unfold getQuizHistory, query, Queries.select_history. fold n.
    rewrite (limit_nonneg n) by exact Hn.
    now rewrite subject_filter_selected.
  - apply newest_first_of_chronological.
  - intros stats. unfold getQuizStats, query, bind, ret.
    cbn [result final trace]. intros [= <-]. cbn [recentScores].
    unfold Sql.select_recent_scores.
    now rewrite subject_filter_selected, (limit_nonneg 5) by lia.
Qed.

(** The three most recent of eleven quizzes. *)
Lemma history_of_eleven_quizzes :
  let c := Example.with_ledger Example.eleven_quizzes in
  0 <= 3
  /\ result (getQuizHistory None (Some 3) c)
     = inr [Example.ledger_row 11 None; Example.ledger_row 10 None;
            Example.ledger_row 9 None].
Proof.
  intros c.
  assert (H : 0 <= 3) by lia.
  split; [exact H|].
  destruct (getQuizHistory_returns_the_most_recent_entries c None (Some 3) H)
    as (ranked & Hrun & _ & _ & Hrev & _).
  rewrite Hrun. cbn [result]. rewrite Hrev; [reflexivity|].
  repeat constructor.
Defined.

(** ** Properties kept by every operation *)

Section Keeps.

Variable I : Database -> Prop.

Lemma keeps_ret {A} (a : A) : keeps I (ret a).
Proof. intros c H. exact H. Qed.

Lemma keeps_throw {A} (e : exn) : keeps I (@throw A e).
Proof. intros c H. exact H. Qed.

Lemma keeps_query {A} (q : Database -> A) : keeps I (query q).
Proof. intros c H. exact H. Qed.

Lemma keeps_now : keeps I now.
Proof. intros c H. exact H. Qed.

Lemma keeps_bind {A B} (m : M A) (k : A -> M B) :
  keeps I m -> (forall a, keeps I (k a)) -> keeps I (bind m k).
Proof.
  intros Hm Hk c Hc. unfold bind. specialize (Hm c Hc).
  destruct (result (m c)); cbn; [exact Hm|]. now apply Hk.
Qed.

Lemma keeps_sql (stmt : Database -> exn + Database) :
  (forall d d', I d -> stmt d = inr d' -> I d') -> keeps I (sql stmt).
Proof.
  intros H c Hc. unfold sql. destruct (stmt (db c)) as [e|d'] eqn:E; cbn;
    [exact Hc|]. eapply H; eassumption.
Qed.

Lemma keeps_when (b : bool) (m : M unit) : keeps I m -> keeps I (when b m).
Proof. intros H. destruct b; [exact H|apply keeps_ret]. Qed.

Lemma keeps_validate_enum field valid x : keeps I (validate_enum field valid x).
Proof.
  intros c Hc. unfold validate_enum.
  destruct x as [| |v]; try exact Hc. now destruct (Js.includes valid v).
Qed.

End Keeps.

(** ** The constraints of the tables, statement by statement *)

Lemma NoDup_snoc {A} (l : list A) (x : A) :
  NoDup l -> ~ In x l -> NoDup (l ++ [x]).
Proof.
  intros Hl Hx. apply NoDup_app; [assumption|repeat constructor; auto|].
  intros y Hy [<-|[]]. contradiction.
Qed.

Lemma ids_fresh_snoc {A} (id : A -> Z) (rows : list A) (counter : Z) (row : A) :
  ids_fresh id rows counter -> id row = counter + 1 ->
  ids_fresh id (rows ++ [row]) (counter + 1).
Proof.
  intros [Hn Hb] Hid. split.
  - rewrite map_app. cbn. apply NoDup_snoc; [assumption|].
    intros Hin. apply in_map_iff in Hin as (r & Hr & Hin).
    pose proof (proj1 (Forall_forall _ _) Hb r Hin) as Hle. cbn in Hle. lia.
  - apply Forall_app. split.
    + eapply Forall_impl; [|exact Hb]. cbn. intros; lia.
    + repeat constructor. lia.
Qed.

Lemma ids_fresh_map {A} (id : A -> Z) (g : A -> A) (rows : list A) counter :
  (forall r, id (g r) = id r) ->
  ids_fresh id rows counter -> ids_fresh id (map g rows) counter.
Proof.
  intros Hg [Hn Hb]. split.
  - rewrite map_map. erewrite map_ext; [exact Hn|]. intros; apply Hg.
  - apply Forall_map. eapply Forall_impl; [|exact Hb]. cbn. intros r.
    now rewrite Hg.
Qed.

Lemma ids_fresh_nil {A} (id : A -> Z) counter : ids_fresh id [] counter.
Proof. split; constructor. Qed.

Ltac frame :=
  constructor;
  unfold knowledge_checked, keys_unique, preferences_checked, ledger_checked,
    sessions_checked in *;
  cbn in *; try assumption.

Lemma insert_profile_wf d t n m y l d' :
  well_formed d -> Queries.insert_profile d t n m y l = inr d' -> well_formed d'.
Proof.
  intros [Wk Wu Wp Wl Ws Wki Wli Wsi] H. unfold Queries.insert_profile in H.
  destruct (user_profile d); [discriminate|]. injection H as <-. frame.
Qed.

Lemma update_profile_wf d set :
  well_formed d -> well_formed (Queries.update_profile d set).
Proof. intros [Wk Wu Wp Wl Ws Wki Wli Wsi]. frame. Qed.

Lemma insert_preferences_wf d p d' :
  well_formed d -> Sql.insert_preferences d p = inr d' -> well_formed d'.
Proof.
  intros [Wk Wu Wp Wl Ws Wki Wli Wsi] H. unfold Sql.insert_preferences in H.
  destruct (session_preferences d); [discriminate|].
  destruct (Sql.check_preferences p) eqn:E; [|discriminate].
  injection H as <-. frame.
Qed.

Lemma update_preferences_wf d set d' :
  well_formed d -> Sql.update_preferences d set = inr d' -> well_formed d'.
Proof.
  intros Hd H. unfold Sql.update_preferences in H.
  destruct (session_preferences d) as [p|] eqn:Hp.
  - destruct (Sql.check_preferences (set p)) eqn:E; [|discriminate].
    injection H as <-. destruct Hd as [Wk Wu Wp Wl Ws Wki Wli Wsi]. frame.
  - now injection H as <-.
Qed.

Lemma same_key_key_of subject topic k :
  Sql.same_key subject topic k = true <-> key_of k = (subject, topic).
Proof.
  unfold Sql.same_key, key_of. rewrite andb_true_iff, !String.eqb_eq.
  split; [now intros [-> ->]|now intros [= -> ->]].
Qed.

Lemma insert_knowledge_wf d t s tp m cf st qz ls lq wa nt d' :
  well_formed d ->
  Sql.insert_knowledge d t s tp m cf st qz ls lq wa nt = inr d' ->
  well_formed d'.
Proof.
  intros [Wk Wu Wp Wl Ws Wki Wli Wsi] H. unfold Sql.insert_knowledge in H.
  match type of H with
  | (if negb (Sql.check_knowledge ?row) then _ else _) = _ =>
      destruct (Sql.check_knowledge row) eqn:Hc; [|discriminate]
  end.
  cbn [negb] in H.
  destruct (existsb (Sql.same_key s tp) (knowledge d)) eqn:He; [discriminate|].
  injection H as <-. frame.
  - apply Forall_app. split; [assumption|]. repeat constructor. exact Hc.
  - rewrite map_app. cbn. apply NoDup_snoc; [assumption|].
    intros Hin. apply in_map_iff in Hin as (k & Hk & Hin).
    assert (existsb (Sql.same_key s tp) (knowledge d) = true); [|congruence].
    apply existsb_exists. exists k. split; [assumption|].
    now apply same_key_key_of.
  - now apply ids_fresh_snoc.
Qed.

Lemma update_knowledge_wf d s tp set d' :
  column_setter set -> well_formed d ->
  Sql.update_knowledge d s tp set = inr d' -> well_formed d'.
Proof.
  intros Hs [Wk Wu Wp Wl Ws Wki Wli Wsi] H. unfold Sql.update_knowledge in H.
  destruct (forallb _ (knowledge d)) eqn:Hf; [|discriminate].
  injection H as <-. frame.
  - apply Forall_map. apply Forall_forall. intros k Hk.
    pose proof (proj1 (forallb_forall _ _) Hf k Hk) as Hg. cbn in Hg.
    pose proof (proj1 (Forall_forall _ _) Wk k Hk) as Ho. cbn in Ho.
    destruct (Sql.same_key s tp k); [exact Hg|exact Ho].
  - rewrite map_map. erewrite map_ext; [exact Wu|].
    intros k. cbn. destruct (Sql.same_key s tp k); [apply Hs|reflexivity].
  - apply ids_fresh_map; [|assumption].
    intros k. destruct (Sql.same_key s tp k); [apply Hs|reflexivity].
Qed.

Lemma insert_quiz_wf d t s tp ty sc tq ca ms ts hu d' :
  well_formed d -> Sql.insert_quiz d t s tp ty sc tq ca ms ts hu = inr d' ->
  well_formed d'.
Proof.
  intros [Wk Wu Wp Wl Ws Wki Wli Wsi] H. unfold Sql.insert_quiz in H.
  destruct (Sql.check_in QuizType_values ty && Sql.check_percent sc) eqn:Hc;
    [|discriminate].
  injection H as <-. frame.
  - apply Forall_app. split; [assumption|]. repeat constructor. exact Hc.
  - now apply ids_fresh_snoc.
Qed.

Lemma insert_session_wf d t ty s tp d' :
  well_formed d -> Sql.insert_session d t ty s tp = inr d' -> well_formed d'.
Proof.
  intros [Wk Wu Wp Wl Ws Wki Wli Wsi] H. unfold Sql.insert_session in H.
  destruct (Js.includes SessionType_values ty) eqn:Hc; [|discriminate].
  injection H as <-. frame.
  - apply Forall_app. split; [assumption|]. repeat constructor. exact Hc.
  - now apply ids_fresh_snoc.
Qed.

Lemma end_session_wf f d t id summary :
  well_formed d -> well_formed (Queries.end_session f d t id summary).
Proof.
  intros [Wk Wu Wp Wl Ws Wki Wli Wsi]. frame.
  - apply Forall_map. eapply Forall_impl; [|exact Ws].
    cbn. intros s Hs. now destruct (ss_id s =? id).
  - apply ids_fresh_map; [|assumption].
    intros s. now destruct (ss_id s =? id).
Qed.

Lemma delete_knowledge_wf d : well_formed d -> well_formed (Sql.delete_knowledge d).
Proof. intros [Wk Wu Wp Wl Ws Wki Wli Wsi]. frame; [constructor|constructor|apply ids_fresh_nil]. Qed.

Lemma delete_quiz_history_wf d :
  well_formed d -> well_formed (Sql.delete_quiz_history d).
Proof. intros [Wk Wu Wp Wl Ws Wki Wli Wsi]. frame; [constructor|apply ids_fresh_nil]. Qed.

Lemma delete_study_sessions_wf d :
  well_formed d -> well_formed (Sql.delete_study_sessions d).
Proof. intros [Wk Wu Wp Wl Ws Wki Wli Wsi]. frame; [constructor|apply ids_fresh_nil]. Qed.

Lemma delete_user_profile_wf d :
  well_formed d -> well_formed (Sql.delete_user_profile d).
Proof. intros [Wk Wu Wp Wl Ws Wki Wli Wsi]. frame. Qed.

Lemma delete_session_preferences_wf d :
  well_formed d -> well_formed (Sql.delete_session_preferences d).
Proof. intros [Wk Wu Wp Wl Ws Wki Wli Wsi]. frame. exact Logic.I. Qed.

(** ** The constraints of the tables, operation by operation *)

Ltac column := intros k; destruct k; split; reflexivity.

Lemma update_column_wf {A} subject topic (x : option A) set :
  (forall v, column_setter (set v)) ->
  keeps well_formed (update_column subject topic x set).
Proof.
  intros Hs. unfold update_column. destruct x as [v|]; [|apply keeps_ret].
  apply keeps_sql. intros d d' Hd. now apply update_knowledge_wf.
Qed.

Lemma updateKnowledge_wf (data : KnowledgeData) :
  keeps well_formed (updateKnowledge data).
Proof.
  unfold updateKnowledge.
  apply keeps_bind; [apply keeps_query|]. intros existing.
  apply keeps_bind; [apply keeps_now|]. intros t.
  destruct existing as [e|].
  - repeat (apply keeps_bind; [apply update_column_wf; intros v; column|];
            intros _).
    apply update_column_wf; intros v; column.
  - apply keeps_sql. intros d d' Hd. apply insert_knowledge_wf. exact Hd.
Qed.

Lemma updateUserProfile_wf (data : UserProfileData) :
  keeps well_formed (updateUserProfile data).
Proof.
  unfold updateUserProfile.
  apply keeps_bind; [apply keeps_query|]. intros existing.
  apply keeps_bind; [apply keeps_now|]. intros t.
  assert (Hcol : forall A (x : option A) set,
             keeps well_formed (update_profile_column x set)).
  { intros A x set. unfold update_profile_column.
    destruct x; [|apply keeps_ret].
    apply keeps_sql. intros d d' Hd [= <-]. now apply update_profile_wf. }
  apply keeps_bind.
  - destruct existing.
    + repeat (apply keeps_bind; [apply Hcol|]; intros _). apply Hcol.
    + apply keeps_sql. intros d d' Hd. now apply insert_profile_wf.
  - intros _. apply keeps_sql. intros d d' Hd [= <-]. now apply update_profile_wf.
Qed.

Lemma updateSessionPreferences_wf (data : SessionPreferencesData) :
  keeps well_formed (updateSessionPreferences data).
Proof.
  unfold updateSessionPreferences.
  do 3 (apply keeps_bind; [apply keeps_validate_enum|]; intros _).
  apply keeps_bind; [apply keeps_query|]. intros existing.
  assert (Hcol : forall A (x : js_opt A) set,
             keeps well_formed (update_if_defined x set)).
  { intros A x set. unfold update_if_defined. apply keeps_when.
    apply keeps_sql. intros d d' Hd. now apply update_preferences_wf. }
  destruct existing.
  - repeat (apply keeps_bind; [apply Hcol|]; intros _). apply Hcol.
  - apply keeps_bind; [apply keeps_now|]. intros t.
    apply keeps_sql. intros d d' Hd. now apply insert_preferences_wf.
Qed.

Lemma recordQuiz_wf (data : QuizResult) : keeps well_formed (recordQuiz data).
Proof.
  unfold recordQuiz.
  apply keeps_bind.
  { destruct (Js.includes _ _); [apply keeps_ret|apply keeps_throw]. }
  intros _. apply keeps_bind; [apply keeps_now|]. intros t.
  apply keeps_bind.
  { apply keeps_sql. intros d d' Hd. now apply insert_quiz_wf. }
  intros _. apply keeps_bind; [apply keeps_query|]. intros insertedId.
  destruct (truthy_string (qr_topic data)) as [topic|]; [|apply keeps_ret].
  apply keeps_bind; [apply keeps_query|]. intros existing.
  apply keeps_bind; [|intros _; apply keeps_ret].
  destruct existing; apply updateKnowledge_wf.
Qed.

Lemma startSession_wf ty subject topic :
  keeps well_formed (startSession ty subject topic).
Proof.
  unfold startSession.
  apply keeps_bind.
  { destruct (Js.includes _ _); [apply keeps_ret|apply keeps_throw]. }
  intros _. apply keeps_bind; [apply keeps_now|]. intros t.
  apply keeps_bind; [|intros _; apply keeps_query].
  apply keeps_sql. intros d d' Hd. now apply insert_session_wf.
Qed.

Lemma endSession_wf f id summary : keeps well_formed (endSession f id summary).
Proof.
  unfold endSession. apply keeps_bind; [apply keeps_now|]. intros t.
  apply keeps_sql. intros d d' Hd [= <-]. now apply end_session_wf.
Qed.

Lemma resetProgress_wf ty : keeps well_formed (resetProgress ty).
Proof.
  unfold resetProgress.
  apply keeps_bind.
  { destruct (Js.includes _ _); [apply keeps_ret|apply keeps_throw]. }
  intros _.
  apply keeps_bind.
  { apply keeps_when, keeps_sql. intros d d' Hd [= <-].
    now apply delete_knowledge_wf. }
  intros _. apply keeps_bind.
  { apply keeps_when, keeps_sql. intros d d' Hd [= <-].
    now apply delete_quiz_history_wf. }
  intros _. apply keeps_bind.
  { apply keeps_when, keeps_sql. intros d d' Hd [= <-].
    now apply delete_study_sessions_wf. }
  intros _. apply keeps_when. apply keeps_bind.
  { apply keeps_sql. intros d d' Hd [= <-]. now apply delete_user_profile_wf. }
  intros _. apply keeps_sql. intros d d' Hd [= <-].
  now apply delete_session_preferences_wf.
Qed.

Lemma empty_database_wf : well_formed empty_database.
Proof.
  constructor; try constructor; try apply ids_fresh_nil; try constructor.
Qed.

(** X9: every sequence of calls of the writing operations
    (updateUserProfile, updateSessionPreferences, updateKnowledge,
    recordQuiz, startSession, endSession, resetProgress), with any
    arguments and whether a call returns or throws, leaves tables that meet
    the constraints of [initTables]: the CHECKs of every row,
    UNIQUE(subject, topic), distinct ids, and no id above the counter of
    its table. *)
Theorem tables_stay_well_formed
  (minutes_between : timestamp -> timestamp -> Z)
  (ops : list operation) (c : Chat) :
  well_formed (db c) ->
  well_formed (db (after_calls minutes_between ops c)).
Proof.
  revert c. induction ops as [|op ops IH]; intros c Hc; [exact Hc|].
  cbn. apply IH.
  destruct op; cbn [perform].
  - now apply updateUserProfile_wf.
  - now apply updateSessionPreferences_wf.
  - now apply updateKnowledge_wf.
  - apply (keeps_bind well_formed); [apply recordQuiz_wf| |exact Hc].
    intros _. apply keeps_ret.
  - apply (keeps_bind well_formed); [apply startSession_wf| |exact Hc].
    intros _. apply keeps_ret.
  - now apply endSession_wf.
  - now apply resetProgress_wf.
Qed.

(** Six calls on a new object, one of them refused by a CHECK. *)
Lemma tables_after_a_refused_quiz_and_a_reset :
  let ops :=
    [OpRecordQuiz (Example.quiz (Some "Algebra") 40 ["loops"]);
     OpRecordQuiz (Example.quiz (Some "Algebra") 140 []);
     OpStartSession "review" (Some "Math") None;
     OpEndSession 1 "done";
     OpResetProgress "quizzes";
     OpRecordQuiz (Example.quiz None 90 [])] in
  let minutes (ended started : timestamp) := (ended - started) / 60 in
  well_formed (db Example.idle)
  /\ well_formed (db (after_calls minutes ops Example.idle)).
Proof.
  intros ops minutes.
  assert (H : well_formed (db Example.idle)) by apply empty_database_wf.
  split; [exact H|].
  exact (tables_stay_well_formed minutes ops Example.idle H).
Defined.

(** ** Study sessions *)

Lemma startSession_run (c : Chat) ty subject topic :
  Js.includes SessionType_values ty = true ->
  startSession ty subject topic c
  = Outcome
      (with_db c
         {| user_profile := user_profile (db c);
            session_preferences := session_preferences (db c);
            knowledge := knowledge (db c);
            quiz_history := quiz_history (db c);
            study_sessions :=
              study_sessions (db c)
              ++ [{| ss_id := seq_study_sessions (db c) + 1;
                     ss_session_type := ty;
                     ss_subject := subject; ss_topic := topic;
                     ss_duration_minutes := None; ss_summary := None;
                     ss_started_at := clock c; ss_ended_at := None |}];
            seq_knowledge := seq_knowledge (db c);
            seq_quiz_history := seq_quiz_history (db c);
            seq_study_sessions := seq_study_sessions (db c) + 1;
            last_insert_rowid := seq_study_sessions (db c) + 1 |})
      [] (inr (seq_study_sessions (db c) + 1)).
Proof.
  intros H. unfold startSession. rewrite H.
  rewrite (bind_ok _ _ c c tt) by reflexivity.
  rewrite (bind_ok _ _ c c (clock c)) by reflexivity.
  erewrite bind_ok;
    [|unfold sql, Sql.insert_session; rewrite H; reflexivity].
  reflexivity.
Qed.

Lemma resetProgress_keeps_the_counters (c : Chat) (scope : string) :
  seq_study_sessions (db (final (resetProgress scope c)))
  = seq_study_sessions (db c)
  /\ seq_quiz_history (db (final (resetProgress scope c)))
     = seq_quiz_history (db c)
  /\ seq_knowledge (db (final (resetProgress scope c))) = seq_knowledge (db c).
Proof.
  unfold resetProgress, bind, when, sql, ret, throw.
  destruct (Js.includes ResetType_values scope); cbn; [|auto].
  destruct (String.eqb scope "all"); cbn;
    [auto|].
  destruct (String.eqb scope "knowledge"); cbn;
    destruct (String.eqb scope "quizzes"); cbn;
    destruct (String.eqb scope "sessions"); cbn; auto.
Qed.

(** X10: [startSession] with a valid type returns an id above every session
    id in the table and appends one open session with the given type,
    subject and topic, started now; a [resetProgress] of any scope in
    between does not make the next [startSession] return that id again. *)
Theorem startSession_never_reuses_an_id
  (c : Chat) (ty : string) (subject topic : option string)
  (scope ty2 : string) (subject2 topic2 : option string) :
  well_formed (db c) ->
  Js.includes SessionType_values ty = true ->
  Js.includes SessionType_values ty2 = true ->
  let r1 := startSession ty subject topic c in
  let id := seq_study_sessions (db c) + 1 in
  result r1 = inr id
  /\ (forall s, In s (study_sessions (db c)) -> ss_id s < id)
  /\ study_sessions (db (final r1))
     = study_sessions (db c)
       ++ [{| ss_id := id; ss_session_type := ty;
              ss_subject := subject; ss_topic := topic;
              ss_duration_minutes := None; ss_summary := None;
              ss_started_at := clock c; ss_ended_at := None |}]
  /\ result (startSession ty2 subject2 topic2
               (final (resetProgress scope (final r1))))
     = inr (id + 1).
Proof.
  intros Hwf Hty Hty2 r1 id. subst r1 id.
  rewrite (startSession_run c ty subject topic Hty). cbn [result final].
  split; [reflexivity|]. split; [|split; [reflexivity|]].
  - intros s Hs. destruct Hwf as [_ _ _ _ _ _ _ [_ Hb]].
    pose proof (proj1 (Forall_forall _ _) Hb s Hs) as Hle. cbn in Hle. lia.
  - rewrite (startSession_run _ ty2 subject2 topic2 Hty2). cbn [result].
    destruct (resetProgress_keeps_the_counters
                (with_db c
                   {| user_profile := user_profile (db c);
                      session_preferences := session_preferences (db c);
                      knowledge := knowledge (db c);
                      quiz_history := quiz_history (db c);
                      study_sessions :=
                        study_sessions (db c)
                        ++ [{| ss_id := seq_study_sessions (db c) + 1;
                               ss_session_type := ty;
                               ss_subject := subject; ss_topic := topic;
                               ss_duration_minutes := None; ss_summary := None;
                               ss_started_at := clock c; ss_ended_at := None |}];
                      seq_knowledge := seq_knowledge (db c);
                      seq_quiz_history := seq_quiz_history (db c);
                      seq_study_sessions := seq_study_sessions (db c) + 1;
                      last_insert_rowid := seq_study_sessions (db c) + 1 |})
                scope) as [-> _].
    reflexivity.
Qed.

(** Two sessions with a reset of the sessions in between. *)
Lemma session_ids_after_a_reset :
  let c := Example.idle in
  (well_formed (db c)
   /\ Js.includes SessionType_values "learn" = true
   /\ Js.includes SessionType_values "quiz" = true)
  /\ result (startSession "learn" None None c) = inr 1
  /\ result (startSession "quiz" None None
               (final (resetProgress "sessions"
                         (final (startSession "learn" None None c)))))
     = inr 2.
Proof.
  intros c.
  assert (H1 : well_formed (db c)) by apply empty_database_wf.
  assert (H2 : Js.includes SessionType_values "learn" = true) by reflexivity.
  assert (H3 : Js.includes SessionType_values "quiz" = true) by reflexivity.
  split; [repeat (split; [assumption|]); assumption|].
  destruct (startSession_never_reuses_an_id c "learn" None None
              "sessions" "quiz" None None H1 H2 H3) as (Ha & _ & _ & Hb).
  split; [exact Ha|exact Hb].
Defined.

Lemma object_get_set_other {V} (o : list (string * V)) k k' (v : V) :
  k <> k' -> object_get (object_set o k v) k' = object_get o k'.
Proof.
  intros Hk. induction o as [|[a b] o IH]; cbn.
  - destruct (String.eqb_spec k k'); [contradiction|reflexivity].
  - destruct (String.eqb_spec a k) as [->|Ha]; cbn.
    + destruct (String.eqb_spec k k'); [contradiction|reflexivity].
    + destruct (String.eqb a k'); [reflexivity|exact IH].
Qed.

Lemma object_get_set_same {V} (o : list (string * V)) k (v : V) :
  object_get (object_set o k v) k = Some v.
Proof.
  induction o as [|[a b] o IH]; cbn.
  - now rewrite String.eqb_refl.
  - destruct (String.eqb_spec a k) as [->|Ha]; cbn.
    + now rewrite String.eqb_refl.
    + destruct (String.eqb_spec a k); [contradiction|exact IH].
Qed.

(** Filling an object from rows with distinct keys. *)
Lemma object_filled {R V} (key : R -> string) (val : R -> V) (rows : list R)
  (acc : list (string * V)) (k : string) :
  NoDup (map key rows) ->
  object_get (fold_left (fun o r => object_set o (key r) (val r)) rows acc) k
  = match find (fun r => String.eqb (key r) k) rows with
    | Some r => Some (val r)
    | None => object_get acc k
    end.
Proof.
  revert acc. induction rows as [|r rows IH]; intros acc Hn; cbn; [reflexivity|].
  apply NoDup_cons_iff in Hn as [Hr Hn]. rewrite IH by assumption.
  destruct (String.eqb_spec (key r) k) as [<-|Hk].
  - destruct (find _ rows) as [r'|] eqn:E.
    + apply find_some in E as [Hin He]. apply String.eqb_eq in He.
      elim Hr. rewrite <- He. now apply in_map.
    + apply object_get_set_same.
  - destruct (find _ rows); [reflexivity|]. now apply object_get_set_other.
Qed.

Lemma object_filled_entries {R V} (key : R -> string) (val : R -> V)
  (rows : list R) :
  NoDup (map key rows) ->
  fold_left (fun o r => object_set o (key r) (val r)) rows []
  = map (fun r => (key r, val r)) rows.
Proof.
  intros Hn.
  assert (H : forall acc : list (string * V),
             (forall r, In r rows -> ~ In (key r) (map fst acc)) ->
             fold_left (fun o r => object_set o (key r) (val r)) rows acc
             = acc ++ map (fun r => (key r, val r)) rows).
  { induction rows as [|r rows IH]; intros acc Hd; cbn.
    - now rewrite app_nil_r.
    - apply NoDup_cons_iff in Hn as [Hr Hn].
      assert (Hset : object_set acc (key r) (val r) = acc ++ [(key r, val r)]).
      { pose proof (Hd r (or_introl eq_refl)) as Hnot. clear -Hnot.
        induction acc as [|[a b] acc IH]; cbn in *; [reflexivity|].
        destruct (String.eqb_spec a (key r)) as [->|_]; [elim Hnot; now left|].
        rewrite IH; [reflexivity|]. intros H. apply Hnot. now right. }
      rewrite Hset, IH; [now rewrite <- app_assoc|assumption|].
      intros r' Hr' Hin. rewrite map_app in Hin. apply in_app_or in Hin as [Hin|Hin].
      + apply (Hd r'); [now right|assumption].
      + cbn in Hin. destruct Hin as [Hin|[]]. apply Hr. rewrite Hin.
        now apply in_map. }
  apply (H []). intros r _ [].
Qed.

Lemma total_app (a b : list Z) : Spec.total (a ++ b) = Spec.total a + Spec.total b.
Proof.
  unfold Spec.total. induction a as [|x a IH]; cbn; [reflexivity|]. lia.
Qed.

Lemma total_pointwise {K} (F G : K -> Z) (keys : list K) :
  Spec.total (map (fun k => F k + G k) keys)
  = Spec.total (map F keys) + Spec.total (map G keys).
Proof.
  unfold Spec.total. induction keys as [|k keys IH]; cbn; [reflexivity|]. lia.
Qed.

Lemma total_indicator (keys : list string) (x : string) (v : Z) :
  NoDup keys -> In x keys ->
  Spec.total (map (fun k => if String.eqb x k then v else 0) keys) = v.
Proof.
  unfold Spec.total.
  induction keys as [|k keys IH]; cbn; [contradiction|].
  intros Hn Hin. apply NoDup_cons_iff in Hn as [Hk Hn].
  destruct (String.eqb_spec x k) as [->|Hx].
  - assert (Hz : fold_right Z.add 0
                   (map (fun k0 => if String.eqb k k0 then v else 0) keys) = 0).
    { clear -Hk. induction keys as [|a keys IH]; cbn; [reflexivity|].
      destruct (String.eqb_spec k a) as [->|_]; [elim Hk; now left|].
      rewrite IH; [reflexivity|]. intros H. apply Hk. now right. }
    rewrite Hz. lia.
  - destruct Hin as [->|Hin]; [contradiction|]. now rewrite IH.
Qed.

(** Summing group by group sums everything. *)
Lemma total_by_key {R} (key : R -> string) (g : R -> Z) (keys : list string)
  (rows : list R) :
  NoDup keys -> (forall r, In r rows -> In (key r) keys) ->
  Spec.total
    (map (fun k => Spec.total
                     (map g (filter (fun r => String.eqb (key r) k) rows)))
         keys)
  = Spec.total (map g rows).
Proof.
  intros Hn. induction rows as [|r rows IH]; intros Hin.
  - cbn [filter map]. clear. unfold Spec.total.
    induction keys as [|k keys IH]; cbn in *; [reflexivity|lia].
  - cbn [filter map].
    transitivity
      (Spec.total
         (map (fun k => (if String.eqb (key r) k then g r else 0)
                        + Spec.total
                            (map g (filter (fun r0 => String.eqb (key r0) k) rows)))
              keys)).
    { f_equal. apply map_ext. intros k. now destruct (String.eqb (key r) k). }
    rewrite total_pointwise, IH by (intros; apply Hin; now right).
    rewrite total_indicator; [reflexivity|assumption|].
    apply Hin. now left.
Qed.

Lemma total_ones {A} (l : list A) :
  Spec.total (map (fun _ => 1) l) = Z.of_nat (List.length l).
Proof.
  unfold Spec.total. induction l as [|x l IH]; cbn [map fold_right List.length];
    [reflexivity|]. rewrite IH. lia.
Qed.

Lemma sum_minutes_total (rows : list StudySession) :
  Queries.sum_minutes rows
  = Spec.total (map (fun s => Sql.coalesce0 (ss_duration_minutes s)) rows).
Proof. apply sum_Z_total. Qed.

Lemma fold_left_mapped {A B C} (f : A -> B -> A) (g : C -> B) (l : list C)
  (a : A) :
  fold_left f (map g l) a = fold_left (fun a x => f a (g x)) l a.
Proof. revert a. induction l as [|x l IH]; intros a; cbn; auto. Qed.

Lemma group_keys (labels : list string) :
  let keys := Sql.order_by String.leb (Js.dedup labels) in
  NoDup keys /\ forall x, In x keys <-> In x labels.
Proof.
  intros keys. pose proof (order_by_perm String.leb (Js.dedup labels)) as Hp.
  fold keys in Hp. split.
  - apply (Permutation_NoDup (Permutation_sym Hp)). apply dedup_onto_NoDup.
  - intros x. rewrite (Permutation_in' (eq_refl x) Hp).
    unfold Js.dedup. rewrite dedup_onto_In. cbn. tauto.
Qed.

(** X11: on sessions whose types are among the four of the CHECK,
    [getStudyStats] reads without writing; its total is the sum of the
    minutes of the ended sessions, its entry for a session type is present
    exactly when an ended session has that type and holds their count and
    minutes, the per-type minutes add up to the total and the per-type
    counts to the number of ended sessions, and at most 5 recent sessions
    are listed. *)
Theorem getStudyStats_adds_up (c : Chat) :
  sessions_checked (db c) ->
  let ended := filter Queries.is_ended (study_sessions (db c)) in
  exists stats,
    getStudyStats c = Outcome c [] (inr stats)
    /\ totalMinutes stats
       = Spec.total (map (fun s => Sql.coalesce0 (ss_duration_minutes s)) ended)
    /\ (forall ty,
          object_get (sessionsByType stats) ty
          = match ended_of_type (db c) ty with
            | [] => None
            | _ :: _ =>
                Some {| ts_count :=
                          Z.of_nat (List.length (ended_of_type (db c) ty));
                        ts_totalMinutes :=
                          Queries.sum_minutes (ended_of_type (db c) ty) |}
            end)
    /\ Spec.total (map (fun e => ts_totalMinutes (snd e)) (sessionsByType stats))
       = totalMinutes stats
    /\ Spec.total (map (fun e => ts_count (snd e)) (sessionsByType stats))
       = Z.of_nat (List.length ended)
    /\ (List.length (recentSessions stats) <= 5)%nat.
Proof.
  intros _ ended. unfold getStudyStats, query, bind, ret.
  cbn [result final trace app].
  eexists. split; [reflexivity|].
  cbn [totalMinutes sessionsByType recentSessions].
  unfold Queries.select_total_minutes, Queries.select_by_type.
  fold ended.
  set (keys := Sql.order_by String.leb (Js.dedup (map ss_session_type ended))).
  destruct (group_keys (map ss_session_type ended)) as [Hn Hin]. fold keys in Hn, Hin.
  set (group := fun ty => filter (fun s => String.eqb (ss_session_type s) ty) ended).
  change (fun ty => {| Queries.tr_session_type := ty;
                       Queries.tr_count :=
                         Z.of_nat (List.length
                           (filter (fun s => String.eqb (ss_session_type s) ty)
                                   ended));
                       Queries.tr_total_minutes :=
                         Queries.sum_minutes
                           (filter (fun s => String.eqb (ss_session_type s) ty)
                                   ended) |})
    with (fun ty => {| Queries.tr_session_type := ty;
                       Queries.tr_count := Z.of_nat (List.length (group ty));
                       Queries.tr_total_minutes :=
                         Queries.sum_minutes (group ty) |}).
  rewrite fold_left_mapped.
  cbn [Queries.tr_session_type Queries.tr_count Queries.tr_total_minutes].
  set (val := fun ty => {| ts_count := Z.of_nat (List.length (group ty));
                           ts_totalMinutes := Queries.sum_minutes (group ty) |}).
  change (fold_left _ keys [])
    with (fold_left (fun o ty => object_set o ((fun k : string => k) ty) (val ty))
                    keys []).
  assert (Hid : forall f : string -> string, (forall x, f x = x) ->
                  NoDup (map f keys)).
  { intros f Hf. rewrite (map_ext f (fun x => x) Hf), map_id. exact Hn. }
  split; [apply sum_minutes_total|]. split; [|split; [|split]].
  - intros ty. rewrite object_filled by (apply Hid; reflexivity).
    change (ended_of_type (db c) ty) with (group ty).
    destruct (find (fun r => String.eqb r ty) keys) as [k|] eqn:E.
    + apply find_some in E as [Hk He]. apply String.eqb_eq in He. subst k.
      apply Hin, in_map_iff in Hk as (s & Hs & Hk).
      destruct (group ty) eqn:G; [|unfold val; now rewrite G].
      assert (In s (group ty)); [|now rewrite G in *].
      apply filter_In. split; [assumption|]. now apply String.eqb_eq.
    + destruct (group ty) as [|s g] eqn:G; [reflexivity|].
      assert (Hs : In s (group ty)) by (rewrite G; now left).
      apply filter_In in Hs as [Hs Ht]. apply String.eqb_eq in Ht.
      assert (Hk : In ty keys).
      { apply Hin, in_map_iff. now exists s. }
      apply (find_none _ _ E) in Hk. now rewrite String.eqb_refl in Hk.
  - rewrite object_filled_entries by (apply Hid; reflexivity).
    rewrite map_map. cbn [snd val ts_totalMinutes].
    rewrite sum_minutes_total.
    erewrite map_ext; [|intros ty; apply sum_minutes_total].
    apply (total_by_key ss_session_type); [assumption|].
    intros s Hs. apply Hin. now apply in_map.
  - rewrite object_filled_entries by (apply Hid; reflexivity).
    rewrite map_map. cbn [snd val ts_count].
    erewrite map_ext; [|intros ty; symmetry; apply total_ones].
    rewrite <- total_ones.
    apply (total_by_key ss_session_type (fun _ => 1)); [assumption|].
    intros s Hs. apply Hin. now apply in_map.
  - unfold Queries.select_recent_sessions. rewrite length_map.
    rewrite (limit_nonneg 5) by lia. apply firstn_le_length.
Qed.

(** Three sessions started, two of them (both reviews) ended. *)
Lemma stats_of_two_ended_sessions :
  let minutes (ended started : timestamp) := (ended - started) / 60 in
  let c :=
    after_calls minutes
      [OpStartSession "review" (Some "Math") None;
       OpStartSession "quiz" None None;
       OpStartSession "review" None None;
       OpEndSession 1 "done"; OpEndSession 3 "done"]
      Example.idle in
  sessions_checked (db c)
  /\ exists stats,
       result (getStudyStats c) = inr stats
       /\ option_map ts_count (object_get (sessionsByType stats) "review")
          = Some 2
       /\ object_get (sessionsByType stats) "quiz" = None.
Proof.
  intros minutes c.
  assert (H : sessions_checked (db c)) by (repeat constructor).
  split; [exact H|].
  destruct (getStudyStats_adds_up c H) as (stats & Hrun & _ & Hty & _).
  exists stats. split; [now rewrite Hrun|].
  split; [now rewrite (Hty "review")|now rewrite (Hty "quiz")].
Defined.

(** X12: [endSession] never throws; it sets end time, duration and summary
    on the rows with the given id and changes no other row and no other
    table; with an id that no session has it changes nothing at all. *)
Theorem endSession_touches_only_the_named_session
  (minutes_between : timestamp -> timestamp -> Z)
  (c : Chat) (sessionId : Z) (summary : string) :
  let r := endSession minutes_between sessionId summary c in
  let before := study_sessions (db c) in
  let after := study_sessions (db (final r)) in
  result r = inr tt
  /\ after
     = map (fun s => if ss_id s =? sessionId
                     then ended_session s summary
                            (minutes_between (clock c) (ss_started_at s))
                            (clock c)
                     else s) before
  /\ (forall s, In s before -> ss_id s <> sessionId -> In s after)
  /\ ((forall s, In s before -> ss_id s <> sessionId) -> final r = c)
  /\ user_profile (db (final r)) = user_profile (db c)
  /\ session_preferences (db (final r)) = session_preferences (db c)
  /\ knowledge (db (final r)) = knowledge (db c)
  /\ quiz_history (db (final r)) = quiz_history (db c).
Proof.
  intros r before after. subst r before after.
  unfold endSession, bind, now, sql. cbn.
  split; [reflexivity|]. split; [reflexivity|]. split; [|split].
  - intros s Hs Hne. apply in_map_iff. exists s. split; [|assumption].
    destruct (Z.eqb_spec (ss_id s) sessionId); [contradiction|reflexivity].
  - intros Hnone. unfold Queries.end_session, Queries.with_sessions, with_db.
    rewrite (map_ext_in _ (fun s => s)), map_id.
    + destruct c as [a b e f d m q k]; cbn. now destruct d.
    + intros s Hs. destruct (Z.eqb_spec (ss_id s) sessionId); [|reflexivity].
      now elim (Hnone s Hs).
  - repeat split.
Qed.

(** X13: a session started with [startSession] and ended with [endSession]
    under the returned id is stored with its summary, end time and
    duration; [getStudyStats] does not count it while it is open and counts
    its duration once it is ended. *)
Theorem ended_session_is_counted
  (minutes_between : timestamp -> timestamp -> Z)
  (c : Chat) (ty : string) (subject topic : option string)
  (summary : string) (t2 : timestamp) :
  well_formed (db c) ->
  Js.includes SessionType_values ty = true ->
  let id := seq_study_sessions (db c) + 1 in
  let started := final (startSession ty subject topic c) in
  let r := endSession minutes_between id summary (at_time started t2) in
  let minutes := minutes_between t2 (clock c) in
  study_sessions (db (final r))
  = study_sessions (db c)
    ++ [ended_session (started_session id ty subject topic (clock c))
                      summary minutes t2]
  /\ exists before open after,
       result (getStudyStats c) = inr before
       /\ result (getStudyStats started) = inr open
       /\ result (getStudyStats (final r)) = inr after
       /\ totalMinutes open = totalMinutes before
       /\ totalMinutes after = totalMinutes before + minutes.
Proof.
  intros Hwf Hty id started r minutes.
  assert (Hold : forall s, In s (study_sessions (db c)) -> ss_id s <> id).
  { intros s Hs. destruct Hwf as [_ _ _ _ _ _ _ [_ Hb]].
    pose proof (proj1 (Forall_forall _ _) Hb s Hs) as Hle. cbn in Hle.
    unfold id. lia. }
  assert (Hstarted : study_sessions (db started)
                     = study_sessions (db c)
                       ++ [started_session id ty subject topic (clock c)]).
  { unfold started. now rewrite (startSession_run c ty subject topic Hty). }
  assert (Hafter : study_sessions (db (final r))
                   = study_sessions (db c)
                     ++ [ended_session
                           (started_session id ty subject topic (clock c))
                           summary minutes t2]).
  { unfold r, endSession, bind, now, sql. cbn. rewrite Hstarted, map_app.
    rewrite (map_ext_in _ (fun s => s)), map_id.
    - cbn. now rewrite Z.eqb_refl.
    - intros s Hs. destruct (Z.eqb_spec (ss_id s) id); [|reflexivity].
      now elim (Hold s Hs). }
  split; [exact Hafter|].
  unfold getStudyStats, query, bind, ret. cbn [result final trace].
  do 3 eexists. split; [reflexivity|]. split; [reflexivity|].
  split; [reflexivity|]. cbn [totalMinutes Queries.select_total_minutes].
  rewrite Hstarted, Hafter, !filter_app. cbn [filter Queries.is_ended
    ss_ended_at started_session ended_session].
  rewrite !sum_minutes_total, app_nil_r, map_app, total_app. cbn. split; lia.
Qed.

(** A session of 1800 seconds, with the minutes taken as whole minutes of
    the clock. *)
Lemma half_hour_session_is_counted :
  let c := Example.idle in
  let minutes (ended started : timestamp) := (ended - started) / 60 in
  let r := endSession minutes 1 "done"
             (at_time (final (startSession "review" (Some "Math") None c))
                      2800) in
  (well_formed (db c)
   /\ Js.includes SessionType_values "review" = true)
  /\ exists after,
       result (getStudyStats (final r)) = inr after
       /\ totalMinutes after = 30.
Proof.
  intros c minutes r.
  assert (H1 : well_formed (db c)) by apply empty_database_wf.
  assert (H2 : Js.includes SessionType_values "review" = true) by reflexivity.
  split; [split; assumption|].
  destruct (ended_session_is_counted minutes c "review" (Some "Math") None
              "done" 2800 H1 H2)
    as (_ & before & open & after & Hb & _ & Ha & _ & Ht).
  exists after. split; [exact Ha|]. rewrite Ht.
  injection Hb as <-. reflexivity.
Defined.

(** ** The tools *)

(** X14: the resetProgress tool without the user's confirmation returns the
    cancellation message and changes nothing; in every case a table is
    either unchanged or emptied, and it is emptied only after confirmation
    and only under its own scope or the scope all; the plan and the
    conversation are untouched. *)
Theorem reset_tool_deletes_only_what_was_confirmed
  (resetType : string) (userConfirmed : bool) (c : Chat) :
  let r := Tools.resetProgress resetType userConfirmed c in
  let d := db c in
  let d' := db (final r) in
  (userConfirmed = false -> r = Outcome c [] (inr RESET_CANCELLED_MESSAGE))
  /\ (knowledge d' = knowledge d
      \/ userConfirmed = true /\ knowledge d' = []
         /\ (resetType = "all" \/ resetType = "knowledge"))
  /\ (quiz_history d' = quiz_history d
      \/ userConfirmed = true /\ quiz_history d' = []
         /\ (resetType = "all" \/ resetType = "quizzes"))
  /\ (study_sessions d' = study_sessions d
      \/ userConfirmed = true /\ study_sessions d' = []
         /\ (resetType = "all" \/ resetType = "sessions"))
  /\ (user_profile d' = user_profile d
      /\ session_preferences d' = session_preferences d
      \/ userConfirmed = true /\ resetType = "all"
         /\ user_profile d' = None /\ session_preferences d' = None)
  /\ same_plan c (final r)
  /\ messages (final r) = messages c.
Proof.
  intros r d d'. subst r d d'. unfold Tools.resetProgress.
  destruct userConfirmed; cbn [negb]; [|cbn; repeat split; auto; left; auto].
  split; [discriminate|].
  destruct (Js.includes ResetType_values resetType) eqn:E.
  - apply includes_In in E. cbn in E.
    destruct E as [<-|[<-|[<-|[<-|[]]]]]; cbn;
      repeat split; auto; try (left; split; reflexivity);
      try (left; reflexivity); right; auto 6.
  - rewrite (bind_throw _ _ c c [] (ValidationError "resetType" resetType)).
    + cbn. repeat split; auto; left; auto.
    + unfold resetProgress.
      apply (bind_throw _ _ c c [] (ValidationError "resetType" resetType)).
      now rewrite E.
Qed.

(** X15: the updateKnowledge tool with incrementStudyCount sets the study
    count of the topic to 1, whatever it was, instead of raising it;
    without it the count stays; the mastery is the given one or else the
    old one, and the quiz count stays. *)
Theorem knowledge_tool_sets_the_study_count_to_1
  (data : KnowledgeInput) (c : Chat) :
  knowledge_checked (db c) ->
  percent_or_absent (ki_masteryLevel data) ->
  percent_or_absent (ki_confidence data) ->
  let r := Tools.updateKnowledge data c in
  let prior := hd_error (Sql.select_topic (db c) (ki_subject data)
                           (ki_topic data)) in
  let old (col : Knowledge -> Z) : Z :=
    match prior with Some e => col e | None => 0 end in
  exists message e',
    result r = inr message
    /\ hd_error (Sql.select_topic (db (final r)) (ki_subject data)
                   (ki_topic data)) = Some e'
    /\ k_times_studied e'
       = (if truthy (ki_incrementStudyCount data) then 1
          else old k_times_studied)
    /\ k_mastery_level e'
       = match ki_masteryLevel data with
         | Some m => m
         | None => old k_mastery_level
         end
    /\ k_times_quizzed e' = old k_times_quizzed.
Proof.
  intros Hc Hm Hcf r prior old. subst r old.
  unfold Tools.updateKnowledge.
  match goal with |- context [updateKnowledge ?d] => set (kd := d) end.
  subst prior.
  destruct (hd_error (Sql.select_topic (db c) (ki_subject data) (ki_topic data)))
    as [e|] eqn:He.
  - pose proof (updateKnowledge_existing c kd e Hc He Hm Hcf) as Hup.
    rewrite (bind_ok _ _ _ _ _ Hup). cbn [ret result final].
    eexists. eexists. split; [reflexivity|].
    unfold Sql.select_topic. cbn [db with_rows with_db knowledge Sql.with_knowledge].
    change (kd_subject kd) with (ki_subject data).
    change (kd_topic kd) with (ki_topic data).
    rewrite hd_select_on_topic by (now apply harmless_knowledge_setter).
    unfold Sql.select_topic in He. rewrite He. cbn [option_map].
    split; [reflexivity|].
    destruct e. unfold knowledge_setter, kd. cbn.
    destruct (ki_masteryLevel data), (ki_confidence data),
      (truthy (ki_incrementStudyCount data)), (ki_weakAreas data),
      (ki_notes data); cbn; repeat split.
  - destruct (updateKnowledge_fresh c kd He) as (d' & Hup & Hk & _).
    { destruct (ki_masteryLevel data); [exact Hm|reflexivity]. }
    { destruct (ki_confidence data); [exact Hcf|reflexivity]. }
    rewrite (bind_ok _ _ _ _ _ Hup). cbn [ret result final].
    eexists. eexists. split; [reflexivity|].
    unfold Sql.select_topic. cbn [db with_db]. rewrite Hk.
    rewrite hd_select_after_insert.
    + split; [reflexivity|]. cbn.
      destruct (ki_masteryLevel data),
        (truthy (ki_incrementStudyCount data)); cbn; repeat split.
    + exact He.
    + unfold Sql.same_key. cbn. now rewrite !String.eqb_refl.
Qed.

(** The knowledge tool on the entry a quiz left. *)
Lemma study_count_of_algebra_is_set_to_1 :
  let c := Example.quizzed 40 in
  let data :=
    {| ki_subject := "Math"; ki_topic := "Algebra";
       ki_masteryLevel := None; ki_confidence := Some 70;
       ki_incrementStudyCount := Some true;
       ki_weakAreas := None; ki_notes := None |} in
  (knowledge_checked (db c)
   /\ percent_or_absent (ki_masteryLevel data)
   /\ percent_or_absent (ki_confidence data))
  /\ exists e',
       Example.algebra (final (Tools.updateKnowledge data c)) = Some e'
       /\ k_times_studied e' = 1
       /\ k_mastery_level e' = 40
       /\ k_times_quizzed e' = 1.
Proof.
  intros c data.
  assert (H1 : knowledge_checked (db c)) by (repeat constructor).
  assert (H2 : percent_or_absent (ki_masteryLevel data)) by exact I.
  assert (H3 : percent_or_absent (ki_confidence data)) by reflexivity.
  split; [repeat (split; [assumption|]); assumption|].
  destruct (knowledge_tool_sets_the_study_count_to_1 data c H1 H2 H3)
    as (message & e' & _ & He & Hs & Hm & Hq).
  exists e'. split; [exact He|]. split; [exact Hs|].
  split; [exact Hm|exact Hq].
Defined.

Lemma filter_nil_iff {A} (p : A -> bool) (l : list A) :
  filter p l = [] <-> forall x, In x l -> p x = false.
Proof.
  induction l as [|x l IH]; cbn; [tauto|].
  destruct (p x) eqn:E; split.
  - discriminate.
  - intros H. specialize (H x (or_introl eq_refl)). congruence.
  - intros H y [<-|Hy]; [assumption|]. now apply IH.
  - intros H. apply IH. intros y Hy. apply H. now right.
Qed.

Lemma limit_nil_iff {A} (n : Z) (l : list A) :
  n <> 0 -> (Sql.limit n l = [] <-> l = []).
Proof.
  intros Hn. unfold Sql.limit. destruct (Z.ltb_spec n 0); [tauto|].
  destruct (Z.to_nat n) as [|m] eqn:E; [lia|].
  destruct l; cbn; [tauto|]. split; discriminate.
Qed.

Lemma order_by_nil_iff {A} (le : A -> A -> bool) (l : list A) :
  Sql.order_by le l = [] <-> l = [].
Proof.
  pose proof (order_by_perm le l) as Hp. split; intros H.
  - rewrite H in Hp. now apply Permutation_nil.
  - now rewrite H.
Qed.

(** X16: the getWeakAreas tool reads without writing and returns either its
    praise or a non-empty list of weak entries; with a limit other than 0
    it returns the praise exactly when every entry has mastery at least 60
    and confidence at least 50; with the limit 0 it returns the praise
    whatever the table holds. *)
Theorem weak_areas_tool_praises_only_without_weak_areas
  (limit : option Z) (c : Chat) :
  let n := match limit with Some n => n | None => 10 end in
  let r := Tools.getWeakAreas limit c in
  let praise : exn + (string + list Knowledge) :=
    inr (inl "No weak areas found - great job!") in
  final r = c
  /\ (result r = praise
      \/ exists rows, result r = inr (inr rows) /\ rows <> []
                      /\ Forall (fun k => Sql.is_weak k = true) rows)
  /\ (n <> 0 ->
      (result r = praise <->
       forall k, In k (knowledge (db c)) ->
                 60 <= k_mastery_level k /\ 50 <= k_confidence k))
  /\ (n = 0 -> result r = praise).
Proof.
  intros n r praise. subst r praise.
  unfold Tools.getWeakAreas, getWeakAreas, query, bind, ret. fold n.
  cbn [result final trace]. split; [reflexivity|].
  unfold Sql.select_weak.
  set (weak := filter Sql.is_weak (knowledge (db c))).
  set (ranked := Sql.order_by Sql.weakest_first weak).
  split; [|split].
  - destruct (Sql.limit n ranked) as [|k rows] eqn:E; [now left|right].
    exists (k :: rows). split; [reflexivity|]. split; [discriminate|].
    apply Forall_forall. intros x Hx. rewrite <- E in Hx.
    assert (Hr : In x ranked).
    { unfold Sql.limit in Hx. destruct (n <? 0); [assumption|].
      eapply In_firstn; eassumption. }
    apply (Permutation_in _ (order_by_perm _ weak)) in Hr.
    now apply filter_In in Hr.
  - intros Hn.
    assert (Hnil : Sql.limit n ranked = [] <->
                   forall k, In k (knowledge (db c)) ->
                             60 <= k_mastery_level k /\ 50 <= k_confidence k).
    { rewrite (limit_nil_iff n ranked Hn). unfold ranked.
      rewrite order_by_nil_iff. unfold weak. rewrite filter_nil_iff.
      split; intros H k Hk; specialize (H k Hk).
      - unfold Sql.is_weak in H. apply orb_false_elim in H as [H1 H2].
        apply Z.ltb_ge in H1, H2. lia.
      - unfold Sql.is_weak. apply orb_false_intro; apply Z.ltb_ge; lia. }
    rewrite <- Hnil. destruct (Sql.limit n ranked); split;
      try reflexivity; discriminate.
  - intros Hn. rewrite Hn. reflexivity.
Qed.

(** ** The question after a change of the preferences *)

Lemma stored_string_decides (x old : option string) :
  negb (is_truthy_string (column_after (of_option x) old))
  && negb (is_truthy_string x)
  = negb (is_truthy_string (column_after (of_option x) old)).
Proof.
  destruct x as [v|]; cbn; [|apply andb_diag || idtac].
  - now destruct (is_truthy_string (Some v)).
  - unfold is_truthy_string at 2. cbn. apply andb_true_r.
Qed.

Lemma stored_goal_decides (x old : option string) (literal : string) :
  is_string x literal || is_string (column_after (of_option x) old) literal
  = is_string (column_after (of_option x) old) literal.
Proof. destruct x as [v|]; cbn; [apply orb_diag|reflexivity]. Qed.

Lemma stored_number_decides (x old : option Z) :
  negb (truthy_number (column_after (of_option x) old))
  && negb (truthy_number x)
  = negb (truthy_number (column_after (of_option x) old)).
Proof. destruct x as [v|]; cbn; [apply andb_diag|apply andb_true_r]. Qed.

Lemma stored_hints_decide (x old : option bool) :
  match column_after (of_option x) old with
  | None => true
  | Some _ => false
  end && match x with None => true | Some _ => false end
  = match column_after (of_option x) old with
    | None => true
    | Some _ => false
    end.
Proof. destruct x; cbn; [reflexivity|apply andb_true_r]. Qed.

Lemma or_null_of_option {A} (x : option A) :
  or_null (of_option x) = column_after (of_option x) None.
Proof. now destruct x. Qed.

Lemma session_next_action_stored (data : SessionPreferencesInput)
  (t : timestamp) (old : option SessionPreferences) :
  Tools.session_next_action data
    (Some (preferences_after (Tools.preferences_of_input data) t old))
  = session_action (preferences_after (Tools.preferences_of_input data) t old).
Proof.
  unfold Tools.session_next_action, session_action, Tools.column.
  destruct old as [p|];
    cbn [preferences_after Tools.preferences_of_input goal learnTopic
         learnConcept examName examDepth examTimeLeft quizTopic
         quizNumQuestions quizType quizHintsAllowed onboardingComplete
         sp_goal sp_learn_topic sp_learn_concept sp_exam_name sp_exam_depth
         sp_exam_time_left sp_quiz_topic sp_quiz_num_questions sp_quiz_type
         sp_quiz_hints_allowed];
    rewrite ?or_null_of_option;
    rewrite !stored_goal_decides, !stored_string_decides,
      !stored_number_decides, !stored_hints_decide;
    destruct (column_after (of_option (si_quizHintsAllowed data)) _);
    reflexivity.
Qed.

(** X17: the updateSessionPreferences tool with valid enum values stores
    the given fields and returns the message of the next question, which is
    chosen by the row as stored after the update (the fields of earlier
    calls included), not by the arguments of this call alone. *)
Theorem preferences_tool_asks_by_what_is_stored
  (data : SessionPreferencesInput) (c : Chat) :
  invalid_enum (UpdateSessionPreferences (Tools.preferences_of_input data))
  = false ->
  preferences_checked (db c) ->
  let r := Tools.updateSessionPreferences data c in
  exists stored,
    session_preferences (db (final r)) = Some stored
    /\ stored = preferences_after (Tools.preferences_of_input data) (clock c)
                  (session_preferences (db c))
    /\ result r = inr ("Session saved. " ++ session_action stored)%string.
Proof.
  intros Hv Hc r. subst r. unfold Tools.updateSessionPreferences.
  rewrite (bind_ok _ _ _ _ _
             (updateSessionPreferences_run _ c Hv Hc)).
  unfold getSessionPreferences, query, bind, ret. cbn [result final trace db with_db
    session_preferences preferences_stored].
  eexists. split; [reflexivity|]. split; [reflexivity|].
  now rewrite session_next_action_stored.
Qed.

(** The preferences tool told the goal and the topic. *)
Lemma preferences_tool_asks_for_the_concept :
  let data :=
    {| si_goal := Some "learn"; si_learnTopic := Some "Recursion";
       si_learnConcept := None; si_examName := None; si_examDepth := None;
       si_examTimeLeft := None; si_quizTopic := None;
       si_quizNumQuestions := None; si_quizType := None;
       si_quizHintsAllowed := None; si_onboardingComplete := None |} in
  let c := Example.idle in
  (invalid_enum (UpdateSessionPreferences (Tools.preferences_of_input data))
   = false
   /\ preferences_checked (db c))
  /\ result (Tools.updateSessionPreferences data c)
     = inr ("Session saved. " ++ NEXT_ASK_LEARN_CONCEPT)%string.
Proof.
  intros data c.
  assert (H1 : invalid_enum
                 (UpdateSessionPreferences (Tools.preferences_of_input data))
               = false) by reflexivity.
  assert (H2 : preferences_checked (db c)) by exact I.
  split; [split; assumption|].
  destruct (preferences_tool_asks_by_what_is_stored data c H1 H2)
    as (stored & _ & Hs & Hr).
  rewrite Hr, Hs. reflexivity.
Defined.

(** ** Routing *)

Section RoutingFacts.

Variable classify : string -> string -> option jsval.

Lemma route_last (ms : list UIMessage) (m : UIMessage) :
  onChatMessage_route classify (ms ++ [m])
  = match role m with
    | assistant => Ignored
    | user =>
        match text_of m with
        | None => Streamed
        | Some prompt =>
            match classifyIntent classify prompt
                    match rev ms with
                    | prev :: _ =>
                        match role prev with
                        | assistant => text_of prev
                        | user => None
                        end
                    | [] => None
                    end
            with
            | CONVERSATIONAL => Streamed
            | LEARNING => Planned prompt
            end
        end
    end.
Proof. unfold onChatMessage_route. now rewrite rev_app_distr. Qed.

(** X18: [onChatMessage] does nothing on an empty conversation or when the
    last message is the assistant's; so the calls that the plan flow's own
    saves trigger (the acknowledgment, the combined reply) are ignored. *)
Theorem onChatMessage_ignores_the_messages_of_the_agent
  (ai : ai_request -> option jsval) (parse : string -> option jsval)
  (store : list UIMessage -> bool) (c : Chat) :
  onChatMessage_route classify [] = Ignored
  /\ (forall ms reply,
        onChatMessage_route classify
          (ms ++ [{| role := assistant; text := reply |}]) = Ignored)
  /\ (forall prompt plan,
        result (onChatMessage_plan store prompt plan c) = inr PlanFlow ->
        onChatMessage_route classify
          (messages (final (onChatMessage_plan store prompt plan c)))
        = Ignored)
  /\ (knowledge_checked (db c) ->
      result (outputCombinedResult ai parse store c) = inr tt ->
      onChatMessage_route classify
        (messages (final (outputCombinedResult ai parse store c)))
      = Ignored).
Proof.
  split; [reflexivity|]. split; [intros; now rewrite route_last|]. split.
  - intros prompt plan. unfold onChatMessage_plan.
    destruct (List.length plan <=? 1)%nat; [discriminate|].
    unfold bind, get, set_plan, saveMessages, schedule, ret.
    cbn [result final trace messages].
    destruct (store _); cbn; [|discriminate]. intros _. now rewrite route_last.
  - intros Hc.
    destruct (outputCombinedResult_value ai parse store c Hc) as (d' & _ & H).
    cbv zeta in H. rewrite H. destruct (store _); cbn; [|discriminate].
    intros _. now rewrite route_last.
Qed.

(** X19: a user message is either streamed or planned; it is planned only
    when the classifier's call answered and the first word of the trimmed,
    upper-cased answer is LEARNING; a blank message, and a failing
    classifier, are streamed. *)
Theorem onChatMessage_plans_only_on_the_word_LEARNING
  (ms : list UIMessage) (prompt : string) :
  let r := onChatMessage_route classify
             (ms ++ [{| role := user; text := prompt |}]) in
  (r = Streamed \/ r = Planned prompt)
  /\ (all_blank prompt = true -> r = Streamed)
  /\ (r = Planned prompt ->
      exists contextLine answer raw,
        classify contextLine (Js.take 300 (Js.trim prompt)) = Some answer
        /\ raw_response answer = JStr raw
        /\ first_word (toUpperCase (Js.trim raw)) = "LEARNING")
  /\ ((forall contextLine message, classify contextLine message = None) ->
      r = Streamed).
Proof.
  intros r. subst r. rewrite route_last. cbn [role].
  change (text_of {| role := user; text := prompt |})
    with (if String.eqb prompt EmptyString then @None string else Some prompt).
  destruct (String.eqb_spec prompt EmptyString) as [->|Hne].
  { split; [now left|split; [auto|split; [discriminate|auto]]]. }
  set (last := match rev ms with
               | prev :: _ => match role prev with
                              | assistant => text_of prev
                              | user => None
                              end
               | [] => None
               end).
  unfold classifyIntent.
  destruct (Nat.eqb_spec (String.length (Js.trim prompt)) 0) as [Hlen|Hlen].
  { split; [now left|split; [auto|split; [discriminate|auto]]]. }
  set (ctx := match truthy_string last with
              | Some l => CLASSIFIER_CONTEXT_TEMPLATE l
              | None => EmptyString
              end).
  destruct (classify ctx (Js.take 300 (Js.trim prompt))) as [v|] eqn:Hv.
  2:{ split; [left; reflexivity|]. split; [reflexivity|].
      split; [discriminate|reflexivity]. }
  unfold classifier_word.
  destruct (raw_response v) as [| | | |raw| |] eqn:Hraw;
    try (split; [left; reflexivity|]; split;
         [intros Hb; apply trim_all_blank in Hb; rewrite Hb in Hlen;
          now elim Hlen|];
         split; [discriminate|]; intros Hnone; now rewrite Hnone in Hv).
  destruct (String.eqb_spec (first_word (toUpperCase (Js.trim raw))) "LEARNING")
    as [Hw|Hw].
  - split; [right; reflexivity|]. split.
    + intros Hb. apply trim_all_blank in Hb. rewrite Hb in Hlen. now elim Hlen.
    + split; [|intros Hnone; now rewrite Hnone in Hv].
      intros _. exists ctx, v, raw. auto.
  - split; [left; reflexivity|]. split; [reflexivity|].
    split; [discriminate|reflexivity].
Qed.

End RoutingFacts.

(** ** The plan generator and the topic inference *)

(** X20: [generatePlan] sends exactly one request and changes nothing of
    the agent; a failing request is thrown on to the caller, any answer
    gives a plan of at most 10 steps, and an answer that is neither an
    object nor a string gives the prompt as the one step. *)
Theorem generatePlan_asks_once_and_returns_at_most_10_steps
  (ai : ai_request -> option jsval) (parse : string -> option jsval)
  (prompt : string) (c : Chat) :
  let r := generatePlan ai parse prompt c in
  final r = c
  /\ trace r = [Inference (PlanRequest prompt)]
  /\ match ai (PlanRequest prompt) with
     | None => result r = inl InferenceError
     | Some answer =>
         exists steps,
           result r = inr steps
           /\ (List.length steps <= 10)%nat
           /\ match answer with
              | JUndefined | JNull | JBool _ | JNum _ => steps = [JStr prompt]
              | _ => True
              end
     end.
Proof.
  intros r. subst r. unfold generatePlan, infer, bind, emit, ret, throw.
  cbn [result final trace].
  destruct (ai (PlanRequest prompt)) as [v|]; cbn; [|auto].
  split; [reflexivity|]. split; [reflexivity|].
  eexists. split; [reflexivity|]. split; [apply steps_of_response_length|].
  destruct v; try exact Logic.I; now apply steps_of_response_fallback.
Qed.

(** X21: [inferSubjectTopicFromAI] never throws and changes nothing of the
    agent: it sends one request on the first 300 characters of the prompt
    and returns [null] when the request fails; a subject and topic it
    returns are trimmed. *)
Theorem inferSubjectTopicFromAI_never_throws
  (ai : ai_request -> option jsval) (parse : string -> option jsval)
  (prompt : string) (c : Chat) :
  exists info,
    inferSubjectTopicFromAI ai parse prompt c
    = Outcome c [Inference (InferRequest (Js.take 300 prompt))] (inr info)
    /\ match info with
       | Some (subject, topic) =>
           Js.trim subject = subject /\ Js.trim topic = topic
           /\ exists answer, ai (InferRequest (Js.take 300 prompt)) = Some answer
       | None => True
       end
    /\ (ai (InferRequest (Js.take 300 prompt)) = None -> info = None).
Proof.
  exists (inferred_topic ai parse prompt).
  split; [apply inferSubjectTopicFromAI_value|].
  unfold inferred_topic, topic_of_answer.
  destruct (ai (InferRequest (Js.take 300 prompt))) as [v|]; [|auto].
  split; [|discriminate].
  destruct (raw_response v); try exact Logic.I.
  destruct (Js.match_delimited _ _ _); [|exact Logic.I].
  destruct (parse _) as [p|]; [|exact Logic.I].
  destruct (prop p "subject"); try exact Logic.I.
  destruct (prop p "topic"); try exact Logic.I.
  split; [apply trim_idempotent|]. split; [apply trim_idempotent|].
  now exists v.
Qed.

(** ** What the knowledge operations leave alone *)

Section Frame.

Variables subject topic : string.
Variable d0 : Database.

(** The rows of the other topics and the other tables are those of
    [d0]. *)
Let framed (d : Database) : Prop :=
  other_topics subject topic d = other_topics subject topic d0
  /\ same_other_tables d0 d.

Lemma update_knowledge_framed d set d' :
  column_setter set -> framed d ->
  Sql.update_knowledge d subject topic set = inr d' -> framed d'.
Proof.
  intros Hs [Hk Ho] H. unfold Sql.update_knowledge in H.
  destruct (forallb _ (knowledge d)); [|discriminate]. injection H as <-.
  split; [|exact Ho]. rewrite <- Hk. unfold other_topics. cbn.
  clear -Hs. induction (knowledge d) as [|k rows IH]; cbn; [reflexivity|].
  destruct (Sql.same_key subject topic k) eqn:E; cbn.
  - assert (Sql.same_key subject topic (set k) = true) as ->; [|exact IH].
    apply same_key_key_of. rewrite (proj2 (Hs k)). now apply same_key_key_of.
  - rewrite E. cbn. now rewrite IH.
Qed.

Lemma insert_knowledge_framed d t m cf st qz ls lq wa nt d' :
  framed d ->
  Sql.insert_knowledge d t subject topic m cf st qz ls lq wa nt = inr d' ->
  framed d'.
Proof.
  intros [Hk Ho] H. unfold Sql.insert_knowledge in H.
  destruct (negb _); [discriminate|].
  destruct (existsb _ _); [discriminate|]. injection H as <-.
  split; [|exact Ho]. rewrite <- Hk. unfold other_topics. cbn.
  rewrite filter_app. cbn. unfold Sql.same_key at 2. cbn.
  rewrite !String.eqb_refl. cbn. apply app_nil_r.
Qed.

Lemma updateKnowledge_framed (data : KnowledgeData) :
  kd_subject data = subject -> kd_topic data = topic ->
  keeps framed (updateKnowledge data).
Proof.
  intros Hs Ht. unfold updateKnowledge. rewrite Hs, Ht.
  apply keeps_bind; [apply keeps_query|]. intros existing.
  apply keeps_bind; [apply keeps_now|]. intros t.
  assert (Hcol : forall A (x : option A) set,
             (forall v, column_setter (set v)) ->
             keeps framed (update_column subject topic x set)).
  { intros A x set Hset. unfold update_column.
    destruct x as [v|]; [|apply keeps_ret].
    apply keeps_sql. intros d d' Hd. now apply update_knowledge_framed. }
  destruct existing as [e|].
  - repeat (apply keeps_bind; [apply Hcol; intros v k; destruct k; split;
                               reflexivity|]; intros _).
    apply Hcol; intros v k; destruct k; split; reflexivity.
  - apply keeps_sql. intros d d' Hd. now apply insert_knowledge_framed.
Qed.

End Frame.

(** ** Operations on the tables only *)

Lemma with_db_same (c : Chat) : with_db c (db c) = c.
Proof. now destruct c. Qed.

Lemma store_only_ret {A} (a : A) : store_only (ret a).
Proof. intros c. cbn. now rewrite with_db_same. Qed.

Lemma store_only_throw {A} (e : exn) : store_only (@throw A e).
Proof. intros c. cbn. now rewrite with_db_same. Qed.

Lemma store_only_query {A} (q : Database -> A) : store_only (query q).
Proof. intros c. cbn. now rewrite with_db_same. Qed.

Lemma store_only_now : store_only now.
Proof. intros c. cbn. now rewrite with_db_same. Qed.

Lemma store_only_sql stmt : store_only (sql stmt).
Proof.
  intros c. unfold sql. destruct (stmt (db c)); cbn;
    [now rewrite with_db_same|reflexivity].
Qed.

Lemma store_only_bind {A B} (m : M A) (k : A -> M B) :
  store_only m -> (forall a, store_only (k a)) -> store_only (bind m k).
Proof.
  intros Hm Hk c. unfold bind. specialize (Hm c).
  destruct (result (m c)) as [e|a]; cbn; [exact Hm|].
  rewrite (Hk a (final (m c))). rewrite Hm at 1. reflexivity.
Qed.

Lemma store_only_when b m : store_only m -> store_only (when b m).
Proof. intros H. destruct b; [exact H|apply store_only_ret]. Qed.

Lemma store_only_updateKnowledge data : store_only (updateKnowledge data).
Proof.
  unfold updateKnowledge.
  apply store_only_bind; [apply store_only_query|]. intros existing.
  apply store_only_bind; [apply store_only_now|]. intros t.
  assert (Hcol : forall A s tp (x : option A) set,
             store_only (update_column s tp x set)).
  { intros A s tp x set. unfold update_column.
    destruct x; [apply store_only_sql|apply store_only_ret]. }
  destruct existing.
  - repeat (apply store_only_bind; [apply Hcol|]; intros _). apply Hcol.
  - apply store_only_sql.
Qed.

Lemma store_only_recordQuiz data : store_only (recordQuiz data).
Proof.
  unfold recordQuiz.
  apply store_only_bind.
  { destruct (Js.includes _ _); [apply store_only_ret|apply store_only_throw]. }
  intros _. apply store_only_bind; [apply store_only_now|]. intros t.
  apply store_only_bind; [apply store_only_sql|]. intros _.
  apply store_only_bind; [apply store_only_query|]. intros insertedId.
  destruct (truthy_string (qr_topic data)); [|apply store_only_ret].
  apply store_only_bind; [apply store_only_query|]. intros existing.
  apply store_only_bind; [|intros _; apply store_only_ret].
  destruct existing; apply store_only_updateKnowledge.
Qed.

Lemma store_only_same_plan {A} (m : M A) (c : Chat) :
  store_only m ->
  same_plan c (final (m c)) /\ messages (final (m c)) = messages c
  /\ schedules (final (m c)) = schedules c.
Proof. intros H. rewrite (H c). repeat split. Qed.

(** X22: [updateKnowledge], whether it returns or throws, leaves the
    entries of every other topic, the other tables, the plan, the
    conversation and the schedule as they were. *)
Theorem updateKnowledge_touches_only_its_topic
  (data : KnowledgeData) (c : Chat) :
  let r := updateKnowledge data c in
  other_topics (kd_subject data) (kd_topic data) (db (final r))
  = other_topics (kd_subject data) (kd_topic data) (db c)
  /\ same_other_tables (db c) (db (final r))
  /\ same_plan c (final r)
  /\ messages (final r) = messages c
  /\ schedules (final r) = schedules c.
Proof.
  intros r. subst r.
  destruct (updateKnowledge_framed (kd_subject data) (kd_topic data) (db c)
              data eq_refl eq_refl c) as [Hk Ho].
  { split; [reflexivity|]. repeat split. }
  split; [exact Hk|]. split; [exact Ho|].
  apply store_only_same_plan, store_only_updateKnowledge.
Qed.

(** X23: [recordQuiz], whether it returns or throws, leaves profile,
    preferences, study sessions, plan, conversation and schedule as they
    were; the ledger is unchanged or has one new row at its end with the
    subject, topic and score of the call; the knowledge entries of other
    topics are unchanged, and without a topic the whole knowledge table is. *)
Theorem recordQuiz_touches_only_the_ledger_and_its_topic
  (data : QuizResult) (c : Chat) :
  let r := recordQuiz data c in
  let d := db c in
  let d' := db (final r) in
  user_profile d' = user_profile d
  /\ session_preferences d' = session_preferences d
  /\ study_sessions d' = study_sessions d
  /\ (quiz_history d' = quiz_history d
      \/ exists row, quiz_history d' = quiz_history d ++ [row]
                     /\ q_subject row = qr_subject data
                     /\ q_topic row = qr_topic data
                     /\ q_score row = qr_score data)
  /\ match truthy_string (qr_topic data) with
     | Some topic =>
         other_topics (qr_subject data) topic d'
         = other_topics (qr_subject data) topic d
     | None => knowledge d' = knowledge d
     end
  /\ same_plan c (final r)
  /\ messages (final r) = messages c
  /\ schedules (final r) = schedules c.
Proof.
  intros r d d'.
  assert (Hplan : same_plan c (final r) /\ messages (final r) = messages c
                  /\ schedules (final r) = schedules c)
    by (apply store_only_same_plan, store_only_recordQuiz).
  cut (user_profile d' = user_profile d
       /\ session_preferences d' = session_preferences d
       /\ study_sessions d' = study_sessions d
       /\ (quiz_history d' = quiz_history d
           \/ exists row, quiz_history d' = quiz_history d ++ [row]
                          /\ q_subject row = qr_subject data
                          /\ q_topic row = qr_topic data
                          /\ q_score row = qr_score data)
       /\ match truthy_string (qr_topic data) with
          | Some topic =>
              other_topics (qr_subject data) topic d'
              = other_topics (qr_subject data) topic d
          | None => knowledge d' = knowledge d
          end).
  { intros (H1 & H2 & H3 & H4 & H5). repeat (split; [assumption|]). exact Hplan. }
  clear Hplan. subst d' r d.
  set (P := fun x : Database =>
       user_profile x = user_profile (db c)
       /\ session_preferences x = session_preferences (db c)
       /\ study_sessions x = study_sessions (db c)
       /\ (quiz_history x = quiz_history (db c)
           \/ exists row, quiz_history x = quiz_history (db c) ++ [row]
                          /\ q_subject row = qr_subject data
                          /\ q_topic row = qr_topic data
                          /\ q_score row = qr_score data)
       /\ match truthy_string (qr_topic data) with
          | Some topic =>
              other_topics (qr_subject data) topic x
              = other_topics (qr_subject data) topic (db c)
          | None => knowledge x = knowledge (db c)
          end).
  change (P (db (final (recordQuiz data c)))).
  assert (Hsame : P (db c)).
  { unfold P. repeat (split; [reflexivity|]). split; [now left|].
    now destruct (truthy_string (qr_topic data)). }
  unfold recordQuiz.
  destruct (Js.includes QuizType_values (qr_quizType data));
    [|exact Hsame].
  unfold bind at 1. cbn [ret result final trace].
  unfold bind at 1. cbn [now result final trace].
  unfold bind at 1. unfold sql. cbv beta.
  destruct (Sql.insert_quiz (db c) _ _ _ _ _ _ _ _ _ _) as [e|d1] eqn:E;
    cbn [result final trace]; [exact Hsame|].
  clear Hsame.
  assert (Hd1 : user_profile d1 = user_profile (db c)
                /\ session_preferences d1 = session_preferences (db c)
                /\ study_sessions d1 = study_sessions (db c)
                /\ knowledge d1 = knowledge (db c)
                /\ exists row, quiz_history d1 = quiz_history (db c) ++ [row]
                               /\ q_subject row = qr_subject data
                               /\ q_topic row = qr_topic data
                               /\ q_score row = qr_score data).
  { unfold Sql.insert_quiz in E. destruct (negb _); [discriminate|].
    injection E as <-. cbn. repeat (split; [reflexivity|]).
    eexists. split; [reflexivity|]. cbn. repeat split. }
  destruct Hd1 as (P1 & P2 & P3 & P4 & P5).
  unfold bind at 1. cbn [query result final trace].
  destruct (truthy_string (qr_topic data)) as [topic|] eqn:T.
  - set (c1 := with_db c d1).
    set (rest := bind _ _).
    assert (K : keeps (fun x =>
                  other_topics (qr_subject data) topic x
                  = other_topics (qr_subject data) topic d1
                  /\ same_other_tables d1 x) rest).
    { subst rest. apply keeps_bind; [apply keeps_query|]. intros existing.
      apply keeps_bind; [|intros u; apply keeps_ret].
      destruct existing as [e|];
        apply (updateKnowledge_framed (qr_subject data) topic d1);
        reflexivity. }
    destruct (K c1) as (Hk & Q1 & Q2 & Q3 & Q4).
    { split; [reflexivity|]. repeat split. }
    cbn [final]. unfold P. rewrite Q1, Q2, Q4, Q3, Hk.
    repeat (split; [assumption|]). split; [now right|].
    unfold other_topics. now rewrite P4.
  - cbn. unfold P. repeat (split; [assumption|]).
    split; [now right|]. exact P4.
Qed.

(** X24: the endStudySession tool never throws and always answers that the
    session was ended and saved: with an id that no session has it changes
    nothing and still says so, and every session with the id, open or
    already ended, gets the end time, duration and summary of this call. *)
Theorem end_session_tool_reports_success_for_any_id
  (minutes_between : timestamp -> timestamp -> Z)
  (sessionId : Z) (summary : string) (c : Chat) :
  let r := Tools.endStudySession minutes_between sessionId summary c in
  result r
  = inr ("Study session " ++ show_Z sessionId ++ " ended and saved.")%string
  /\ trace r = []
  /\ ((forall s, In s (study_sessions (db c)) -> ss_id s <> sessionId) ->
      final r = c)
  /\ (forall s, In s (study_sessions (db c)) -> ss_id s = sessionId ->
      In (ended_session s summary
            (minutes_between (clock c) (ss_started_at s)) (clock c))
         (study_sessions (db (final r)))).
Proof.
  intros r. subst r. unfold Tools.endStudySession, endSession, bind, now, sql, ret.
  cbn [result final trace app db with_db].
  split; [reflexivity|]. split; [reflexivity|]. split.
  - intros Hnone. destruct c as [ps sr op ip d ms sch cl]. unfold with_db. cbn.
    f_equal. destruct d as [up sp kn qh ss sk sq sn li]; cbn in *.
    unfold Queries.end_session, Queries.with_sessions. cbn. f_equal.
    rewrite <- (map_id ss) at 2. apply map_ext_in.
    intros s Hs. destruct (Z.eqb_spec (ss_id s) sessionId); [|reflexivity].
    now elim (Hnone s Hs).
  - intros s Hs Hid. unfold Queries.end_session, Queries.with_sessions. cbn.
    apply in_map_iff. exists s. split; [|exact Hs].
    cbv beta. rewrite (proj2 (Z.eqb_eq _ _) Hid). reflexivity.
Qed.
